(** * OpenDiablo2 — the UI widget factory (d2core/d2systems/scene_widget_system.go)

    A shallow embedding of the widget load queues, the bitmap-font cache, the
    button state-sprite construction, the per-tick time budget and the boot
    gate of [UIWidgetFactory], together with the logger of d2common/d2util
    and the button test scene that uses the factory.

    The entity/component world (akara), the sprite factory, the render system,
    the resource cache and the widget logic objects are collaborators whose
    sources are not part of this development; they are modelled at their
    interface and every such definition says so. *)

From Stdlib Require Import ZArith NArith String Ascii List Lia.
From stdpp Require Import gmap strings list fin_maps pretty.

Set Default Proof Using "Type".
Local Open Scope string_scope.

(** ** Identifiers and handles *)

(** akara.EID is an unsigned 64-bit entity identifier. *)
Abbreviation EID := N (only parsing).
(** References to heap objects shared by pointer in the Go code. *)
Abbreviation FontRef := nat (only parsing).
Abbreviation SpriteRef := N (only parsing).
Abbreviation Surface := N (only parsing).
Abbreviation Renderer := N (only parsing).
Abbreviation Callback := N (only parsing).
Abbreviation Color := N (only parsing).
(** Screen coordinates are float64 in the source.  The functions embedded here
    only store and copy them, so they are carried as integers. *)
Abbreviation float64 := Z (only parsing).

(** ** A result type for code that may dereference nil *)

Inductive fault :=
  | NilRenderSystem   (* t.RenderSystem is nil when t.renderer is read *)
  | NilBitmapFont     (* the BitmapFont component embeds a nil pointer *)
  | NilButton         (* Button.Get returned nil and the result is used *)
  | NilTexture        (* assignment through a nil *Texture *)
  | NilSprite         (* method call on a nil d2interface.Sprite *)
  | NilRenderer.      (* method call on a nil d2interface.Renderer *)

Inductive result (A : Type) :=
  | Ok (a : A)
  | Panic (f : fault).
Arguments Ok {A} a.
Arguments Panic {A} f.

Definition bind {A B} (m : result A) (k : A → result B) : result B :=
  match m with
  | Ok a => k a
  | Panic f => Panic f
  end.

Notation "x ⇐ m ;; k" := (bind m (λ x, k))
  (at level 100, m at next level, right associativity,
   format "x  ⇐  m ;;  '/' k").

(** ** d2common/d2util/logger.go *)

Module Logger.

(** LogLevel = int, the constants are an iota block starting at 0. *)
Abbreviation LogLevel := Z (only parsing).
Definition LogLevelNone : LogLevel := 0.
Definition LogLevelFatal : LogLevel := 1.
Definition LogLevelError : LogLevel := 2.
Definition LogLevelWarning : LogLevel := 3.
Definition LogLevelInfo : LogLevel := 4.
Definition LogLevelDebug : LogLevel := 5.
Definition LogLevelUnspecified : LogLevel := 6.
Definition LogLevelDefault : LogLevel := LogLevelInfo.

Definition red : Z := 1.
Definition green : Z := 2.
Definition yellow : Z := 3.
Definition magenta : Z := 5.
Definition cyan : Z := 6.

Definition esc : string := String "027"%char "".

(** fmt.Sprintf("\033[3%dm", c) for the one-digit colours above; the
    zero value of the colour table (a level without an entry) prints 0. *)
Definition digit (c : Z) : string :=
  String (ascii_of_N (48 + Z.to_N c)) "".
Definition fmtColorEscape (c : Z) : string := esc ++ "[3" ++ digit c ++ "m".
Definition colorEscapeReset : string := esc ++ "[0m".
Definition crlf : string := String "013"%char (String "010"%char "").

Definition fmtPrefix (p : string) : string := "[" ++ p ++ "]".
(** The LogFmt constants, already applied to their %s argument. *)
Definition LogFmtDebug (m : string) := "[DEBUG]" ++ colorEscapeReset ++ " " ++ m ++ crlf.
Definition LogFmtInfo (m : string) := "[INFO]" ++ colorEscapeReset ++ " " ++ m ++ crlf.
Definition LogFmtWarning (m : string) := "[WARNING]" ++ colorEscapeReset ++ " " ++ m ++ crlf.
Definition LogFmtError (m : string) := "[ERROR]" ++ colorEscapeReset ++ " " ++ m ++ crlf.
Definition LogFmtFatal (m : string) := "[FATAL]" ++ colorEscapeReset ++ " " ++ m ++ crlf.

Record Logger := mkLogger {
  prefix : string;
  level : LogLevel;
  colorEnabled : bool;
  Writer : list string   (* what has been written to the io.Writer *)
}.

Definition NewLogger : Logger :=
  {| prefix := ""; level := LogLevelDefault; colorEnabled := true; Writer := [] |}.

Definition SetLevel (lv : LogLevel) (l : Logger) : Logger :=
  let lv := if (lv =? LogLevelUnspecified)%Z then LogLevelDefault else lv in
  {| prefix := prefix l; level := lv; colorEnabled := colorEnabled l; Writer := Writer l |}.

Definition SetPrefix (s : string) (l : Logger) : Logger :=
  {| prefix := s; level := level l; colorEnabled := colorEnabled l; Writer := Writer l |}.

(** runtime.GOOS is fixed when the program is built; it is the first
    argument here. *)
Definition SetColorEnabled (GOOS : string) (b : bool) (l : Logger) : Logger :=
  let b := if String.eqb GOOS "windows" then false else b in
  {| prefix := prefix l; level := level l; colorEnabled := b; Writer := Writer l |}.

Definition colors (lv : LogLevel) : Z :=
  if (lv =? LogLevelDebug)%Z then cyan
  else if (lv =? LogLevelInfo)%Z then green
  else if (lv =? LogLevelWarning)%Z then yellow
  else if (lv =? LogLevelError)%Z then red
  else if (lv =? LogLevelFatal)%Z then red
  else 0%Z.

(** The switch on the level: the text appended for the level with the
    message substituted for its %s.  The LogLevelNone arm is empty, so the
    format string has no verb and fmt.Sprintf reports the unused argument;
    the default arm returns without writing ([None]). *)
Definition levelFmt (lv : LogLevel) (msg : string) : option string :=
  if (lv =? LogLevelDebug)%Z then Some (LogFmtDebug msg)
  else if (lv =? LogLevelInfo)%Z then Some (LogFmtInfo msg)
  else if (lv =? LogLevelWarning)%Z then Some (LogFmtWarning msg)
  else if (lv =? LogLevelError)%Z then Some (LogFmtError msg)
  else if (lv =? LogLevelFatal)%Z then Some (LogFmtFatal msg)
  else if (lv =? LogLevelNone)%Z then Some ("%!(EXTRA string=" ++ msg ++ ")")
  else None.

(** func (l *Logger) print(level LogLevel, msg string), for a prefix
    that contains no formatting verb of its own. *)
Definition print (lv : LogLevel) (msg : string) (l : Logger) : Logger :=
  if (level l <? lv)%Z then l
  else
    let fmtString :=
      (if String.eqb (prefix l) "" then ""
       else (if colorEnabled l then fmtColorEscape magenta else "")
              ++ fmtPrefix (prefix l))
      ++ (if colorEnabled l then fmtColorEscape (colors lv) else "") in
    match levelFmt lv msg with
    | Some body =>
        {| prefix := prefix l; level := level l; colorEnabled := colorEnabled l;
           Writer := Writer l ++ [fmtString ++ body] |}
    | None => l
    end.

(** A logging call starts a goroutine running [print]; the call itself
    returns at once.  A goroutine that has been started and has not yet run
    is a pair of the level and the message. *)
Abbreviation goroutine := (LogLevel * string)%type (only parsing).

(** What a logging call does to the calling thread. *)
Inductive control := Continue | Exit (code : Z).

Definition Info (msg : string) : goroutine * control := ((LogLevelInfo, msg), Continue).
Definition Warning (msg : string) : goroutine * control := ((LogLevelWarning, msg), Continue).
Definition Error (msg : string) : goroutine * control := ((LogLevelError, msg), Continue).
Definition Debug (msg : string) : goroutine * control := ((LogLevelDebug, msg), Continue).

(** Running a started goroutine. *)
Definition run (g : goroutine) (l : Logger) : Logger := print (fst g) (snd g) l.

End Logger.

(** ** Record update *)

(** [set proj h r] is [r] with the field [proj] replaced by [h (proj r)]. *)
Class Setter {R T : Type} (proj : R → T) := set : (T → T) → R → R.
Arguments set {R T} proj {Setter} h r : simpl nomatch.

(** ** Value types of the collaborating packages

    Modelled from the spec: the component and layout types of d2components,
    d2button, d2checkbox, d2bitmapfont and rectangle are declared outside
    the sources.  Their fields are the ones the widget factory reads or
    writes, under the names it uses. *)

Module rectangle.
Record Rectangle := New { Left : float64; Top : float64; Width : float64; Height : float64 }.
Definition zero : Rectangle := New 0 0 0 0.
End rectangle.

Module d2button.
(** d2button.ButtonLayout, the static descriptor returned by GetLayout. *)
Record ButtonLayout := mkLayout {
  FontPath : string;
  PalettePath : string;
  SpritePath : string;
  XSegments : Z;
  YSegments : Z;
  BaseFrame : Z;
  HasImage : bool;
  AllowFrameChange : bool;
  DisabledFrame : Z
}.
Definition zero : ButtonLayout := mkLayout "" "" "" 0 0 0 false false 0.
Abbreviation ButtonType := N (only parsing).
End d2button.

Module States.
(** button.States: the five state-sprite entities. *)
Record t := mk { Normal : EID; Pressed : EID; Toggled : EID; PressedToggled : EID; Disabled : EID }.
Definition zero : t := mk 0 0 0 0 0.
End States.

Module Surfaces.
(** button.Surfaces: the five rendered surfaces, nil until copied. *)
Record t := mk {
  Normal : option Surface;
  Pressed : option Surface;
  Toggled : option Surface;
  PressedToggled : option Surface;
  Disabled : option Surface
}.
Definition zero : t := mk None None None None None.
End Surfaces.

Module d2checkbox.
Record Layout := mkLayout {
  X : float64;
  Y : float64;
  ClickableRect : rectangle.Rectangle;
  FixedWidth : Z;
  FixedHeight : Z;
  SpritePath : string;
  PalettePath : string;
  XSegments : Z;
  YSegments : Z;
  BaseFrame : Z
}.
End d2checkbox.

Module d2bitmapfont.
(** The font object built by d2bitmapfont.New(sprite, table, color). *)
Record BitmapFont := New { Sprite : SpriteRef; Table : list Byte.byte; FontColor : Color }.
End d2bitmapfont.

Module d2components.

Record Sprite := mkSprite {
  Sprite_ : option SpriteRef;      (* Sprite d2interface.Sprite, nil until decoded *)
  SpritePath : string;
  PalettePath : string
}.

(** Label embeds the d2label widget object: its text, font, background
    colour and dirty flag. *)
Record Label := mkLabel {
  text : string;
  Font : option FontRef;
  backgroundColor : option Color;
  dirty : bool
}.
Definition newLabel : Label := mkLabel "" None None false.

(** Which of its five surfaces a button currently shows is decided by the
    input systems; it is kept here as a tag. *)
Inductive ButtonState := StNormal | StPressed | StToggled | StPressedToggled | StDisabled.

Record Button := mkButton {
  Layout : d2button.ButtonLayout;
  ButtonSprite : option SpriteRef;     (* button.Sprite *)
  States : States.t;
  Surfaces : Surfaces.t;
  current : ButtonState
}.
Definition newButton : Button :=
  mkButton d2button.zero None States.zero Surfaces.zero StNormal.

Record Checkbox := mkCheckbox {
  CheckboxLayout : d2checkbox.Layout;   (* checkbox.Layout *)
  pressed : bool;
  enabled : bool;
  onActivated : option Callback;
  CheckboxSprite : option SpriteRef    (* checkbox.Sprite *)
}.

Inductive MouseButton := MouseButtonLeft.

(** The closure installed by processCheckbox calls Activate on the checkbox
    component of one entity. *)
Inductive InteractiveCallback := ActivateCheckbox (checkbox : EID).

Record Interactive := mkInteractive {
  InputVector : option MouseButton;
  CursorPosition : rectangle.Rectangle;
  Callback : option InteractiveCallback
}.
Definition newInteractive : Interactive := mkInteractive None rectangle.zero None.

End d2components.

(** ** The entity/component world (akara) *)

Module akara.

(** Modelled from the spec: the world's sources are missing.  It allocates
    unique entity identifiers, stores typed components keyed by entity, and
    removes an entity together with all its components. *)
Record World := mkWorld {
  nextEntityID : N;
  File : gmap N string;
  Transform : gmap N (Z * Z);
  Interactive : gmap N d2components.Interactive;
  FontTable : gmap N (option (list Byte.byte));
  BitmapFont : gmap N (option nat);
  Label : gmap N d2components.Label;
  Button : gmap N d2components.Button;
  Checkbox : gmap N d2components.Checkbox;
  Sprite : gmap N d2components.Sprite;
  Color : gmap N N;
  Texture : gmap N (option N);
  Ready : gset N;
  SceneGraphNode : gmap N (option N)
}.

Definition empty : World :=
  mkWorld 1 ∅ ∅ ∅ ∅ ∅ ∅ ∅ ∅ ∅ ∅ ∅ ∅ ∅.

#[global] Instance set_nextEntityID : Setter nextEntityID := λ h w,
  mkWorld (h (nextEntityID w)) (File w) (Transform w) (Interactive w) (FontTable w)
    (BitmapFont w) (Label w) (Button w) (Checkbox w) (Sprite w) (Color w) (Texture w)
    (Ready w) (SceneGraphNode w).
#[global] Instance set_File : Setter File := λ h w,
  mkWorld (nextEntityID w) (h (File w)) (Transform w) (Interactive w) (FontTable w)
    (BitmapFont w) (Label w) (Button w) (Checkbox w) (Sprite w) (Color w) (Texture w)
    (Ready w) (SceneGraphNode w).
#[global] Instance set_Transform : Setter Transform := λ h w,
  mkWorld (nextEntityID w) (File w) (h (Transform w)) (Interactive w) (FontTable w)
    (BitmapFont w) (Label w) (Button w) (Checkbox w) (Sprite w) (Color w) (Texture w)
    (Ready w) (SceneGraphNode w).
#[global] Instance set_Interactive : Setter Interactive := λ h w,
  mkWorld (nextEntityID w) (File w) (Transform w) (h (Interactive w)) (FontTable w)
    (BitmapFont w) (Label w) (Button w) (Checkbox w) (Sprite w) (Color w) (Texture w)
    (Ready w) (SceneGraphNode w).
#[global] Instance set_FontTable : Setter FontTable := λ h w,
  mkWorld (nextEntityID w) (File w) (Transform w) (Interactive w) (h (FontTable w))
    (BitmapFont w) (Label w) (Button w) (Checkbox w) (Sprite w) (Color w) (Texture w)
    (Ready w) (SceneGraphNode w).
#[global] Instance set_BitmapFont : Setter BitmapFont := λ h w,
  mkWorld (nextEntityID w) (File w) (Transform w) (Interactive w) (FontTable w)
    (h (BitmapFont w)) (Label w) (Button w) (Checkbox w) (Sprite w) (Color w)
    (Texture w) (Ready w) (SceneGraphNode w).
#[global] Instance set_Label : Setter Label := λ h w,
  mkWorld (nextEntityID w) (File w) (Transform w) (Interactive w) (FontTable w)
    (BitmapFont w) (h (Label w)) (Button w) (Checkbox w) (Sprite w) (Color w)
    (Texture w) (Ready w) (SceneGraphNode w).
#[global] Instance set_Button : Setter Button := λ h w,
  mkWorld (nextEntityID w) (File w) (Transform w) (Interactive w) (FontTable w)
    (BitmapFont w) (Label w) (h (Button w)) (Checkbox w) (Sprite w) (Color w)
    (Texture w) (Ready w) (SceneGraphNode w).
#[global] Instance set_Checkbox : Setter Checkbox := λ h w,
  mkWorld (nextEntityID w) (File w) (Transform w) (Interactive w) (FontTable w)
    (BitmapFont w) (Label w) (Button w) (h (Checkbox w)) (Sprite w) (Color w)
    (Texture w) (Ready w) (SceneGraphNode w).
#[global] Instance set_Sprite : Setter Sprite := λ h w,
  mkWorld (nextEntityID w) (File w) (Transform w) (Interactive w) (FontTable w)
    (BitmapFont w) (Label w) (Button w) (Checkbox w) (h (Sprite w)) (Color w)
    (Texture w) (Ready w) (SceneGraphNode w).
#[global] Instance set_Color : Setter Color := λ h w,
  mkWorld (nextEntityID w) (File w) (Transform w) (Interactive w) (FontTable w)
    (BitmapFont w) (Label w) (Button w) (Checkbox w) (Sprite w) (h (Color w))
    (Texture w) (Ready w) (SceneGraphNode w).
#[global] Instance set_Texture : Setter Texture := λ h w,
  mkWorld (nextEntityID w) (File w) (Transform w) (Interactive w) (FontTable w)
    (BitmapFont w) (Label w) (Button w) (Checkbox w) (Sprite w) (Color w)
    (h (Texture w)) (Ready w) (SceneGraphNode w).
#[global] Instance set_Ready : Setter Ready := λ h w,
  mkWorld (nextEntityID w) (File w) (Transform w) (Interactive w) (FontTable w)
    (BitmapFont w) (Label w) (Button w) (Checkbox w) (Sprite w) (Color w) (Texture w)
    (h (Ready w)) (SceneGraphNode w).
#[global] Instance set_SceneGraphNode : Setter SceneGraphNode := λ h w,
  mkWorld (nextEntityID w) (File w) (Transform w) (Interactive w) (FontTable w)
    (BitmapFont w) (Label w) (Button w) (Checkbox w) (Sprite w) (Color w) (Texture w)
    (Ready w) (h (SceneGraphNode w)).

(** Modelled from the spec: newEntity() → id, an identifier that was not
    handed out before. *)
Definition NewEntity (w : World) : EID * World :=
  (nextEntityID w, set nextEntityID N.succ w).

(** Modelled from the spec: removeEntity(id); the entity loses every
    component. *)
Definition RemoveEntity (e : EID) (w : World) : World :=
  mkWorld (nextEntityID w) (delete e (File w)) (delete e (Transform w))
    (delete e (Interactive w)) (delete e (FontTable w)) (delete e (BitmapFont w))
    (delete e (Label w)) (delete e (Button w)) (delete e (Checkbox w))
    (delete e (Sprite w)) (delete e (Color w)) (delete e (Texture w))
    (Ready w ∖ {[e]}) (delete e (SceneGraphNode w)).

(** Modelled from the spec: addComponent<T>(id) → &mut T; the component of
    [e], created with the value [z] when [e] has none. *)
Definition Add {T} (z : T) (e : EID) (m : gmap N T) : gmap N T :=
  match m !! e with
  | Some _ => m
  | None => <[e := z]> m
  end.

(** Modelled from the spec: addComponent followed by writes through the
    returned reference. *)
Definition AddWith {T} (z : T) (h : T → T) (e : EID) (m : gmap N T) : gmap N T :=
  <[e := h (default z (m !! e))]> m.

(** Modelled from the spec: subscription.entities() for a filter that
    requires a component [m] and Ready. *)
Definition subscribed {T} (m : gmap N T) (w : World) : list EID :=
  elements (dom m ∩ Ready w).

End akara.

(** ** The resource cache (d2common/d2cache) *)

Module d2cache.

(** Modelled from the spec: the cache's sources are missing.  It is a store
    with a fixed total budget set at construction; retrieve(key) returns the
    artifact stored under the key, if any, and insert(key, artifact, cost)
    is rejected with a capacity error when the budget does not cover the
    cost.  The artifacts stored by the widget factory are font objects. *)
Record Cache := mkCache {
  budget : N;
  weight : N;
  items : gmap string FontRef
}.

Inductive error := CapacityError.

(** Modelled from the spec: err.Error(), the text of the capacity error. *)
Definition Error (e : error) : string := "cache: insert exceeds the budget".

Definition CreateCache (b : N) : Cache := mkCache b 0 ∅.

Definition Retrieve (key : string) (c : Cache) : option FontRef := items c !! key.

Definition Insert (key : string) (v : FontRef) (cost : N) (c : Cache) : Cache * option error :=
  if (budget c <? weight c + cost)%N then (c, Some CapacityError)
  else (mkCache (budget c) (weight c + cost) (<[key := v]> (items c)), None).

End d2cache.

(** ** d2core/d2systems/scene_widget_system.go: the factory's data *)

Definition fontCacheBudget : N := 64.

Module buttonLoadQueueEntry.
Record t := mk { label : EID; sprite : EID }.
Definition zero : t := mk 0 0.
End buttonLoadQueueEntry.

Module checkboxLoadQueueEntry.
Record t := mk { sprite : EID }.
Definition zero : t := mk 0.
End checkboxLoadQueueEntry.

Module labelLoadQueueEntry.
Record t := mk { table : EID; sprite : EID }.
Definition zero : t := mk 0 0.
End labelLoadQueueEntry.

(** Modelled from the spec: d2enum.SceneState is declared outside the
    sources; the spec gives its states as Uninitialized → Booted, and the
    zero value of the factory's state field is Uninitialized. *)
Inductive SceneState := SceneStateUninitialized | SceneStateBooted.

#[export] Instance SceneState_eq_dec : EqDecision SceneState.
Proof. solve_decision. Defined.

(** Modelled from the spec: the render collaborator exposes a nullable
    active renderer handle. *)
Record RenderSystemT := mkRenderSystem { renderer : option Renderer }.

(** Modelled from the spec: the sprite-creation collaborator returns a fresh
    entity at once and keeps the request; the entity's Sprite component and
    its Ready marker arrive later through the collaborator's own pipeline. *)
Record SpriteRequest := mkRequest {
  reqX : float64;
  reqY : float64;
  imagePath : string;
  palettePath : string;
  segments : option (Z * Z * Z)   (* xSegments, ySegments, baseFrame *)
}.

Record UIWidgetFactory := mkFactory {
  World : akara.World;
  goroutines : list Logger.goroutine;          (* started by *d2util.Logger *)
  RenderSystem : option RenderSystemT;         (* *RenderSystem, nil until set *)
  spriteRequests : gmap N SpriteRequest;       (* *SpriteFactory *)
  buttonLoadQueue : gmap N buttonLoadQueueEntry.t;
  checkboxLoadQueue : gmap N checkboxLoadQueueEntry.t;
  labelLoadQueue : gmap N labelLoadQueueEntry.t;
  state : SceneState;
  bitmapFontCache : d2cache.Cache;
  (* objects reached through pointers: *)
  fonts : list d2bitmapfont.BitmapFont;        (* font objects, a FontRef is an index *)
  boundRenderer : gmap N (option Renderer);    (* renderer bound to a sprite object *)
  frameSurface : gmap N Surface;               (* current frame surface of a sprite object *)
  nextSurface : N                              (* surfaces handed out by NewSurface *)
}.

#[global] Instance set_World : Setter World := λ h t,
  mkFactory (h (World t)) (goroutines t) (RenderSystem t) (spriteRequests t)
    (buttonLoadQueue t) (checkboxLoadQueue t) (labelLoadQueue t) (state t)
    (bitmapFontCache t) (fonts t) (boundRenderer t) (frameSurface t) (nextSurface t).
#[global] Instance set_goroutines : Setter goroutines := λ h t,
  mkFactory (World t) (h (goroutines t)) (RenderSystem t) (spriteRequests t)
    (buttonLoadQueue t) (checkboxLoadQueue t) (labelLoadQueue t) (state t)
    (bitmapFontCache t) (fonts t) (boundRenderer t) (frameSurface t) (nextSurface t).
#[global] Instance set_RenderSystem : Setter RenderSystem := λ h t,
  mkFactory (World t) (goroutines t) (h (RenderSystem t)) (spriteRequests t)
    (buttonLoadQueue t) (checkboxLoadQueue t) (labelLoadQueue t) (state t)
    (bitmapFontCache t) (fonts t) (boundRenderer t) (frameSurface t) (nextSurface t).
#[global] Instance set_spriteRequests : Setter spriteRequests := λ h t,
  mkFactory (World t) (goroutines t) (RenderSystem t) (h (spriteRequests t))
    (buttonLoadQueue t) (checkboxLoadQueue t) (labelLoadQueue t) (state t)
    (bitmapFontCache t) (fonts t) (boundRenderer t) (frameSurface t) (nextSurface t).
#[global] Instance set_buttonLoadQueue : Setter buttonLoadQueue := λ h t,
  mkFactory (World t) (goroutines t) (RenderSystem t) (spriteRequests t)
    (h (buttonLoadQueue t)) (checkboxLoadQueue t) (labelLoadQueue t) (state t)
    (bitmapFontCache t) (fonts t) (boundRenderer t) (frameSurface t) (nextSurface t).
#[global] Instance set_checkboxLoadQueue : Setter checkboxLoadQueue := λ h t,
  mkFactory (World t) (goroutines t) (RenderSystem t) (spriteRequests t)
    (buttonLoadQueue t) (h (checkboxLoadQueue t)) (labelLoadQueue t) (state t)
    (bitmapFontCache t) (fonts t) (boundRenderer t) (frameSurface t) (nextSurface t).
#[global] Instance set_labelLoadQueue : Setter labelLoadQueue := λ h t,
  mkFactory (World t) (goroutines t) (RenderSystem t) (spriteRequests t)
    (buttonLoadQueue t) (checkboxLoadQueue t) (h (labelLoadQueue t)) (state t)
    (bitmapFontCache t) (fonts t) (boundRenderer t) (frameSurface t) (nextSurface t).
#[global] Instance set_state : Setter state := λ h t,
  mkFactory (World t) (goroutines t) (RenderSystem t) (spriteRequests t)
    (buttonLoadQueue t) (checkboxLoadQueue t) (labelLoadQueue t) (h (state t))
    (bitmapFontCache t) (fonts t) (boundRenderer t) (frameSurface t) (nextSurface t).
#[global] Instance set_bitmapFontCache : Setter bitmapFontCache := λ h t,
  mkFactory (World t) (goroutines t) (RenderSystem t) (spriteRequests t)
    (buttonLoadQueue t) (checkboxLoadQueue t) (labelLoadQueue t) (state t)
    (h (bitmapFontCache t)) (fonts t) (boundRenderer t) (frameSurface t) (nextSurface t).
#[global] Instance set_fonts : Setter fonts := λ h t,
  mkFactory (World t) (goroutines t) (RenderSystem t) (spriteRequests t)
    (buttonLoadQueue t) (checkboxLoadQueue t) (labelLoadQueue t) (state t)
    (bitmapFontCache t) (h (fonts t)) (boundRenderer t) (frameSurface t) (nextSurface t).
#[global] Instance set_boundRenderer : Setter boundRenderer := λ h t,
  mkFactory (World t) (goroutines t) (RenderSystem t) (spriteRequests t)
    (buttonLoadQueue t) (checkboxLoadQueue t) (labelLoadQueue t) (state t)
    (bitmapFontCache t) (fonts t) (h (boundRenderer t)) (frameSurface t) (nextSurface t).
#[global] Instance set_frameSurface : Setter frameSurface := λ h t,
  mkFactory (World t) (goroutines t) (RenderSystem t) (spriteRequests t)
    (buttonLoadQueue t) (checkboxLoadQueue t) (labelLoadQueue t) (state t)
    (bitmapFontCache t) (fonts t) (boundRenderer t) (h (frameSurface t)) (nextSurface t).
#[global] Instance set_nextSurface : Setter nextSurface := λ h t,
  mkFactory (World t) (goroutines t) (RenderSystem t) (spriteRequests t)
    (buttonLoadQueue t) (checkboxLoadQueue t) (labelLoadQueue t) (state t)
    (bitmapFontCache t) (fonts t) (boundRenderer t) (frameSurface t) (h (nextSurface t)).

(** NewUIWidgetFactory: empty queues, a cache of [fontCacheBudget], the
    zero-valued state and no render system yet. *)
Definition NewUIWidgetFactory (w : akara.World) : UIWidgetFactory :=
  mkFactory w [] None ∅ ∅ ∅ ∅ SceneStateUninitialized
    (d2cache.CreateCache fontCacheBudget) [] ∅ ∅ 0.

(** t.NewEntity() *)
Definition NewEntity (t : UIWidgetFactory) : EID * UIWidgetFactory :=
  let '(e, w) := akara.NewEntity (World t) in (e, set World (λ _, w) t).

(** t.RemoveEntity(e) *)
Definition RemoveEntity (e : EID) (t : UIWidgetFactory) : UIWidgetFactory :=
  set World (akara.RemoveEntity e) t.

(** _, found := t.Components.X.Get(e) *)
Definition found {T} (o : option T) : bool :=
  match o with Some _ => true | None => false end.

(** _, ready := t.Components.Ready.Get(e) *)
Definition isReady (e : EID) (t : UIWidgetFactory) : bool :=
  bool_decide (e ∈ akara.Ready (World t)).

(** t.Components.Ready.Add(e) *)
Definition addReady (e : EID) (t : UIWidgetFactory) : UIWidgetFactory :=
  set World (set akara.Ready (λ r, {[e]} ∪ r)) t.

Module SpriteFactory.

(** Modelled from the spec: sprite(x, y, imagePath, palettePath) → entity *)
Definition Sprite (x y : float64) (img pal : string) (t : UIWidgetFactory)
  : EID * UIWidgetFactory :=
  let '(e, t) := NewEntity t in
  (e, set spriteRequests <[e := mkRequest x y img pal None]> t).

(** Modelled from the spec: segmentedSprite(x, y, imagePath, palettePath,
    xSegments, ySegments, baseFrame) → entity *)
Definition SegmentedSprite (x y : float64) (img pal : string) (sx sy frame : Z)
    (t : UIWidgetFactory) : EID * UIWidgetFactory :=
  let '(e, t) := NewEntity t in
  (e, set spriteRequests <[e := mkRequest x y img pal (Some (sx, sy, frame))]> t).

End SpriteFactory.

(** t.Warning(msg): the embedded logger starts a goroutine and returns. *)
Definition Warning (msg : string) (t : UIWidgetFactory) : UIWidgetFactory :=
  set goroutines (λ g, (g ++ [fst (Logger.Warning msg)])%list) t.

(** t.renderer, read through the embedded *RenderSystem. *)
Definition t_renderer (t : UIWidgetFactory) : result (option Renderer) :=
  match RenderSystem t with
  | None => Panic NilRenderSystem
  | Some rs => Ok (renderer rs)
  end.

(** ** d2core/d2systems/scene_widget_system.go: the factory's operations *)

(** color.White *)
Definition White : Color := 16777215.

Definition isNotSegmented : Z := -1.

(** Go's int is 64 bits wide here; a sum that leaves the range wraps
    around. *)
Definition int (z : Z) : Z :=
  (z + 9223372036854775808) mod 18446744073709551616 - 9223372036854775808.
Arguments int z : simpl never.

(** float64(n) for an int n: the nearest float64, ties to even.  An int has
    at most 63 significant bits and a float64 has 53, so up to 2^53 in
    absolute value the conversion is exact and above it the low bits are
    rounded away.  The result is an integer and is carried as such. *)
Definition float64_of_int (n : Z) : Z :=
  let a := Z.abs n in
  if (a <=? 9007199254740992)%Z then n
  else
    let e := (Z.log2 a - 52)%Z in
    let q := (a / 2 ^ e)%Z in
    let r := (a mod 2 ^ e)%Z in
    let half := (2 ^ (e - 1))%Z in
    let q := if (half <? r)%Z || ((r =? half)%Z && Z.odd q) then (q + 1)%Z else q in
    (Z.sgn n * (q * 2 ^ e))%Z.

(** fmt.Sprintf("%s::%s::%s", t, s, p) *)
Definition fontCacheKey (t s p : string) : string := t ++ "::" ++ s ++ "::" ++ p.

(** The units of work of one tick. *)
Inductive work :=
  | ProcessButton (e : EID)
  | ProcessCheckbox (e : EID)
  | ProcessLabel (e : EID)
  | UpdateButton (e : EID)
  | UpdateCheckbox (e : EID)
  | UpdateLabel (e : EID).

(** Declared outside the sources and taken as given: the layout table of
    d2button, the palette d2resource.PaletteUnits, the three frame offsets
    of d2button, the value of a Checkbox component when it is created, and
    the ceiling maxTimePerUpdate.  The wall clock is a number of
    nanoseconds: [cost u t] is the time the unit [u] takes when started in
    [t].  [rangeOrder] is the order in which a range statement visits the
    keys of a map. *)
Record Externals := mkExternals {
  GetLayout : d2button.ButtonType → d2button.ButtonLayout;
  PaletteUnits : string;
  ButtonStatePressed : Z;
  ButtonStateToggled : Z;
  ButtonStatePressedToggled : Z;
  newCheckbox : d2components.Checkbox;
  maxTimePerUpdate : N;
  cost : work → UIWidgetFactory → N;
  rangeOrder : list EID → list EID
}.

Section Factory.

Variable ext : Externals.

Definition boot (t : UIWidgetFactory) : UIWidgetFactory :=
  match RenderSystem t with
  | None => t
  | Some rs =>
      match renderer rs with
      | None => t
      | Some _ => set state (λ _, SceneStateBooted) t
      end
  end.

(** Modelled from the spec: the label widget object holds text, font,
    background colour and a dirty flag.  SetText and SetBackgroundColor store
    the value and mark the label dirty; rendering clears the flag. *)
Definition SetText (s : string) (l : d2components.Label) : d2components.Label :=
  d2components.mkLabel s (d2components.Font l) (d2components.backgroundColor l) true.
Definition SetBackgroundColor (c : Color) (l : d2components.Label) : d2components.Label :=
  d2components.mkLabel (d2components.text l) (d2components.Font l) (Some c) true.
Definition SetFont (f : option FontRef) (l : d2components.Label) : d2components.Label :=
  d2components.mkLabel (d2components.text l) f (d2components.backgroundColor l) (d2components.dirty l).
Definition Rendered (l : d2components.Label) : d2components.Label :=
  d2components.mkLabel (d2components.text l) (d2components.Font l) (d2components.backgroundColor l) false.

Definition Label (text font palettePath : string) (t : UIWidgetFactory)
  : EID * UIWidgetFactory :=
  let tablePath := font ++ ".tbl" in
  let spritePath := font ++ ".dc6" in
  let '(labelEID, t) := NewEntity t in
  let '(tableEID, t) := NewEntity t in
  let t := set World (set akara.File (akara.AddWith "" (λ _, tablePath) tableEID)) t in
  let '(spriteEID, t) := SpriteFactory.Sprite 0 0 spritePath palettePath t in
  let t := set labelLoadQueue <[labelEID := labelLoadQueueEntry.mk tableEID spriteEID]> t in
  let t := set World (set akara.Label (akara.AddWith d2components.newLabel (SetText text) labelEID)) t in
  (labelEID, t).

Definition createBitmapFont (entry : labelLoadQueueEntry.t) (t : UIWidgetFactory)
  : option FontRef * UIWidgetFactory :=
  match akara.FontTable (World t) !! labelLoadQueueEntry.table entry,
        akara.Sprite (World t) !! labelLoadQueueEntry.sprite entry with
  | Some table, Some sprite =>
      match d2components.Sprite_ sprite, table with
      | Some img, Some data =>
          (Some (length (fonts t)),
           set fonts (λ fs, (fs ++ [d2bitmapfont.New img data White])%list) t)
      | _, _ => (None, t)
      end
  | _, _ => (None, t)
  end.

Definition addBitmapFontForLabel (labelEID : EID) (t : UIWidgetFactory) : UIWidgetFactory :=
  (* get the load queue *)
  match labelLoadQueue t !! labelEID with
  | None => t
  | Some entry =>
      (* make sure the components have been loaded (by the asset loader) *)
      let tableFound := found (akara.FontTable (World t) !! labelLoadQueueEntry.table entry) in
      let spriteFound := found (akara.Sprite (World t) !! labelLoadQueueEntry.sprite entry) in
      if negb (tableFound && spriteFound) then t
      else
        match akara.File (World t) !! labelLoadQueueEntry.table entry with
        | None => t
        | Some tableFile =>
            match akara.Sprite (World t) !! labelLoadQueueEntry.sprite entry with
            | None => t
            | Some sprite =>
                let cacheKey := fontCacheKey tableFile (d2components.SpritePath sprite) (d2components.PalettePath sprite) in
                match d2cache.Retrieve cacheKey (bitmapFontCache t) with
                | Some iface =>
                    (* we found it *)
                    let t := set World (set akara.BitmapFont
                               (akara.AddWith None (λ _, Some iface) labelEID)) t in
                    let t := addReady labelEID t in
                    set labelLoadQueue (delete labelEID) t
                | None =>
                    match createBitmapFont entry t with
                    | (None, t) => t
                    | (Some bmf, t) =>
                        (* we need to create and cache the bitmap font *)
                        let '(c, err) := d2cache.Insert cacheKey bmf 1 (bitmapFontCache t) in
                        let t := set bitmapFontCache (λ _, c) t in
                        let t := match err with
                                 | Some e => Warning (d2cache.Error e) t
                                 | None => t
                                 end in
                        set World (set akara.BitmapFont
                          (akara.AddWith None (λ _, Some bmf) labelEID)) t
                    end
                end
            end
        end
  end.

(** Modelled from the spec: sprite.BindRenderer(r) binds the sprite object
    [s] to the renderer. *)
Definition BindRenderer (s : SpriteRef) (r : option Renderer) (t : UIWidgetFactory)
  : UIWidgetFactory :=
  set boundRenderer <[s := r]> t.

Definition processLabel (labelEID : EID) (t : UIWidgetFactory) : result UIWidgetFactory :=
  match akara.BitmapFont (World t) !! labelEID with
  | None => Ok (addBitmapFontForLabel labelEID t)
  | Some bmfComponent =>
      match bmfComponent ≫= λ f, fonts t !! f with
      | None => Panic NilBitmapFont
      | Some font =>
          r ⇐ t_renderer t;;
          let t := BindRenderer (d2bitmapfont.Sprite font) r t in
          let t := set World (set akara.Label
                     (akara.AddWith d2components.newLabel (SetFont bmfComponent) labelEID)) t in
          let entry := default labelLoadQueueEntry.zero (labelLoadQueue t !! labelEID) in
          let t := RemoveEntity (labelLoadQueueEntry.table entry) t in
          let t := addReady labelEID t in
          Ok (set labelLoadQueue (delete labelEID) t)
      end
  end.

(** Modelled from the spec: newSurface(size) → textureHandle, a surface that
    was not handed out before. *)
Definition NewSurface (t : UIWidgetFactory) : Surface * UIWidgetFactory :=
  (nextSurface t, set nextSurface N.succ t).

Definition updateLabel (labelEID : EID) (t : UIWidgetFactory) : result UIWidgetFactory :=
  match akara.Label (World t) !! labelEID with
  | None => Ok t
  | Some label =>
      match akara.BitmapFont (World t) !! labelEID with
      | None => Ok t
      | Some bmf =>
          let label := if bool_decide (d2components.Font label ≠ bmf) then SetFont bmf label else label in
          let label := match akara.Color (World t) !! labelEID with
                       | Some col => SetBackgroundColor col label
                       | None => label
                       end in
          let t := set World (set akara.Label <[labelEID := label]>) t in
          if negb (d2components.dirty label) then Ok t
          else
            match RenderSystem t with
            | None => Panic NilRenderSystem
            | Some rs =>
                let t := set World (set akara.Texture (akara.Add None labelEID)) t in
                match renderer rs with
                | None => Panic NilRenderer
                | Some _ =>
                    let '(surface, t) := NewSurface t in
                    let t := set World (set akara.Texture <[labelEID := Some surface]>) t in
                    Ok (set World (set akara.Label <[labelEID := Rendered label]>) t)
                end
            end
      end
  end.

Definition Button (x y : float64) (btnType : d2button.ButtonType) (text : string)
    (t : UIWidgetFactory) : EID * UIWidgetFactory :=
  let '(buttonEID, t) := NewEntity t in
  let layout := GetLayout ext btnType in
  let t := set World (set akara.Button (akara.AddWith d2components.newButton
             (λ b, d2components.mkButton layout (d2components.ButtonSprite b)
                     (d2components.States b) (d2components.Surfaces b)
                     (d2components.current b)) buttonEID)) t in
  let t := set World (set akara.Transform (akara.AddWith (0, 0)%Z (λ _, (x, y)) buttonEID)) t in
  let '(labelEID, t) :=
    if negb (String.eqb (d2button.FontPath layout) "")
       && negb (String.eqb (d2button.PalettePath layout) "")
    then Label text (d2button.FontPath layout) (PaletteUnits ext) t
    else
      (* we just make a temporary label and mark it as ready, nothing to do *)
      let '(labelEID, t) := NewEntity t in
      (labelEID, addReady labelEID t) in
  let '(spriteEID, t) :=
    SpriteFactory.SegmentedSprite 0 0 (d2button.SpritePath layout)
      (d2button.PalettePath layout) (d2button.XSegments layout)
      (d2button.YSegments layout) (d2button.BaseFrame layout) t in
  let t := set buttonLoadQueue <[buttonEID := buttonLoadQueueEntry.mk labelEID spriteEID]> t in
  (buttonEID, t).

Definition withStates (st : States.t) (b : d2components.Button) : d2components.Button :=
  d2components.mkButton (d2components.Layout b) (d2components.ButtonSprite b) st
    (d2components.Surfaces b) (d2components.current b).

Definition withSprite (s : option SpriteRef) (b : d2components.Button) : d2components.Button :=
  d2components.mkButton (d2components.Layout b) s (d2components.States b)
    (d2components.Surfaces b) (d2components.current b).

Definition withSurfaces (sf : Surfaces.t) (b : d2components.Button) : d2components.Button :=
  d2components.mkButton (d2components.Layout b) (d2components.ButtonSprite b)
    (d2components.States b) sf (d2components.current b).

Definition renderButtonStates (buttonEID : EID) (t : UIWidgetFactory) : result UIWidgetFactory :=
  match akara.Button (World t) !! buttonEID with
  | None => Panic NilButton
  | Some button =>
      let st := d2components.States button in
      let rdyNormal := isReady (States.Normal st) t in
      let rdyPressed := isReady (States.Pressed st) t in
      let rdyToggled := isReady (States.Toggled st) t in
      let rdyPressedToggled := isReady (States.PressedToggled st) t in
      let rdyDisabled := isReady (States.Disabled st) t in
      let ready := rdyNormal && rdyPressed && rdyToggled && rdyPressedToggled && rdyDisabled in
      if negb ready then Ok t
      else
        let t := addReady buttonEID t in
        Ok (set buttonLoadQueue (delete buttonEID) t)
  end.

Definition processButtonStates (buttonEID : EID) (t : UIWidgetFactory) : result UIWidgetFactory :=
  match akara.Button (World t) !! buttonEID with
  | None => Panic NilButton
  | Some button =>
      let layout := d2components.Layout button in
      let baseFrame := d2button.BaseFrame layout in
      let hasBeenProcessed := (0 <? States.Normal (d2components.States button))%N in
      if hasBeenProcessed then renderButtonStates buttonEID t
      else
        let img := d2button.SpritePath layout in
        let pal := d2button.PalettePath layout in
        let sx := d2button.XSegments layout in
        let sy := d2button.YSegments layout in
        (* by default, all other states are whatever the normal state is *)
        let '(normal, t) := SpriteFactory.SegmentedSprite 0 0 img pal sx sy baseFrame t in
        let st := States.mk normal normal normal normal normal in
        (* if it's got other states (most buttons do...), then we handle it *)
        let '(st, t) :=
          if d2button.HasImage layout && d2button.AllowFrameChange layout then
            let '(pressed, t) := SpriteFactory.SegmentedSprite 0 0 img pal sx sy
                                   (int (baseFrame + ButtonStatePressed ext)) t in
            let '(toggled, t) := SpriteFactory.SegmentedSprite 0 0 img pal sx sy
                                   (int (baseFrame + ButtonStateToggled ext)) t in
            let '(pressedToggled, t) := SpriteFactory.SegmentedSprite 0 0 img pal sx sy
                                          (int (baseFrame + ButtonStatePressedToggled ext)) t in
            (* also, not all buttons have a disabled state *)
            if negb (d2button.DisabledFrame layout =? isNotSegmented)%Z then
              let '(disabled, t) := SpriteFactory.SegmentedSprite 0 0 img pal sx sy
                                      (d2button.DisabledFrame layout) t in
              (States.mk normal pressed toggled pressedToggled disabled, t)
            else (States.mk normal pressed toggled pressedToggled normal, t)
          else (st, t) in
        Ok (set World (set akara.Button (alter (withStates st) buttonEID)) t)
  end.

(** node.SetParent(parent) on the scene-graph node of [e], created when
    [e] has none. *)
Definition SetParent (e parent : EID) (t : UIWidgetFactory) : UIWidgetFactory :=
  set World (set akara.SceneGraphNode (akara.AddWith None (λ _, Some parent) e)) t.

Definition processButton (buttonEID : EID) (t : UIWidgetFactory) : result UIWidgetFactory :=
  (* get the queue entry *)
  match buttonLoadQueue t !! buttonEID with
  | None => Ok t
  | Some entry =>
      let labelEID := buttonLoadQueueEntry.label entry in
      let spriteEID := buttonLoadQueueEntry.sprite entry in
      (* check if the label and sprite are ready to be used *)
      let labelReady := isReady labelEID t in
      let spriteReady := isReady spriteEID t in
      if negb (labelReady && spriteReady) then Ok t
      else
        let t := set World (set akara.Button (akara.Add d2components.newButton buttonEID)) t in
        let t := set World (set akara.SceneGraphNode (akara.Add None buttonEID)) t in
        let t := match akara.Sprite (World t) !! spriteEID with
                 | Some sprite =>
                     let t := set World (set akara.Button
                                (alter (withSprite (d2components.Sprite_ sprite)) buttonEID)) t in
                     SetParent spriteEID buttonEID t
                 | None => t
                 end in
        let t := if found (akara.Label (World t) !! labelEID)
                 then SetParent labelEID buttonEID t else t in
        processButtonStates buttonEID t
  end.

(** Modelled from the spec: button.GetCurrentTexture() is the surface of
    the state the button shows. *)
Definition GetCurrentTexture (b : d2components.Button) : option Surface :=
  let sf := d2components.Surfaces b in
  match d2components.current b with
  | d2components.StNormal => Surfaces.Normal sf
  | d2components.StPressed => Surfaces.Pressed sf
  | d2components.StToggled => Surfaces.Toggled sf
  | d2components.StPressedToggled => Surfaces.PressedToggled sf
  | d2components.StDisabled => Surfaces.Disabled sf
  end.

Definition updateButton (buttonEID : EID) (t : UIWidgetFactory) : UIWidgetFactory :=
  match akara.Button (World t) !! buttonEID with
  | None => t
  | Some button =>
      let st := d2components.States button in
      let tx := akara.Texture (World t) in
      match tx !! States.Normal st, tx !! States.Pressed st, tx !! States.Toggled st,
            tx !! States.PressedToggled st, tx !! States.Disabled st with
      | Some normal, Some pressed, Some toggled, Some pressedToggled, Some disabled =>
          let button := withSurfaces
                          (Surfaces.mk normal pressed toggled pressedToggled disabled) button in
          let t := set World (set akara.Button <[buttonEID := button]>) t in
          set World (set akara.Texture <[buttonEID := GetCurrentTexture button]>) t
      | _, _, _, _, _ => t
      end
  end.

Definition Checkbox (x y : float64) (checkedState enabled : bool) (callback : option Callback)
    (t : UIWidgetFactory) : EID * UIWidgetFactory :=
  let '(checkboxEID, t) := NewEntity t in
  let checkbox := default (newCheckbox ext) (akara.Checkbox (World t) !! checkboxEID) in
  let l := d2components.CheckboxLayout checkbox in
  let l := d2checkbox.mkLayout x y
             (rectangle.New x y (float64_of_int (d2checkbox.FixedWidth l))
                (float64_of_int (d2checkbox.FixedHeight l)))
             (d2checkbox.FixedWidth l) (d2checkbox.FixedHeight l)
             (d2checkbox.SpritePath l) (d2checkbox.PalettePath l)
             (d2checkbox.XSegments l) (d2checkbox.YSegments l) (d2checkbox.BaseFrame l) in
  let checkbox := d2components.mkCheckbox l checkedState enabled callback
                    (d2components.CheckboxSprite checkbox) in
  let t := set World (set akara.Checkbox <[checkboxEID := checkbox]>) t in
  let t := set World (set akara.Transform (akara.AddWith (0, 0)%Z (λ _, (x, y)) checkboxEID)) t in
  let '(spriteEID, t) :=
    SpriteFactory.SegmentedSprite x y (d2checkbox.SpritePath l) (d2checkbox.PalettePath l)
      (d2checkbox.XSegments l) (d2checkbox.YSegments l) (d2checkbox.BaseFrame l) t in
  let t := set checkboxLoadQueue <[checkboxEID := checkboxLoadQueueEntry.mk spriteEID]> t in
  (checkboxEID, t).

Definition withCheckboxSprite (s : option SpriteRef) (c : d2components.Checkbox)
  : d2components.Checkbox :=
  d2components.mkCheckbox (d2components.CheckboxLayout c) (d2components.pressed c)
    (d2components.enabled c) (d2components.onActivated c) s.

(** processCheckbox creates a checkbox after all of the prerequisite
    components are ready. *)
Definition processCheckbox (checkboxEID : EID) (t : UIWidgetFactory) : UIWidgetFactory :=
  (* get the queue entry *)
  match checkboxLoadQueue t !! checkboxEID with
  | None => t
  | Some entry =>
      let spriteEID := checkboxLoadQueueEntry.sprite entry in
      (* check if sprite is ready to be used *)
      if negb (isReady spriteEID t) then t
      else
        let t := set World (set akara.Checkbox (akara.Add (newCheckbox ext) checkboxEID)) t in
        let t := set World (set akara.SceneGraphNode (akara.Add None checkboxEID)) t in
        let t := match akara.Sprite (World t) !! spriteEID with
                 | Some sprite =>
                     let t := set World (set akara.Checkbox
                                (alter (withCheckboxSprite (d2components.Sprite_ sprite))
                                   checkboxEID)) t in
                     SetParent spriteEID checkboxEID t
                 | None => t
                 end in
        let checkbox := default (newCheckbox ext) (akara.Checkbox (World t) !! checkboxEID) in
        let t := set World (set akara.Interactive
                   (akara.AddWith d2components.newInteractive
                      (λ _, d2components.mkInteractive (Some d2components.MouseButtonLeft)
                              (d2checkbox.ClickableRect (d2components.CheckboxLayout checkbox))
                              (Some (d2components.ActivateCheckbox checkboxEID)))
                      checkboxEID)) t in
        let t := set World (set akara.Texture (akara.Add None checkboxEID)) t in
        let t := addReady checkboxEID t in
        set checkboxLoadQueue (delete checkboxEID) t
  end.

(** updateCheckbox refreshes the rendering logic for a checkbox.  The call
    checkbox.Update() selects the frame of the checkbox's sprite object; the
    surface of that frame is what GetCurrentFrameSurface returns. *)
Definition updateCheckbox (checkboxEID : EID) (t : UIWidgetFactory) : result UIWidgetFactory :=
  match akara.Checkbox (World t) !! checkboxEID with
  | None => Ok t
  | Some checkbox =>
      let checkboxTexture := akara.Texture (World t) !! checkboxEID in
      match d2components.CheckboxSprite checkbox with
      | None => Panic NilSprite
      | Some s =>
          let surface := frameSurface t !! s in
          match checkboxTexture with
          | None => Panic NilTexture
          | Some _ => Ok (set World (set akara.Texture <[checkboxEID := surface]>) t)
          end
      end
  end.

(** *** The tick *)

Definition runWork (u : work) (t : UIWidgetFactory) : result UIWidgetFactory :=
  match u with
  | ProcessButton e => processButton e t
  | ProcessCheckbox e => Ok (processCheckbox e t)
  | ProcessLabel e => processLabel e t
  | UpdateButton e => Ok (updateButton e t)
  | UpdateCheckbox e => updateCheckbox e t
  | UpdateLabel e => updateLabel e t
  end.

(** One range loop of Update.  The result carries the clock and whether
    Update returned from inside the loop.  A unit of work removes at most
    its own key from the map it was taken from and adds none, so the keys
    read when the loop starts are the keys the range statement visits. *)
Fixpoint rangeLoop (start : N) (unit : EID → work) (es : list EID) (now : N)
    (t : UIWidgetFactory) : result (UIWidgetFactory * N * bool) :=
  match es with
  | [] => Ok (t, now, false)
  | e :: es =>
      if (maxTimePerUpdate ext <? now - start)%N then Ok (t, now, true)
      else
        t' ⇐ runWork (unit e) t;;
        rangeLoop start unit es (now + cost ext (unit e) t)%N t'
  end.

(** The six loops of Update, in order: what each one ranges over, read when
    the loop starts, and the unit it runs per element. *)
Definition loops : list ((EID → work) * (UIWidgetFactory → list EID)) :=
  [ (ProcessButton, λ t, rangeOrder ext (elements (dom (buttonLoadQueue t))));
    (ProcessCheckbox, λ t, rangeOrder ext (elements (dom (checkboxLoadQueue t))));
    (ProcessLabel, λ t, rangeOrder ext (elements (dom (labelLoadQueue t))));
    (UpdateButton, λ t, akara.subscribed (akara.Button (World t)) (World t));
    (UpdateCheckbox, λ t, akara.subscribed (akara.Checkbox (World t)) (World t));
    (UpdateLabel, λ t, akara.subscribed (akara.Label (World t)) (World t)) ].

Fixpoint runLoops (start : N) (ls : list ((EID → work) * (UIWidgetFactory → list EID)))
    (now : N) (t : UIWidgetFactory) : result (UIWidgetFactory * N) :=
  match ls with
  | [] => Ok (t, now)
  | (unit, source) :: ls =>
      r ⇐ rangeLoop start unit (source t) now t;;
      let '(t, now, returned) := r in
      if returned then Ok (t, now) else runLoops start ls now t
  end.

(** Update processes the load queues and updates the widgets.  [now] is the
    reading of the clock when Update is entered; the result carries the
    reading when it returns. *)
Definition Update (now : N) (t : UIWidgetFactory) : result (UIWidgetFactory * N) :=
  let start := now in
  if bool_decide (state t ≠ SceneStateBooted) then Ok (boot t, now)
  else runLoops start loops now t.

End Factory.

(** ** The collaborators' side of the pipeline *)

Module Loader.

(** Modelled from the spec: the resource payloads are populated by external
    loaders.  The asset loader attaches the decoded glyph table to a file
    entity; the sprite pipeline attaches the Sprite component for a request
    it was given, with the image and palette paths of the request; either
    marks an entity Ready when its data is usable. *)
Definition loadFontTable (e : EID) (data : list Byte.byte) (t : UIWidgetFactory)
  : UIWidgetFactory :=
  set World (set akara.FontTable <[e := Some data]>) t.

Definition loadSprite (e : EID) (img : SpriteRef) (t : UIWidgetFactory) : UIWidgetFactory :=
  match spriteRequests t !! e with
  | Some rq =>
      set World (set akara.Sprite
        <[e := d2components.mkSprite (Some img) (imagePath rq) (palettePath rq)]>) t
  | None => t
  end.

Definition markReady (e : EID) (t : UIWidgetFactory) : UIWidgetFactory := addReady e t.

(** Modelled from the spec: the render system comes up with an active
    renderer. *)
Definition bindRenderSystem (r : Renderer) (t : UIWidgetFactory) : UIWidgetFactory :=
  set RenderSystem (λ _, Some (mkRenderSystem (Some r))) t.

(** Modelled from the spec: the render collaborator gives a sprite entity
    its Texture component, holding the surface of the sprite. *)
Definition renderSprite (e : EID) (s : Surface) (t : UIWidgetFactory) : UIWidgetFactory :=
  set World (set akara.Texture <[e := Some s]>) t.

End Loader.

(** ** The button test scene (d2core/d2systems, ButtonTestScene) *)

Module ButtonTestScene.

(** What the scene asks of its collaborators, in the order of the calls.
    BaseScene, the mouse-cursor scene, the object factory behind s.Add and
    the Transform component are declared outside the sources. *)
Inductive call :=
  | BaseSceneBoot                         (* s.BaseScene.boot() *)
  | AddSystemMouseCursor                  (* s.AddSystem(NewMouseCursorScene()) *)
  | AddButton (x y : Z) (btnType : N) (text : string)   (* s.Add.Button(...) *)
  | AddScalar (eid : N) (d : Z)           (* trs.Translation.AddScalar(d) *)
  | BaseSceneUpdate.                      (* s.BaseScene.Update() *)

(** What the scene reads from its collaborators during one Update. *)
Record reads := mkReads {
  Paused : bool;               (* s.Paused() *)
  Booted : bool;               (* s.BaseScene.Booted() *)
  GetEntities : list N;        (* s.buttons.GetEntities() *)
  hasTransform : N → bool      (* _, found := s.Components.Transform.Get(eid) *)
}.

Definition isAddButton (c : call) : bool :=
  match c with AddButton _ _ _ _ => true | _ => false end.

Section Scene.

(** d2button.ButtonTypeBuy *)
Variable ButtonTypeBuy : N.

Definition createButtons : list call := [AddButton 100 100 ButtonTypeBuy "Test"].

Definition boot (r : reads) (state : SceneState) : SceneState * list call :=
  if negb (Booted r) then (state, [BaseSceneBoot])
  else (SceneStateBooted, AddSystemMouseCursor :: createButtons).

Definition updateButtonPosition (r : reads) (eid : N) : list call :=
  if hasTransform r eid then [AddScalar eid 1] else [].

Definition Update (r : reads) (state : SceneState) : SceneState * list call :=
  if Paused r then (state, [])
  else
    let '(state, booting) :=
      if bool_decide (state = SceneStateUninitialized) then boot r state else (state, []) in
    if bool_decide (state ≠ SceneStateBooted) then (state, booting)
    else (state,
          (booting ++ flat_map (updateButtonPosition r) (GetEntities r)
           ++ [BaseSceneUpdate])%list).

(** A run of the scene: one Update per element, with what the collaborators
    answer during it. *)
Fixpoint run (rs : list reads) (state : SceneState) : SceneState * list call :=
  match rs with
  | [] => (state, [])
  | r :: rs =>
      let '(state, calls) := Update r state in
      let '(state', calls') := run rs state in
      (state', (calls ++ calls')%list)
  end.

End Scene.

End ButtonTestScene.

(** ** A concrete run, used to exercise the statements below *)

Module Demo.

(** A layout with a font, an image that changes frame, and no disabled
    frame of its own. *)
Definition layout : d2button.ButtonLayout :=
  d2button.mkLayout "font16" "units" "buysell" 2 1 0 true true (-1).

Definition checkbox : d2components.Checkbox :=
  d2components.mkCheckbox
    (d2checkbox.mkLayout 0 0 rectangle.zero 16 15 "checkbox" "fechar" 1 1 0)
    false false None None.

(** Sixteen milliseconds per tick, one millisecond per unit of work, and
    keys visited in the order of [elements]. *)
Definition ext : Externals :=
  mkExternals (λ _, layout) "units" 1 2 3 checkbox 16000000 (λ _ _, 1000000%N) (λ l, l).

(** The state after [Update] at clock 0, or the state itself on a panic. *)
Definition tick (t : UIWidgetFactory) : UIWidgetFactory :=
  match Update ext 0 t with
  | Ok (t', _) => t'
  | Panic _ => t
  end.

(** A new factory whose render system has come up, after its first tick. *)
Definition booted : UIWidgetFactory :=
  tick (Loader.bindRenderSystem 7 (NewUIWidgetFactory akara.empty)).

(** One label: entity 1, with glyph table 2 and sprite 3. *)
Definition oneLabel : UIWidgetFactory := snd (Label "Test" "F" "P" booted).

(** The loader has decoded the glyph table and the sprite; nothing was
    marked Ready. *)
Definition oneLabelLoaded : UIWidgetFactory :=
  Loader.loadSprite 3 100 (Loader.loadFontTable 2 [] oneLabel).

(** One tick later the label carries its font and is not Ready yet ... *)
Definition oneLabelFont : UIWidgetFactory := tick oneLabelLoaded.

(** ... and the next drain step of the label finalizes it. *)
Definition oneLabelReady : UIWidgetFactory :=
  match processLabel 1 oneLabelFont with
  | Ok t => t
  | Panic _ => oneLabelFont
  end.

(** Two labels of the same font and palette: label 1 (table 2, sprite 3)
    and label 4 (table 5, sprite 6), both loaded. *)
Definition twoLabels : UIWidgetFactory :=
  snd (Label "B" "F" "P" (snd (Label "A" "F" "P" booted))).
Definition twoLabelsLoaded : UIWidgetFactory :=
  Loader.loadSprite 6 100 (Loader.loadFontTable 5 []
    (Loader.loadSprite 3 100 (Loader.loadFontTable 2 [] twoLabels))).

(** The first label has built the font and the cache holds it. *)
Definition firstLabelFont : UIWidgetFactory := addBitmapFontForLabel 1 twoLabelsLoaded.

(** A cache whose budget of 64 is used up by 64 other fonts. *)
Definition otherKey (i : nat) : string :=
  fontCacheKey (pretty i ++ ".tbl") (pretty i ++ ".dc6") "P".
Definition fullCache : d2cache.Cache :=
  foldl (λ c i, fst (d2cache.Insert (otherKey i) i 1 c))
        (d2cache.CreateCache fontCacheBudget) (seq 0 64).
Definition otherFonts : list d2bitmapfont.BitmapFont :=
  (λ i, d2bitmapfont.New (200 + N.of_nat i) [] White) <$> seq 0 64.

(** The two loaded labels in a factory whose cache is full. *)
Definition crowded : UIWidgetFactory :=
  set fonts (λ _, otherFonts) (set bitmapFontCache (λ _, fullCache) twoLabelsLoaded).

(** A button of the demo layout: button 1, its label 2 (table 3, sprite 4)
    and its sprite 5. *)
Definition oneButton : UIWidgetFactory := snd (Button ext 100 100 0 "Test" booted).

(** The button's label and sprite are loaded and the sprite is Ready; after
    three ticks the label is Ready and the five state sprites 6, 7, 8, 9 and
    6 again have been requested. *)
Definition oneButtonLoaded : UIWidgetFactory :=
  Loader.markReady 5 (Loader.loadSprite 5 101
    (Loader.loadSprite 4 100 (Loader.loadFontTable 3 [] oneButton))).
Definition oneButtonLabelReady : UIWidgetFactory := tick (tick oneButtonLoaded).
Definition buttonBefore : d2components.Button :=
  default d2components.newButton (akara.Button (World oneButtonLabelReady) !! 1%N).
Definition oneButtonStates : UIWidgetFactory := tick oneButtonLabelReady.

(** The state sprites are Ready. *)
Definition oneButtonStatesReady : UIWidgetFactory :=
  Loader.markReady 9 (Loader.markReady 8 (Loader.markReady 7
    (Loader.markReady 6 oneButtonStates))).

(** The drain step that finds them so marks the button. *)
Definition oneButtonReady : UIWidgetFactory :=
  match processButton ext 1 oneButtonStatesReady with
  | Ok t => t
  | Panic _ => oneButtonStatesReady
  end.

(** A checkbox: entity 1 with sprite 2, the sprite loaded and Ready; one
    tick later the checkbox is Ready. *)
Definition oneCheckbox : UIWidgetFactory := snd (Checkbox ext 10 10 true true None booted).
Definition oneCheckboxLoaded : UIWidgetFactory :=
  Loader.markReady 2 (Loader.loadSprite 2 100 oneCheckbox).
Definition oneCheckboxReady : UIWidgetFactory := tick oneCheckboxLoaded.

(** The button component once the state sprites have been requested, and
    the component of the finished button. *)
Definition buttonAfter : d2components.Button :=
  default d2components.newButton (akara.Button (World oneButtonStates) !! 1%N).
Definition buttonReady : d2components.Button :=
  default d2components.newButton (akara.Button (World oneButtonReady) !! 1%N).

(** The checkbox component as Checkbox leaves it. *)
Definition checkboxBefore : d2components.Checkbox :=
  default checkbox (akara.Checkbox (World oneCheckbox) !! 1%N).

(** The finished button once its four state sprites have been rendered. *)
Definition oneButtonTextured : UIWidgetFactory :=
  Loader.renderSprite 9 90 (Loader.renderSprite 8 80 (Loader.renderSprite 7 70
    (Loader.renderSprite 6 60 oneButtonReady))).

(** The label whose sprite is decoded while the glyph-table component is
    there with its data still nil. *)
Definition oneLabelUndecoded : UIWidgetFactory :=
  set World (set akara.FontTable <[2%N := None]>) (Loader.loadSprite 3 100 oneLabel).

(** A layout without a font, an image or a disabled frame, and the
    collaborators that hand it out for every button type. *)
Definition plain : d2button.ButtonLayout :=
  d2button.mkLayout "" "" "plain" 1 1 0 false false (-1).
Definition extPlain : Externals :=
  mkExternals (λ _, plain) "units" 1 2 3 checkbox 16000000 (λ _ _, 1000000%N) (λ l, l).

(** Two updates of the test scene: the first boots it, the second finds
    the Ready buttons 1 and 2, of which only 1 has a Transform. *)
Definition sceneRun : list ButtonTestScene.reads :=
  [ ButtonTestScene.mkReads false true [] (λ _, true);
    ButtonTestScene.mkReads false true [1%N; 2%N] (λ e, (e =? 1)%N) ].

(** A logger that prints every level without colours. *)
Definition verbose : Logger.Logger :=
  Logger.SetColorEnabled "windows" true (Logger.SetLevel Logger.LogLevelDebug Logger.NewLogger).

End Demo.

(** ** Widget entities, the invariant and the reachable states *)

(** The entities the factory treats as buttons, checkboxes and labels: those
    that wait in the respective queue or carry the respective component. *)
Definition buttons (t : UIWidgetFactory) : gset EID :=
  dom (akara.Button (World t)) ∪ dom (buttonLoadQueue t).
Definition checkboxes (t : UIWidgetFactory) : gset EID :=
  dom (akara.Checkbox (World t)) ∪ dom (checkboxLoadQueue t).
Definition labels (t : UIWidgetFactory) : gset EID :=
  dom (akara.BitmapFont (World t)) ∪ dom (labelLoadQueue t).
Definition widgets (t : UIWidgetFactory) : gset EID :=
  buttons t ∪ checkboxes t ∪ labels t.

Record wf (t : UIWidgetFactory) : Prop := mkWf {
  (* a Ready checkbox has a texture slot *)
  wf_texture : ∀ e, e ∈ dom (akara.Checkbox (World t)) → e ∈ akara.Ready (World t) →
                    e ∈ dom (akara.Texture (World t));
  (* no entity is a widget of two kinds *)
  wf_button_checkbox : buttons t ## checkboxes t;
  wf_button_label : buttons t ## labels t;
  wf_checkbox_label : checkboxes t ## labels t;
  (* widget entities and Ready entities have been allocated *)
  wf_allocated : ∀ e, e ∈ widgets t ∪ akara.Ready (World t) →
                      (e < akara.nextEntityID (World t))%N
}.

(** What the other systems (loaders, sprite pipeline, renderer, input) may do
    between two operations of the factory: they leave the factory's own
    fields alone, allocate entities, and add or change components, but they
    neither create nor remove widget components, nor mark a widget entity or
    an entity that was never allocated Ready, nor take a texture slot away
    from a widget entity. *)
Record collaborators (t t' : UIWidgetFactory) : Prop := mkCollaborators {
  co_buttonLoadQueue : buttonLoadQueue t' = buttonLoadQueue t;
  co_checkboxLoadQueue : checkboxLoadQueue t' = checkboxLoadQueue t;
  co_labelLoadQueue : labelLoadQueue t' = labelLoadQueue t;
  co_state : state t' = state t;
  co_allocated : (akara.nextEntityID (World t) ≤ akara.nextEntityID (World t'))%N;
  co_Button : dom (akara.Button (World t')) = dom (akara.Button (World t));
  co_Checkbox : dom (akara.Checkbox (World t')) = dom (akara.Checkbox (World t));
  co_BitmapFont : dom (akara.BitmapFont (World t')) = dom (akara.BitmapFont (World t));
  co_Ready : ∀ e, e ∈ akara.Ready (World t') →
                  e ∈ akara.Ready (World t) ∨
                  ((e ∉ widgets t) ∧ (e < akara.nextEntityID (World t'))%N);
  co_Texture : ∀ e, e ∈ widgets t → e ∈ dom (akara.Texture (World t)) →
                    e ∈ dom (akara.Texture (World t'))
}.

(** The states the factory can be in: a new factory on an empty world,
    followed by any number of widget creations, ticks and steps of the
    collaborators. *)
Inductive reach (ext : Externals) : UIWidgetFactory → Prop :=
  | reach_new : reach ext (NewUIWidgetFactory akara.empty)
  | reach_Label t text font palettePath :
      reach ext t → reach ext (snd (Label text font palettePath t))
  | reach_Button t x y btnType text :
      reach ext t → reach ext (snd (Button ext x y btnType text t))
  | reach_Checkbox t x y checkedState enabled callback :
      reach ext t → reach ext (snd (Checkbox ext x y checkedState enabled callback t))
  | reach_Update t now t' now' :
      reach ext t → Update ext now t = Ok (t', now') → reach ext t'
  | reach_collaborators t t' :
      reach ext t → collaborators t t' → reach ext t'.

(** One step of a run of the factory: a widget creation, the boot check,
    one unit of work of an Update, or a step of the collaborators. *)
Inductive step (ext : Externals) : UIWidgetFactory → UIWidgetFactory → Prop :=
  | step_Label t text font palettePath :
      step ext t (snd (Label text font palettePath t))
  | step_Button t x y btnType text :
      step ext t (snd (Button ext x y btnType text t))
  | step_Checkbox t x y checkedState enabled callback :
      step ext t (snd (Checkbox ext x y checkedState enabled callback t))
  | step_boot t :
      step ext t (boot t)
  | step_unit t u t' :
      runWork ext u t = Ok t' → step ext t t'
  | step_collaborators t t' :
      collaborators t t' → step ext t t'.

(** The states a new factory on an empty world gets to, step by step.  They
    include the states between two units of work of one Update. *)
Inductive reachable (ext : Externals) : UIWidgetFactory → Prop :=
  | reachable_new : reachable ext (NewUIWidgetFactory akara.empty)
  | reachable_step t t' : reachable ext t → step ext t t' → reachable ext t'.

(** ** Predicates used in the statements *)

(** The five state sprites of a button all carry Ready. *)
Definition statesReady (st : States.t) (t : UIWidgetFactory) : Prop :=
  States.Normal st ∈ akara.Ready (World t) ∧
  States.Pressed st ∈ akara.Ready (World t) ∧
  States.Toggled st ∈ akara.Ready (World t) ∧
  States.PressedToggled st ∈ akara.Ready (World t) ∧
  States.Disabled st ∈ akara.Ready (World t).

(** The glyph-table entity of the entry carries FontTable and File, and the
    sprite entity carries Sprite: what addBitmapFontForLabel checks. *)
Definition prerequisitesLoaded (l : EID) (t : UIWidgetFactory) : Prop :=
  ∃ entry table tableFile sprite,
    labelLoadQueue t !! l = Some entry ∧
    akara.FontTable (World t) !! labelLoadQueueEntry.table entry = Some table ∧
    akara.File (World t) !! labelLoadQueueEntry.table entry = Some tableFile ∧
    akara.Sprite (World t) !! labelLoadQueueEntry.sprite entry = Some sprite.

(** The glyph-table path, sprite path and palette path of a queued label,
    as addBitmapFontForLabel reads them from the File component of the
    glyph-table entity and the Sprite component of the sprite entity. *)
Definition tripleOf (l : EID) (t : UIWidgetFactory) : option (string * string * string) :=
  entry ← labelLoadQueue t !! l;
  tableFile ← akara.File (World t) !! labelLoadQueueEntry.table entry;
  sprite ← akara.Sprite (World t) !! labelLoadQueueEntry.sprite entry;
  Some (tableFile, d2components.SpritePath sprite, d2components.PalettePath sprite).

(** The cache key addBitmapFontForLabel computes for a queued label. *)
Definition cacheKeyOf (l : EID) (t : UIWidgetFactory) : option string :=
  entry ← labelLoadQueue t !! l;
  tableFile ← akara.File (World t) !! labelLoadQueueEntry.table entry;
  sprite ← akara.Sprite (World t) !! labelLoadQueueEntry.sprite entry;
  Some (fontCacheKey tableFile (d2components.SpritePath sprite)
          (d2components.PalettePath sprite)).

(** What processButton does, once the label and the sprite are Ready and
    before it turns to the states: the button gets its component, its
    scene-graph node and its sprite, and the sprite and the label are hung
    below it. *)
Definition attached (b : EID) (entry : buttonLoadQueueEntry.t) (t : UIWidgetFactory)
  : UIWidgetFactory :=
  let t := set World (set akara.Button (akara.Add d2components.newButton b)) t in
  let t := set World (set akara.SceneGraphNode (akara.Add None b)) t in
  let t := match akara.Sprite (World t) !! buttonLoadQueueEntry.sprite entry with
           | Some sprite =>
               let t := set World (set akara.Button
                          (alter (withSprite (d2components.Sprite_ sprite)) b)) t in
               SetParent (buttonLoadQueueEntry.sprite entry) b t
           | None => t
           end in
  if found (akara.Label (World t) !! buttonLoadQueueEntry.label entry)
  then SetParent (buttonLoadQueueEntry.label entry) b t else t.

(** The string has no occurrence of the character. *)
Fixpoint lacks (c : ascii) (s : string) : bool :=
  match s with
  | EmptyString => true
  | String a s => negb (Ascii.eqb a c) && lacks c s
  end.

(** How many sprites processButtonStates requests for a layout: the normal
    one, three more when the image changes frame, and one for the disabled
    frame when the layout has one. *)
Definition stateSprites (layout : d2button.ButtonLayout) : N :=
  if d2button.HasImage layout && d2button.AllowFrameChange layout then
    if (d2button.DisabledFrame layout =? isNotSegmented)%Z then 4 else 5
  else 1.

(** The entities that wait in one of the three load queues. *)
Definition queued (t : UIWidgetFactory) : gset EID :=
  dom (buttonLoadQueue t) ∪ dom (checkboxLoadQueue t) ∪ dom (labelLoadQueue t).

(** What holds of the queues in every state the factory reaches: entity 0 is
    never handed out and is no widget, the glyph-table entity of a waiting
    label has been allocated and is no widget, and a widget that waits in a
    queue does not carry Ready. *)
Record pending (t : UIWidgetFactory) : Prop := mkPending {
  pending_first : (1 ≤ akara.nextEntityID (World t))%N;
  pending_zero : 0%N ∉ widgets t;
  pending_table : ∀ l entry, labelLoadQueue t !! l = Some entry →
                    (labelLoadQueueEntry.table entry ∉ widgets t) ∧
                    (labelLoadQueueEntry.table entry < akara.nextEntityID (World t))%N;
  pending_not_ready : ∀ e, e ∈ queued t → e ∉ akara.Ready (World t)
}.

(** What a unit of work of a tick does to the widgets: it allocates
    entities, creates and destroys no widget, adds no label to the queue,
    marks Ready only an entity that it takes from the queues, and leaves a
    Ready widget Ready. *)
Record keeps (t t' : UIWidgetFactory) : Prop := mkKeeps {
  keeps_allocated : (akara.nextEntityID (World t) ≤ akara.nextEntityID (World t'))%N;
  keeps_buttons : buttons t' = buttons t;
  keeps_checkboxes : checkboxes t' = checkboxes t;
  keeps_labels : labels t' = labels t;
  keeps_labelLoadQueue : ∀ l entry, labelLoadQueue t' !! l = Some entry →
                                    labelLoadQueue t !! l = Some entry;
  keeps_queued : queued t' ⊆ queued t;
  keeps_marked : ∀ e, e ∈ akara.Ready (World t') →
                      e ∈ akara.Ready (World t) ∨ (e ∉ queued t');
  keeps_ready : ∀ e, e ∈ widgets t → e ∈ akara.Ready (World t) →
                     e ∈ akara.Ready (World t')
}.

(** * Properties *)

Lemma bind_Ok {A B} (m : result A) (k : A → result B) b :
  bind m k = Ok b → ∃ a, m = Ok a ∧ k a = Ok b.
Proof. destruct m; simpl; [eauto | discriminate]. Qed.

Section ButtonStates.

Variable ext : Externals.

(** The entity handed out by the sprite factory is the world's next one. *)
Lemma SegmentedSprite_fst x y img pal sx sy fr t :
  fst (SpriteFactory.SegmentedSprite x y img pal sx sy fr t) = akara.nextEntityID (World t).
Proof. reflexivity. Qed.

(** C4. State-sprite construction for a button that has not been processed
    (its Normal reference is still 0) succeeds, and the five references the
    button component holds afterwards are such that: Normal is the entity the
    sprite factory handed out first; when the layout's disabled frame is the
    sentinel [isNotSegmented], Disabled is the very entity Normal; when the
    layout has no image or does not allow frame changes, Pressed, Toggled,
    PressedToggled and Disabled are all the entity Normal; and when the
    layout has an image that changes frame, Pressed, Toggled and
    PressedToggled are the next three entities, and Disabled the fourth when
    the disabled frame is not the sentinel.  The layout is kept. *)
Theorem processButtonStates_aliasing (buttonEID : EID) (t : UIWidgetFactory)
    (button : d2components.Button) :
  akara.Button (World t) !! buttonEID = Some button →
  States.Normal (d2components.States button) = 0%N →
  ∃ t' button',
    processButtonStates ext buttonEID t = Ok t' ∧
    akara.Button (World t') !! buttonEID = Some button' ∧
    d2components.Layout button' = d2components.Layout button ∧
    States.Normal (d2components.States button') = akara.nextEntityID (World t) ∧
    (d2button.DisabledFrame (d2components.Layout button) = isNotSegmented →
       States.Disabled (d2components.States button')
       = States.Normal (d2components.States button')) ∧
    (d2button.HasImage (d2components.Layout button) = false ∨
     d2button.AllowFrameChange (d2components.Layout button) = false →
       States.Pressed (d2components.States button')
       = States.Normal (d2components.States button') ∧
       States.Toggled (d2components.States button')
       = States.Normal (d2components.States button') ∧
       States.PressedToggled (d2components.States button')
       = States.Normal (d2components.States button') ∧
       States.Disabled (d2components.States button')
       = States.Normal (d2components.States button')) ∧
    (d2button.HasImage (d2components.Layout button) = true →
     d2button.AllowFrameChange (d2components.Layout button) = true →
       States.Pressed (d2components.States button')
       = (akara.nextEntityID (World t) + 1)%N ∧
       States.Toggled (d2components.States button')
       = (akara.nextEntityID (World t) + 2)%N ∧
       States.PressedToggled (d2components.States button')
       = (akara.nextEntityID (World t) + 3)%N ∧
       (d2button.DisabledFrame (d2components.Layout button) ≠ isNotSegmented →
          States.Disabled (d2components.States button')
          = (akara.nextEntityID (World t) + 4)%N)).
Proof.
  intros Hb Hn. unfold processButtonStates. rewrite Hb, Hn. simpl.
  destruct (d2button.HasImage (d2components.Layout button)) eqn:Hi;
    destruct (d2button.AllowFrameChange (d2components.Layout button)) eqn:Ha; simpl;
    [destruct (d2button.DisabledFrame (d2components.Layout button) =? isNotSegmented)%Z
       eqn:Hd; simpl | ..];
    (eexists _, _; split; [reflexivity |]; simpl;
     rewrite lookup_alter_eq, Hb; simpl;
     split; [reflexivity |]; simpl; split; [reflexivity |]; split; [reflexivity |]).
  - split; [done |]. split; [intros [?|?]; discriminate |]. intros _ _.
    split; [lia |]. split; [lia |]. split; [lia |].
    intros He. by apply Z.eqb_eq in Hd.
  - split; [intros He; by apply Z.eqb_neq in Hd |].
    split; [intros [?|?]; discriminate |]. intros _ _.
    split; [lia |]. split; [lia |]. split; [lia |]. intros _. lia.
  - split; [done |]. split; [done |]. discriminate.
  - split; [done |]. split; [done |]. discriminate.
  - split; [done |]. split; [done |]. discriminate.
Qed.

End ButtonStates.

Lemma processButtonStates_aliasing_witness :
  ∃ t' button',
    processButtonStates Demo.ext 1 (Demo.oneButtonLabelReady) = Ok t' ∧
    akara.Button (World t') !! 1%N = Some button' ∧
    d2components.Layout button' = Demo.layout ∧
    States.Normal (d2components.States button') = 6%N ∧
    (d2button.DisabledFrame Demo.layout = isNotSegmented →
       States.Disabled (d2components.States button')
       = States.Normal (d2components.States button')) ∧
    (d2button.HasImage Demo.layout = false ∨
     d2button.AllowFrameChange Demo.layout = false →
       States.Pressed (d2components.States button')
       = States.Normal (d2components.States button') ∧
       States.Toggled (d2components.States button')
       = States.Normal (d2components.States button') ∧
       States.PressedToggled (d2components.States button')
       = States.Normal (d2components.States button') ∧
       States.Disabled (d2components.States button')
       = States.Normal (d2components.States button')) ∧
    (d2button.HasImage Demo.layout = true →
     d2button.AllowFrameChange Demo.layout = true →
       States.Pressed (d2components.States button') = (6 + 1)%N ∧
       States.Toggled (d2components.States button') = (6 + 2)%N ∧
       States.PressedToggled (d2components.States button') = (6 + 3)%N ∧
       (d2button.DisabledFrame Demo.layout ≠ isNotSegmented →
          States.Disabled (d2components.States button') = (6 + 4)%N)).
Proof.
  apply (processButtonStates_aliasing Demo.ext 1 (Demo.oneButtonLabelReady)
           Demo.buttonBefore); vm_compute; reflexivity.
Defined.

(** ** Component stores *)

Lemma dom_Add {T} (z : T) (e : EID) (m : gmap N T) :
  dom (akara.Add z e m) = {[e]} ∪ dom m.
Proof.
  unfold akara.Add. destruct (m !! e) eqn:He.
  - apply elem_of_dom_2 in He. apply set_eq. intros x.
    rewrite elem_of_union, elem_of_singleton. naive_solver.
  - apply dom_insert_L.
Qed.

Lemma dom_AddWith {T} (z : T) (h : T → T) (e : EID) (m : gmap N T) :
  dom (akara.AddWith z h e m) = {[e]} ∪ dom m.
Proof. apply dom_insert_L. Qed.

Lemma lookup_Add_ne {T} (z : T) (e e' : EID) (m : gmap N T) :
  e ≠ e' → akara.Add z e m !! e' = m !! e'.
Proof.
  intros. unfold akara.Add. destruct (m !! e); [done |]. by rewrite lookup_insert_ne.
Qed.

Lemma lookup_Add_is_Some {T} (z : T) (e : EID) (m : gmap N T) :
  is_Some (akara.Add z e m !! e).
Proof.
  apply elem_of_dom. rewrite dom_Add. apply elem_of_union_l, elem_of_singleton. done.
Qed.

Lemma lookup_Add_eq {T} (z : T) (e : EID) (m : gmap N T) :
  akara.Add z e m !! e = Some (default z (m !! e)).
Proof.
  unfold akara.Add. destruct (m !! e) eqn:He; simpl; [done |]. apply lookup_insert_eq.
Qed.

Lemma isReady_true e t : isReady e t = true ↔ e ∈ akara.Ready (World t).
Proof. unfold isReady. apply bool_decide_eq_true. Qed.

Ltac unfold_kinds := unfold widgets, buttons, checkboxes, labels in *.
Ltac doms :=
  repeat first [ rewrite dom_alter_L | rewrite dom_Add | rewrite dom_AddWith
               | rewrite dom_delete_L | rewrite dom_insert_L ].

(** ** The invariant is kept by every operation *)

(** A step that adds no widget of any kind, marks nothing Ready and keeps
    the texture slots keeps the invariant. *)
Lemma wf_preserved t t' :
  wf t →
  dom (akara.Checkbox (World t')) ⊆ dom (akara.Checkbox (World t)) →
  akara.Ready (World t') ⊆ akara.Ready (World t) →
  dom (akara.Texture (World t)) ⊆ dom (akara.Texture (World t')) →
  buttons t' ⊆ buttons t → checkboxes t' ⊆ checkboxes t → labels t' ⊆ labels t →
  (akara.nextEntityID (World t) ≤ akara.nextEntityID (World t'))%N →
  wf t'.
Proof.
  intros [H1 H2 H3 H4 H5] Hc Hr Htx Hb Hcb Hl Hn. constructor.
  - set_solver.
  - set_solver.
  - set_solver.
  - set_solver.
  - intros e He. eapply N.lt_le_trans; [apply H5 | exact Hn].
    unfold widgets in *. set_solver.
Qed.

Ltac preserved :=
  eapply wf_preserved; [eassumption | unfold_kinds; simpl; doms; set_solver ..
                       | simpl; lia].

(** Marking a widget Ready keeps the invariant unless it is a checkbox
    without a texture slot. *)
Lemma wf_addReady e t :
  wf t → e ∈ widgets t →
  (e ∈ dom (akara.Checkbox (World t)) → e ∈ dom (akara.Texture (World t))) →
  wf (addReady e t).
Proof.
  intros [H1 H2 H3 H4 H5] He Ht. constructor; unfold_kinds; simpl.
  - intros x Hx [->%elem_of_singleton | Hr]%elem_of_union; auto.
  - done.
  - done.
  - done.
  - intros x Hx. apply H5. set_solver.
Qed.

Lemma wf_RemoveEntity e t : wf t → wf (RemoveEntity e t).
Proof.
  intros [H1 H2 H3 H4 H5]. constructor; unfold_kinds; simpl; doms.
  - set_solver.
  - set_solver.
  - set_solver.
  - set_solver.
  - intros x Hx. apply H5. set_solver.
Qed.

Lemma wf_not_checkbox_l t e : wf t → e ∈ labels t → e ∉ dom (akara.Checkbox (World t)).
Proof. intros [H1 H2 H3 H4 H5] He. unfold_kinds. set_solver. Qed.

Lemma wf_not_checkbox_b t e : wf t → e ∈ buttons t → e ∉ dom (akara.Checkbox (World t)).
Proof. intros [H1 H2 H3 H4 H5] He. unfold_kinds. set_solver. Qed.

Lemma wf_fresh t e :
  wf t → (akara.nextEntityID (World t) ≤ e)%N →
  (e ∉ widgets t) ∧ (e ∉ akara.Ready (World t)).
Proof.
  intros [H1 H2 H3 H4 H5] He.
  split; intros Hin; specialize (H5 e); (assert (e < akara.nextEntityID (World t))%N
    by (apply H5; set_solver)); lia.
Qed.

(** The five fields of [wf] for a state that has been computed from [t],
    when no entity of [t] changed kind and the allocator did not go back. *)
Ltac solve_allocated H :=
  let e := fresh "e" in
  let He := fresh "He" in
  intros e He; eapply N.lt_le_trans; [apply H; set_solver | simpl; lia].
Ltac solve_wf H :=
  constructor; unfold_kinds; simpl; doms;
  [set_solver | set_solver | set_solver | set_solver | solve_allocated H].

Section Invariant.

Variable ext : Externals.

Lemma processCheckbox_wf c t : wf t → wf (processCheckbox ext c t).
Proof.
  intros Hwf. unfold processCheckbox.
  destruct (checkboxLoadQueue t !! c) as [entry|] eqn:Hq; [| done].
  destruct (isReady _ t) eqn:Hr; simpl; [| done].
  destruct Hwf as [H1 H2 H3 H4 H5].
  assert (Hc : c ∈ checkboxes t).
  { unfold checkboxes. apply elem_of_dom_2 in Hq. set_solver. }
  destruct (akara.Sprite (World t) !! _); simpl; solve_wf H5.
Qed.

Lemma renderButtonStates_wf b t t' :
  wf t → renderButtonStates b t = Ok t' → wf t'.
Proof.
  intros Hwf Hop. unfold renderButtonStates in Hop.
  destruct (akara.Button (World t) !! b) as [button|] eqn:Hb; [| discriminate].
  destruct (negb _); simplify_eq; [done |].
  destruct Hwf as [H1 H2 H3 H4 H5].
  assert (Hc : b ∈ buttons t).
  { unfold buttons. apply elem_of_dom_2 in Hb. set_solver. }
  solve_wf H5.
Qed.

Lemma processButtonStates_wf b t t' :
  wf t → processButtonStates ext b t = Ok t' → wf t'.
Proof.
  intros Hwf Hop. unfold processButtonStates in Hop.
  destruct (akara.Button (World t) !! b) as [button|] eqn:Hb; [| discriminate].
  destruct (0 <? _)%N; [by eapply renderButtonStates_wf |].
  simpl in Hop.
  destruct (d2button.HasImage _ && d2button.AllowFrameChange _);
    [destruct (negb _) |]; simpl in Hop; simplify_eq; preserved.
Qed.

Lemma processButton_wf b t t' :
  wf t → processButton ext b t = Ok t' → wf t'.
Proof.
  intros Hwf Hop. unfold processButton in Hop.
  destruct (buttonLoadQueue t !! b) as [entry|] eqn:Hq; [| by simplify_eq].
  destruct (negb _) eqn:Hr; [by simplify_eq |].
  assert (Hc : b ∈ buttons t).
  { unfold buttons. apply elem_of_dom_2 in Hq. set_solver. }
  simpl in Hop.
  destruct (akara.Sprite (World t) !! _); simpl in Hop;
    destruct (found _); simpl in Hop;
    (eapply processButtonStates_wf; [| exact Hop]); preserved.
Qed.

Lemma addBitmapFontForLabel_wf l t : wf t → wf (addBitmapFontForLabel l t).
Proof.
  intros Hwf. unfold addBitmapFontForLabel.
  destruct (labelLoadQueue t !! l) as [entry|] eqn:Hq; [| done].
  destruct (negb _); [done |].
  destruct (akara.File (World t) !! _); [| done].
  destruct (akara.Sprite (World t) !! _) as [sprite|] eqn:Hs; [| done].
  destruct Hwf as [H1 H2 H3 H4 H5].
  assert (Hc : l ∈ labels t).
  { unfold labels. apply elem_of_dom_2 in Hq. set_solver. }
  destruct (d2cache.Retrieve _ _); [solve_wf H5 |].
  unfold createBitmapFont. rewrite Hs.
  destruct (akara.FontTable (World t) !! _) as [[data|]|];
    destruct (d2components.Sprite_ sprite); try by constructor.
  simpl. destruct (d2cache.Insert _ _ _ _) as [c [err|]]; simpl; solve_wf H5.
Qed.

Lemma processLabel_wf l t t' :
  wf t → processLabel l t = Ok t' → wf t'.
Proof.
  intros Hwf Hop. unfold processLabel in Hop.
  destruct (akara.BitmapFont (World t) !! l) as [bmf|] eqn:Hb.
  2: { simplify_eq. by apply addBitmapFontForLabel_wf. }
  destruct (bmf ≫= _); [| discriminate].
  apply bind_Ok in Hop as (r & _ & Hop). simplify_eq.
  destruct Hwf as [H1 H2 H3 H4 H5].
  assert (Hc : l ∈ labels t).
  { unfold labels. apply elem_of_dom_2 in Hb. set_solver. }
  solve_wf H5.
Qed.

Lemma updateButton_wf b t : wf t → wf (updateButton b t).
Proof.
  intros Hwf. unfold updateButton.
  destruct (akara.Button (World t) !! b) as [button|] eqn:Hb; [| done].
  assert (Hc : b ∈ buttons t).
  { unfold buttons. apply elem_of_dom_2 in Hb. set_solver. }
  repeat (match goal with
          | |- context [match ?x !! ?k with _ => _ end] => destruct (x !! k)
          end; try done).
  preserved.
Qed.

Lemma updateCheckbox_wf c t t' : wf t → updateCheckbox c t = Ok t' → wf t'.
Proof.
  intros Hwf Hop. unfold updateCheckbox in Hop.
  destruct (akara.Checkbox (World t) !! c); [| by simplify_eq].
  destruct (d2components.CheckboxSprite _); [| discriminate].
  destruct (akara.Texture (World t) !! c); simplify_eq. preserved.
Qed.

Lemma updateLabel_wf l t t' : wf t → updateLabel l t = Ok t' → wf t'.
Proof.
  intros Hwf Hop. unfold updateLabel in Hop.
  destruct (akara.Label (World t) !! l); [| by simplify_eq].
  destruct (akara.BitmapFont (World t) !! l); [| by simplify_eq].
  destruct (negb _); [simplify_eq; preserved |].
  simpl in Hop. destruct (RenderSystem t) as [rs|]; [| discriminate].
  destruct (renderer rs); [| discriminate]. simplify_eq. preserved.
Qed.

Lemma runWork_wf u t t' : wf t → runWork ext u t = Ok t' → wf t'.
Proof.
  intros Hwf Hop. destruct u; simpl in Hop.
  - by eapply processButton_wf.
  - simplify_eq. by apply processCheckbox_wf.
  - by eapply processLabel_wf.
  - simplify_eq. by apply updateButton_wf.
  - by eapply updateCheckbox_wf.
  - by eapply updateLabel_wf.
Qed.

Lemma rangeLoop_wf start unit es now t t' now' returned :
  wf t → rangeLoop ext start unit es now t = Ok (t', now', returned) → wf t'.
Proof.
  revert now t. induction es as [|e es IH]; intros now t Hwf Hop; simpl in Hop.
  - by simplify_eq.
  - destruct (_ <? _)%N; [by simplify_eq |].
    apply bind_Ok in Hop as (t1 & Hu & Hop).
    eapply IH; [| exact Hop]. by eapply runWork_wf.
Qed.

Lemma runLoops_wf start ls now t t' now' :
  wf t → runLoops ext start ls now t = Ok (t', now') → wf t'.
Proof.
  revert now t. induction ls as [|[unit source] ls IH]; intros now t Hwf Hop;
    simpl in Hop.
  - by simplify_eq.
  - apply bind_Ok in Hop as ([[t1 now1] returned] & Hl & Hop).
    apply rangeLoop_wf in Hl; [| done].
    destruct returned; [by simplify_eq |]. by eapply IH.
Qed.

Lemma boot_wf t : wf t → wf (boot t).
Proof.
  intros Hwf. unfold boot. destruct (RenderSystem t) as [rs|]; [| done].
  destruct (renderer rs); [| done]. destruct Hwf. by constructor.
Qed.

Lemma Update_wf now t t' now' : wf t → Update ext now t = Ok (t', now') → wf t'.
Proof.
  intros Hwf Hop. unfold Update in Hop.
  destruct (bool_decide _); [simplify_eq; by apply boot_wf |].
  by eapply runLoops_wf.
Qed.

Lemma wf_new : wf (NewUIWidgetFactory akara.empty).
Proof. constructor; unfold_kinds; simpl; set_solver. Qed.

Lemma Label_wf text font palettePath t :
  wf t → wf (snd (Label text font palettePath t)).
Proof.
  intros Hwf.
  destruct (wf_fresh t (akara.nextEntityID (World t)) Hwf) as [Hf Hr]; [lia |].
  destruct Hwf as [H1 H2 H3 H4 H5].
  constructor; unfold_kinds; simpl; doms; [set_solver .. |].
  intros e He. simpl in *.
  assert (e ∈ widgets t ∪ akara.Ready (World t) ∨ e = akara.nextEntityID (World t))
    as [Hold | ->] by (unfold_kinds; set_solver); [apply H5 in Hold |]; lia.
Qed.

Lemma Label_fst text font palettePath t :
  fst (Label text font palettePath t) = akara.nextEntityID (World t).
Proof. reflexivity. Qed.

Lemma Label_allocated text font palettePath t :
  akara.nextEntityID (World (snd (Label text font palettePath t)))
  = (akara.nextEntityID (World t) + 3)%N.
Proof. simpl. lia. Qed.

Lemma Checkbox_wf x y checkedState enabled callback t :
  wf t → wf (snd (Checkbox ext x y checkedState enabled callback t)).
Proof.
  intros Hwf.
  destruct (wf_fresh t (akara.nextEntityID (World t)) Hwf) as [Hf Hr]; [lia |].
  destruct Hwf as [H1 H2 H3 H4 H5].
  constructor; unfold_kinds; simpl; doms; [set_solver .. |].
  intros e He. simpl in *.
  assert (e ∈ widgets t ∪ akara.Ready (World t) ∨ e = akara.nextEntityID (World t))
    as [Hold | ->] by (unfold_kinds; set_solver); [apply H5 in Hold |]; lia.
Qed.

Lemma Button_wf x y btnType text t :
  wf t → wf (snd (Button ext x y btnType text t)).
Proof.
  intros Hwf.
  destruct (wf_fresh t (akara.nextEntityID (World t)) Hwf) as [Hf Hr]; [lia |].
  destruct (wf_fresh t (N.succ (akara.nextEntityID (World t))) Hwf) as [Hf' Hr'];
    [lia |].
  destruct Hwf as [H1 H2 H3 H4 H5].
  assert (Hne : akara.nextEntityID (World t) ≠ N.succ (akara.nextEntityID (World t)))
    by lia.
  unfold Button. simpl.
  destruct (negb _ && negb _); simpl.
  - constructor; unfold_kinds; simpl; doms; [set_solver .. |].
    intros e He. simpl in *.
    assert (e ∈ widgets t ∪ akara.Ready (World t) ∨ e = akara.nextEntityID (World t)
            ∨ e = N.succ (akara.nextEntityID (World t)))
      as [Hold | [-> | ->]] by (unfold_kinds; set_solver); [apply H5 in Hold | |]; lia.
  - constructor; unfold_kinds; simpl; doms; [set_solver .. |].
    intros e He. simpl in *.
    assert (e ∈ widgets t ∪ akara.Ready (World t) ∨ e = akara.nextEntityID (World t)
            ∨ e = N.succ (akara.nextEntityID (World t)))
      as [Hold | [-> | ->]] by (unfold_kinds; set_solver); [apply H5 in Hold | |]; lia.
Qed.

Lemma collaborators_wf t t' : wf t → collaborators t t' → wf t'.
Proof.
  intros [H1 H2 H3 H4 H5] [Q1 Q2 Q3 Q4 Q5 Q6 Q7 Q8 Q9 Q10].
  assert (Hb : buttons t' = buttons t) by (unfold buttons; congruence).
  assert (Hc : checkboxes t' = checkboxes t) by (unfold checkboxes; congruence).
  assert (Hl : labels t' = labels t) by (unfold labels; congruence).
  assert (Hw : widgets t' = widgets t) by (unfold widgets; congruence).
  constructor; rewrite ?Hb, ?Hc, ?Hl, ?Hw; try done.
  - rewrite Q7. intros e He Hr. apply Q10; [unfold_kinds; set_solver |].
    destruct (Q9 e Hr) as [Hr' | [Hn _]]; [by apply H1 |].
    exfalso. apply Hn. unfold_kinds. set_solver.
  - intros e [He | He]%elem_of_union.
    + eapply N.lt_le_trans; [apply H5; set_solver | done].
    + destruct (Q9 e He) as [Hr' | [_ Hlt]]; [| done].
      eapply N.lt_le_trans; [apply H5; set_solver | done].
Qed.

Lemma bindRenderSystem_co r t : collaborators t (Loader.bindRenderSystem r t).
Proof. constructor; simpl; auto; lia. Qed.

Lemma loadFontTable_co e data t : collaborators t (Loader.loadFontTable e data t).
Proof. constructor; simpl; auto; lia. Qed.

Lemma loadSprite_co e img t : collaborators t (Loader.loadSprite e img t).
Proof.
  unfold Loader.loadSprite. destruct (spriteRequests t !! e);
    constructor; simpl; auto; lia.
Qed.

Lemma markReady_co e t :
  e ∉ widgets t → (e < akara.nextEntityID (World t))%N →
  collaborators t (Loader.markReady e t).
Proof.
  intros Hw Hn. constructor; simpl; auto; try lia.
  intros x [->%elem_of_singleton | Hx]%elem_of_union; auto.
Qed.

Lemma reach_wf t : reach ext t → wf t.
Proof.
  induction 1.
  - apply wf_new.
  - by apply Label_wf.
  - by apply Button_wf.
  - by apply Checkbox_wf.
  - by eapply Update_wf.
  - by eapply collaborators_wf.
Qed.

End Invariant.

(** ** Who receives the Ready marker, and when *)

Section Ready.

Variable ext : Externals.

Lemma renderButtonStates_inv b t t' :
  renderButtonStates b t = Ok t' →
  (akara.Ready (World t') = akara.Ready (World t) ∧
   buttonLoadQueue t' = buttonLoadQueue t) ∨
  (∃ button,
     akara.Button (World t) !! b = Some button ∧
     statesReady (d2components.States button) t ∧
     akara.Ready (World t') = {[b]} ∪ akara.Ready (World t) ∧
     buttonLoadQueue t' = delete b (buttonLoadQueue t)).
Proof.
  intros Hop. unfold renderButtonStates in Hop.
  destruct (akara.Button (World t) !! b) as [button|] eqn:Hb; [| discriminate].
  destruct (negb _) eqn:Hr; simplify_eq; [by left |].
  right. exists button. split; [done |]. split; [| done].
  apply negb_false_iff in Hr.
  repeat (apply andb_true_iff in Hr as [Hr ?]).
  unfold statesReady. rewrite <- !isReady_true. done.
Qed.

Lemma processButtonStates_inv b t t' :
  processButtonStates ext b t = Ok t' →
  (akara.Ready (World t') = akara.Ready (World t) ∧
   buttonLoadQueue t' = buttonLoadQueue t) ∨
  (∃ button,
     akara.Button (World t) !! b = Some button ∧
     (0 < States.Normal (d2components.States button))%N ∧
     statesReady (d2components.States button) t ∧
     akara.Ready (World t') = {[b]} ∪ akara.Ready (World t) ∧
     buttonLoadQueue t' = delete b (buttonLoadQueue t)).
Proof.
  intros Hop. unfold processButtonStates in Hop.
  destruct (akara.Button (World t) !! b) as [button|] eqn:Hb; [| discriminate].
  destruct (0 <? _)%N eqn:Hp.
  - apply renderButtonStates_inv in Hop as [? | (button' & Hb' & ?)]; [by left |].
    right. exists button. rewrite Hb in Hb'. simplify_eq.
    apply N.ltb_lt in Hp. done.
  - left. simpl in Hop.
    destruct (d2button.HasImage _ && d2button.AllowFrameChange _);
      [destruct (negb _) |]; simpl in Hop; by simplify_eq.
Qed.

(** What one drain step of a button does to the Ready markers and to the
    button queue: nothing, or — with the queue entry present, its label and
    sprite Ready, and the five state sprites of the button Ready — it marks
    the button and removes the entry. *)
Lemma processButton_inv b t t' :
  processButton ext b t = Ok t' →
  (akara.Ready (World t') = akara.Ready (World t) ∧
   buttonLoadQueue t' = buttonLoadQueue t) ∨
  (∃ entry button,
     buttonLoadQueue t !! b = Some entry ∧
     buttonLoadQueueEntry.label entry ∈ akara.Ready (World t) ∧
     buttonLoadQueueEntry.sprite entry ∈ akara.Ready (World t) ∧
     akara.Button (World t) !! b = Some button ∧
     statesReady (d2components.States button) t ∧
     akara.Ready (World t') = {[b]} ∪ akara.Ready (World t) ∧
     buttonLoadQueue t' = delete b (buttonLoadQueue t)).
Proof.
  intros Hop. unfold processButton in Hop.
  destruct (buttonLoadQueue t !! b) as [entry|] eqn:Hq; [| simplify_eq; by left].
  destruct (negb _) eqn:Hr; [simplify_eq; by left |].
  apply negb_false_iff, andb_true_iff in Hr as [Hl Hs].
  apply isReady_true in Hl, Hs.
  simpl in Hop.
  destruct (akara.Sprite (World t) !! _); simpl in Hop;
    destruct (found _); simpl in Hop;
    apply processButtonStates_inv in Hop
      as [Hsame | (button & Hb & Hp & Hst & HR & HQ)];
    simpl in *; try (by left); right;
    rewrite ?lookup_alter_eq, lookup_Add_eq in Hb;
    (destruct (akara.Button (World t) !! b) as [button0|] eqn:Hb0;
     simpl in Hb; simplify_eq; unfold statesReady in *; simpl in *;
     [ eexists _, _; repeat split; try done; tauto | lia ]).
Qed.

Lemma processCheckbox_inv c t :
  (processCheckbox ext c t = t) ∨
  (∃ entry,
     checkboxLoadQueue t !! c = Some entry ∧
     checkboxLoadQueueEntry.sprite entry ∈ akara.Ready (World t) ∧
     akara.Ready (World (processCheckbox ext c t)) = {[c]} ∪ akara.Ready (World t) ∧
     is_Some (akara.Texture (World (processCheckbox ext c t)) !! c) ∧
     checkboxLoadQueue (processCheckbox ext c t) = delete c (checkboxLoadQueue t) ∧
     buttonLoadQueue (processCheckbox ext c t) = buttonLoadQueue t).
Proof.
  unfold processCheckbox.
  destruct (checkboxLoadQueue t !! c) as [entry|] eqn:Hq; [| by left].
  destruct (isReady _ t) eqn:Hr; simpl; [| by left].
  right. exists entry. apply isReady_true in Hr.
  destruct (akara.Sprite (World t) !! _); simpl;
    (split; [done |]; split; [done |]; split; [done |];
     split; [apply lookup_Add_is_Some |]; split; done).
Qed.

End Ready.

(** ** Bitmap fonts: the cache and the two ways a label gets its font *)

Section BitmapFont.

(** The cache-hit path: the cached object is attached, the label is marked
    Ready and leaves the queue; nothing else changes. *)
Lemma addBitmapFontForLabel_hit l t key iface :
  prerequisitesLoaded l t → cacheKeyOf l t = Some key →
  d2cache.Retrieve key (bitmapFontCache t) = Some iface →
  addBitmapFontForLabel l t
  = set labelLoadQueue (delete l)
      (addReady l
         (set World (set akara.BitmapFont (akara.AddWith None (λ _, Some iface) l)) t)).
Proof.
  intros (entry & table & tableFile & sprite & Hq & Hft & Hf & Hs) Hk Hr.
  unfold cacheKeyOf in Hk. rewrite Hq in Hk. simpl in Hk.
  rewrite Hf in Hk. simpl in Hk. rewrite Hs in Hk. simpl in Hk. simplify_eq.
  unfold addBitmapFontForLabel. rewrite Hq, Hft, Hs, Hf. simpl. by rewrite Hr.
Qed.

(** The miss path with both inputs decoded: a new font object is built, it
    is offered to the cache, a rejected insert starts a warning goroutine,
    and the object is attached to the label either way. *)
Lemma addBitmapFontForLabel_miss l t entry tableFile sprite data img key :
  labelLoadQueue t !! l = Some entry →
  akara.FontTable (World t) !! labelLoadQueueEntry.table entry = Some (Some data) →
  akara.File (World t) !! labelLoadQueueEntry.table entry = Some tableFile →
  akara.Sprite (World t) !! labelLoadQueueEntry.sprite entry = Some sprite →
  d2components.Sprite_ sprite = Some img →
  key = fontCacheKey tableFile (d2components.SpritePath sprite)
          (d2components.PalettePath sprite) →
  d2cache.Retrieve key (bitmapFontCache t) = None →
  let bmf := length (fonts t) in
  let t1 := set fonts (λ fs, (fs ++ [d2bitmapfont.New img data White])%list) t in
  let r := d2cache.Insert key bmf 1 (bitmapFontCache t) in
  let t2 := set bitmapFontCache (λ _, fst r) t1 in
  let t3 := match snd r with
            | Some e => Warning (d2cache.Error e) t2
            | None => t2
            end in
  addBitmapFontForLabel l t
  = set World (set akara.BitmapFont (akara.AddWith None (λ _, Some bmf) l)) t3.
Proof.
  intros Hq Hft Hf Hs Hi -> Hr. simpl.
  unfold addBitmapFontForLabel, createBitmapFont.
  rewrite Hq, Hft, Hs, Hf. simpl. rewrite Hr, Hi. simpl.
  destruct (d2cache.Insert _ _ _ _) as [c err]. done.
Qed.

(** Every other case leaves the factory as it is.  In particular a font is
    attached, and a label marked, only with the prerequisites loaded. *)
Lemma addBitmapFontForLabel_cases l t :
  addBitmapFontForLabel l t = t ∨
  (prerequisitesLoaded l t ∧
   ∃ key, cacheKeyOf l t = Some key ∧
     ((∃ iface, d2cache.Retrieve key (bitmapFontCache t) = Some iface) ∨
      (d2cache.Retrieve key (bitmapFontCache t) = None ∧
       ∃ entry sprite data img,
         labelLoadQueue t !! l = Some entry ∧
         akara.FontTable (World t) !! labelLoadQueueEntry.table entry = Some (Some data) ∧
         akara.Sprite (World t) !! labelLoadQueueEntry.sprite entry = Some sprite ∧
         d2components.Sprite_ sprite = Some img))).
Proof.
  unfold addBitmapFontForLabel.
  destruct (labelLoadQueue t !! l) as [entry|] eqn:Hq; [| by left].
  destruct (akara.FontTable (World t) !! _) as [table|] eqn:Hft; [| by left].
  destruct (akara.Sprite (World t) !! _) as [sprite|] eqn:Hs; [| by left].
  simpl.
  destruct (akara.File (World t) !! _) as [tableFile|] eqn:Hf; [| by left].
  assert (Hk : cacheKeyOf l t = Some (fontCacheKey tableFile
            (d2components.SpritePath sprite) (d2components.PalettePath sprite))).
  { unfold cacheKeyOf. rewrite Hq. simpl. rewrite Hf. simpl. by rewrite Hs. }
  assert (Hp : prerequisitesLoaded l t) by (by exists entry, table, tableFile, sprite).
  destruct (d2cache.Retrieve _ _) as [iface|] eqn:Hr.
  { right. split; [done |]. eexists. split; [done |]. left. by exists iface. }
  unfold createBitmapFont. rewrite Hft, Hs.
  destruct (d2components.Sprite_ sprite) as [img|] eqn:Hi; [| by left].
  destruct table as [data|]; [| by left].
  right. split; [done |]. eexists. split; [done |]. right. split; [done |].
  by exists entry, sprite, data, img.
Qed.

Lemma cacheKeyOf_tripleOf l t a b c :
  tripleOf l t = Some (a, b, c) → cacheKeyOf l t = Some (fontCacheKey a b c).
Proof.
  unfold tripleOf, cacheKeyOf. intros H.
  destruct (labelLoadQueue t !! l) as [entry|]; simpl in *; [| discriminate].
  destruct (akara.File (World t) !! _); simpl in *; [| discriminate].
  destruct (akara.Sprite (World t) !! _); simpl in *; [| discriminate].
  by simplify_eq.
Qed.

(** The finalization of a label that already carries its font. *)
Lemma processLabel_finalize l t bmf font r :
  akara.BitmapFont (World t) !! l = Some (Some bmf) →
  fonts t !! bmf = Some font →
  t_renderer t = Ok r →
  processLabel l t
  = Ok (set labelLoadQueue (delete l)
          (addReady l
             (RemoveEntity
                (labelLoadQueueEntry.table
                   (default labelLoadQueueEntry.zero (labelLoadQueue t !! l)))
                (set World (set akara.Label
                   (akara.AddWith d2components.newLabel (SetFont (Some bmf)) l))
                   (BindRenderer (d2bitmapfont.Sprite font) r t))))).
Proof.
  intros Hb Hf Hr. unfold processLabel. rewrite Hb. simpl. rewrite Hf, Hr. done.
Qed.

Lemma processLabel_materialize l t :
  akara.BitmapFont (World t) !! l = None →
  processLabel l t = Ok (addBitmapFontForLabel l t).
Proof. intros Hb. unfold processLabel. by rewrite Hb. Qed.

(** One drain step of a label: it marks the label Ready only if the label
    already carried a BitmapFont component or its prerequisites are loaded,
    and it attaches a BitmapFont component only if they are loaded. *)
Lemma processLabel_gate (l : EID) (t t' : UIWidgetFactory) :
  processLabel l t = Ok t' →
  (l ∈ akara.Ready (World t') →
     l ∈ akara.Ready (World t) ∨ is_Some (akara.BitmapFont (World t) !! l)
     ∨ prerequisitesLoaded l t) ∧
  (is_Some (akara.BitmapFont (World t') !! l) →
     is_Some (akara.BitmapFont (World t) !! l) ∨ prerequisitesLoaded l t).
Proof.
  intros Hop.
  destruct (akara.BitmapFont (World t) !! l) as [bmf|] eqn:Hb.
  { split; intros _; [right; left | left]; by eexists. }
  rewrite processLabel_materialize in Hop by done. simplify_eq.
  destruct (addBitmapFontForLabel_cases l t) as [-> | [Hp _]].
  - split; [by left | by rewrite Hb; intros [? ?]].
  - split; intros _; right; [right |]; done.
Qed.

(** C1 (as stated) fails: in the demo run the label with queue entry
    (table 2, sprite 3) is marked Ready by a drain step although neither
    entity 2 nor entity 3 carries, or ever carried, the Ready marker. *)
Lemma label_ready_before_prerequisites :
  ¬ (∀ (t t' : UIWidgetFactory) (l : EID) (entry : labelLoadQueueEntry.t),
       labelLoadQueue t !! l = Some entry →
       l ∉ akara.Ready (World t) →
       processLabel l t = Ok t' →
       l ∈ akara.Ready (World t') →
       labelLoadQueueEntry.table entry ∈ akara.Ready (World t) ∧
       labelLoadQueueEntry.sprite entry ∈ akara.Ready (World t)).
Proof.
  intros H.
  destruct (H Demo.oneLabelFont Demo.oneLabelReady 1%N (labelLoadQueueEntry.mk 2 3))
    as [H2 _]; [compute_done .. |].
  revert H2. compute_done.
Qed.

(** C5.  On the cache-hit path a label is finalized — it is marked Ready
    and leaves the queue — while the glyph-table entity of its entry keeps
    its File and FontTable components (the entity is not removed) and no
    sprite is bound to a renderer. *)
Theorem cache_hit_finalization (l : EID) (t : UIWidgetFactory) (key : string)
    (iface : FontRef) :
  akara.BitmapFont (World t) !! l = None →
  prerequisitesLoaded l t →
  cacheKeyOf l t = Some key →
  d2cache.Retrieve key (bitmapFontCache t) = Some iface →
  ∃ t' entry,
    processLabel l t = Ok t' ∧
    labelLoadQueue t !! l = Some entry ∧
    l ∈ akara.Ready (World t') ∧
    labelLoadQueue t' !! l = None ∧
    akara.BitmapFont (World t') !! l = Some (Some iface) ∧
    is_Some (akara.File (World t') !! labelLoadQueueEntry.table entry) ∧
    is_Some (akara.FontTable (World t') !! labelLoadQueueEntry.table entry) ∧
    boundRenderer t' = boundRenderer t.
Proof.
  intros Hb Hp Hk Hr.
  rewrite processLabel_materialize by done.
  rewrite (addBitmapFontForLabel_hit l t key iface) by done.
  destruct Hp as (entry & table & tableFile & sprite & Hq & Hft & Hf & Hs).
  eexists _, entry. split; [done |]. split; [done |]. simpl.
  split; [set_solver |]. split; [apply lookup_delete_eq |].
  split; [apply lookup_insert_eq |]. rewrite Hf, Hft. by repeat split.
Qed.

Lemma cache_hit_finalization_witness :
  ∃ t' entry,
    processLabel 4 Demo.firstLabelFont = Ok t' ∧
    labelLoadQueue Demo.firstLabelFont !! 4%N = Some entry ∧
    4%N ∈ akara.Ready (World t') ∧
    labelLoadQueue t' !! 4%N = None ∧
    akara.BitmapFont (World t') !! 4%N = Some (Some 0) ∧
    is_Some (akara.File (World t') !! labelLoadQueueEntry.table entry) ∧
    is_Some (akara.FontTable (World t') !! labelLoadQueueEntry.table entry) ∧
    boundRenderer t' = boundRenderer Demo.firstLabelFont.
Proof.
  apply (cache_hit_finalization 4 Demo.firstLabelFont "F.tbl::F.dc6::P" 0).
  - vm_compute. reflexivity.
  - exists (labelLoadQueueEntry.mk 5 6), (Some []), "F.tbl",
      (d2components.mkSprite (Some 100%N) "F.dc6" "P").
    vm_compute. repeat split; reflexivity.
  - vm_compute. reflexivity.
  - vm_compute. reflexivity.
Defined.

(** An accepted insert is found again under its key. *)
Lemma Insert_accepted_Retrieve key v cost c :
  snd (d2cache.Insert key v cost c) = None →
  d2cache.Retrieve key (fst (d2cache.Insert key v cost c)) = Some v.
Proof.
  unfold d2cache.Insert, d2cache.Retrieve.
  destruct (_ <? _)%N; simpl; [discriminate |]. intros _. apply lookup_insert_eq.
Qed.

(** A rejected insert leaves the cache as it was. *)
Lemma Insert_rejected key v cost c e :
  snd (d2cache.Insert key v cost c) = Some e → fst (d2cache.Insert key v cost c) = c.
Proof. unfold d2cache.Insert. destruct (_ <? _)%N; simpl; [done | discriminate]. Qed.

(** C8.  When the cache rejects the insert of a font that has just been
    built, the drain step of the label still succeeds, the new font object
    is attached to the label's BitmapFont component, and the only trace of
    the error is one goroutine started by Logger.Warning with the error's
    text — a call that lets the caller continue. *)
Theorem rejected_insert_still_attaches (ext : Externals) (l : EID) (t : UIWidgetFactory)
    (entry : labelLoadQueueEntry.t) (tableFile : string) (sprite : d2components.Sprite)
    (data : list Byte.byte) (img : SpriteRef) (err : d2cache.error) :
  akara.BitmapFont (World t) !! l = None →
  labelLoadQueue t !! l = Some entry →
  akara.FontTable (World t) !! labelLoadQueueEntry.table entry = Some (Some data) →
  akara.File (World t) !! labelLoadQueueEntry.table entry = Some tableFile →
  akara.Sprite (World t) !! labelLoadQueueEntry.sprite entry = Some sprite →
  d2components.Sprite_ sprite = Some img →
  let key := fontCacheKey tableFile (d2components.SpritePath sprite)
               (d2components.PalettePath sprite) in
  let bmf := length (fonts t) in
  d2cache.Retrieve key (bitmapFontCache t) = None →
  snd (d2cache.Insert key bmf 1 (bitmapFontCache t)) = Some err →
  ∃ t',
    runWork ext (ProcessLabel l) t = Ok t' ∧
    akara.BitmapFont (World t') !! l = Some (Some bmf) ∧
    fonts t' !! bmf = Some (d2bitmapfont.New img data White) ∧
    goroutines t' = (goroutines t ++ [(Logger.LogLevelWarning, d2cache.Error err)])%list ∧
    Logger.Warning (d2cache.Error err)
    = ((Logger.LogLevelWarning, d2cache.Error err), Logger.Continue).
Proof.
  intros Hb Hq Hft Hf Hs Hi key bmf Hr He. simpl.
  rewrite processLabel_materialize by done.
  rewrite (addBitmapFontForLabel_miss l t entry tableFile sprite data img key) by done.
  fold bmf. rewrite He. eexists. split; [done |]. simpl.
  split; [apply lookup_insert_eq |].
  split; [| done].
  rewrite lookup_app_r by done. by rewrite Nat.sub_diag.
Qed.

Lemma rejected_insert_still_attaches_witness :
  ∃ t',
    runWork Demo.ext (ProcessLabel 1) Demo.crowded = Ok t' ∧
    akara.BitmapFont (World t') !! 1%N = Some (Some 64) ∧
    fonts t' !! 64 = Some (d2bitmapfont.New 100 [] White) ∧
    goroutines t'
    = (goroutines Demo.crowded
         ++ [(Logger.LogLevelWarning, d2cache.Error d2cache.CapacityError)])%list ∧
    Logger.Warning (d2cache.Error d2cache.CapacityError)
    = ((Logger.LogLevelWarning, d2cache.Error d2cache.CapacityError), Logger.Continue).
Proof.
  apply (rejected_insert_still_attaches Demo.ext 1 Demo.crowded
           (labelLoadQueueEntry.mk 2 3) "F.tbl"
           (d2components.mkSprite (Some 100%N) "F.dc6" "P") [] 100
           d2cache.CapacityError); vm_compute; reflexivity.
Defined.

Lemma string_app_assoc (a b c : string) : (a ++ b) ++ c = a ++ b ++ c.
Proof.
  induction a as [|x a IH]; [done |].
  change (String x ((a ++ b) ++ c) = String x (a ++ b ++ c)). by rewrite IH.
Qed.

(** The state in which the loader has decoded the glyph table and the sprite
    of the label that [Label text F P] creates in [t]. *)
Lemma Label_loaded text F P data img t :
  let n := akara.nextEntityID (World t) in
  let t2 := Loader.loadSprite (N.succ (N.succ n)) img
              (Loader.loadFontTable (N.succ n) data (snd (Label text F P t))) in
  labelLoadQueue t2 !! n = Some (labelLoadQueueEntry.mk (N.succ n) (N.succ (N.succ n))) ∧
  akara.FontTable (World t2) !! N.succ n = Some (Some data) ∧
  akara.File (World t2) !! N.succ n = Some (F ++ ".tbl") ∧
  akara.Sprite (World t2) !! N.succ (N.succ n)
  = Some (d2components.mkSprite (Some img) (F ++ ".dc6") P) ∧
  akara.BitmapFont (World t2) = akara.BitmapFont (World t) ∧
  bitmapFontCache t2 = bitmapFontCache t ∧
  fonts t2 = fonts t.
Proof.
  intros n t2. subst t2. unfold Loader.loadSprite, Loader.loadFontTable, Label.
  cbn [snd fst]. simpl. rewrite lookup_insert_eq. simpl.
  rewrite !lookup_insert_eq. unfold akara.AddWith. rewrite lookup_insert_eq. done.
Qed.

Lemma cacheKeyOf_intro l t entry tableFile sprite :
  labelLoadQueue t !! l = Some entry →
  akara.File (World t) !! labelLoadQueueEntry.table entry = Some tableFile →
  akara.Sprite (World t) !! labelLoadQueueEntry.sprite entry = Some sprite →
  cacheKeyOf l t
  = Some (fontCacheKey tableFile (d2components.SpritePath sprite)
            (d2components.PalettePath sprite)).
Proof.
  intros Hq Hf Hs. unfold cacheKeyOf. rewrite Hq. simpl. rewrite Hf. simpl.
  by rewrite Hs.
Qed.

(** A drain step that misses the cache, builds the font and has its insert
    accepted: the font is stored under the key and attached to the label. *)
Lemma materialize_stores l t entry tableFile sprite data img key :
  akara.BitmapFont (World t) !! l = None →
  labelLoadQueue t !! l = Some entry →
  akara.FontTable (World t) !! labelLoadQueueEntry.table entry = Some (Some data) →
  akara.File (World t) !! labelLoadQueueEntry.table entry = Some tableFile →
  akara.Sprite (World t) !! labelLoadQueueEntry.sprite entry = Some sprite →
  d2components.Sprite_ sprite = Some img →
  key = fontCacheKey tableFile (d2components.SpritePath sprite)
          (d2components.PalettePath sprite) →
  d2cache.Retrieve key (bitmapFontCache t) = None →
  snd (d2cache.Insert key (length (fonts t)) 1 (bitmapFontCache t)) = None →
  ∃ t3,
    processLabel l t = Ok t3 ∧
    d2cache.Retrieve key (bitmapFontCache t3) = Some (length (fonts t)) ∧
    akara.BitmapFont (World t3) !! l = Some (Some (length (fonts t))) ∧
    fonts t3 !! length (fonts t) = Some (d2bitmapfont.New img data White) ∧
    length (fonts t3) = S (length (fonts t)) ∧
    labelLoadQueue t3 = labelLoadQueue t ∧
    akara.Ready (World t3) = akara.Ready (World t) ∧
    akara.File (World t3) = akara.File (World t) ∧
    akara.FontTable (World t3) = akara.FontTable (World t) ∧
    akara.Sprite (World t3) = akara.Sprite (World t) ∧
    (∀ l', l' ≠ l → akara.BitmapFont (World t3) !! l' = akara.BitmapFont (World t) !! l').
Proof.
  intros Hb Hq Hft Hf Hs Hi Hk Hr Ha.
  rewrite processLabel_materialize by done.
  rewrite (addBitmapFontForLabel_miss l t entry tableFile sprite data img key) by done.
  rewrite Ha. eexists. split; [done |]. simpl.
  split; [by apply Insert_accepted_Retrieve |].
  split; [apply lookup_insert_eq |].
  split; [rewrite lookup_app_r by done; by rewrite Nat.sub_diag |].
  split; [rewrite length_app; simpl; lia |].
  repeat (split; [done |]).
  intros l' Hne. unfold akara.AddWith. by rewrite lookup_insert_ne.
Qed.

(** C7.  For a label created with font path F and palette path P, once the
    loader has decoded its glyph table and sprite, the cache key is made of
    the glyph-table path F.tbl, the sprite path F.dc6 and P, in this order
    and joined by "::": the string F.tbl::F.dc6::P.  The drain step of the
    label looks the cache up under this key.  On a miss it builds the font,
    hands it to the cache under this very key and attaches the same object to
    the label, and when the cache accepts the insert the font is what the
    cache returns for the key; on a hit it attaches what the cache holds
    under the key. *)
Theorem label_cache_key (t : UIWidgetFactory) (text F P : string)
    (data : list Byte.byte) (img : SpriteRef) :
  let n := akara.nextEntityID (World t) in
  let l := fst (Label text F P t) in
  let t2 := Loader.loadSprite (N.succ (N.succ n)) img
              (Loader.loadFontTable (N.succ n) data (snd (Label text F P t))) in
  let key := F ++ ".tbl::" ++ F ++ ".dc6::" ++ P in
  let bmf := length (fonts t) in
  wf t →
  fontCacheKey (F ++ ".tbl") (F ++ ".dc6") P = key ∧
  cacheKeyOf l t2 = Some key ∧
  (d2cache.Retrieve key (bitmapFontCache t) = None →
     ∃ t3,
       processLabel l t2 = Ok t3 ∧
       bitmapFontCache t3 = fst (d2cache.Insert key bmf 1 (bitmapFontCache t)) ∧
       akara.BitmapFont (World t3) !! l = Some (Some bmf) ∧
       fonts t3 !! bmf = Some (d2bitmapfont.New img data White) ∧
       (snd (d2cache.Insert key bmf 1 (bitmapFontCache t)) = None →
          d2cache.Retrieve key (bitmapFontCache t3) = Some bmf)) ∧
  (∀ iface, d2cache.Retrieve key (bitmapFontCache t) = Some iface →
     ∃ t3,
       processLabel l t2 = Ok t3 ∧
       bitmapFontCache t3 = bitmapFontCache t ∧
       fonts t3 = fonts t ∧
       akara.BitmapFont (World t3) !! l = Some (Some iface)).
Proof.
  intros n l t2 key bmf Hwf.
  destruct (Label_loaded text F P data img t) as (Hq & Hft & Hf & Hs & Hb & Hc & Hfo).
  assert (Hkey : fontCacheKey (F ++ ".tbl") (F ++ ".dc6") P = key).
  { unfold fontCacheKey, key. by rewrite !string_app_assoc. }
  subst l t2 n. rewrite Label_fst.
  set (n := akara.nextEntityID (World t)) in *.
  set (t2 := Loader.loadSprite _ _ _) in *.
  assert (Hnone : akara.BitmapFont (World t2) !! n = None).
  { rewrite Hb. apply not_elem_of_dom.
    destruct (wf_fresh t n Hwf) as [Hw _]; [lia |].
    unfold widgets, labels in Hw. set_solver. }
  assert (Hk2 : cacheKeyOf n t2 = Some key).
  { rewrite (cacheKeyOf_intro _ _ _ _ _ Hq Hf Hs). f_equal. exact Hkey. }
  clearbody t2. split; [done |]. split; [done |]. split.
  - intros Hmiss. rewrite processLabel_materialize by done.
    rewrite (addBitmapFontForLabel_miss n t2 _ _ _ data img key Hq Hft Hf Hs eq_refl);
      [| by symmetry | by rewrite Hc].
    rewrite Hc, Hfo. fold bmf.
    destruct (d2cache.Insert key bmf 1 (bitmapFontCache t)) as [c [err|]] eqn:Hins;
      simpl; (eexists; split; [reflexivity |]; simpl; split; [reflexivity |];
              split; [apply lookup_insert_eq |];
              split; [rewrite Hfo, lookup_app_r by done; by rewrite Nat.sub_diag |]).
    + discriminate.
    + intros _. pose proof (Insert_accepted_Retrieve key bmf 1 (bitmapFontCache t)) as Hr.
      rewrite Hins in Hr. by apply Hr.
  - intros iface Hhit. rewrite processLabel_materialize by done.
    rewrite (addBitmapFontForLabel_hit n t2 key iface); [| | done | by rewrite Hc].
    + eexists. split; [reflexivity |]. simpl. split; [done |]. split; [done |].
      apply lookup_insert_eq.
    + by exists (labelLoadQueueEntry.mk (N.succ n) (N.succ (N.succ n))),
        (Some data), (F ++ ".tbl"), (d2components.mkSprite (Some img) (F ++ ".dc6") P).
Qed.

End BitmapFont.

(** ** The demo run is a run of the factory *)

Lemma booted_reach : reach Demo.ext Demo.booted.
Proof.
  eapply reach_Update with (now := 0%N) (now' := 0%N).
  - eapply reach_collaborators; [apply reach_new | apply (bindRenderSystem_co 7)].
  - vm_compute. reflexivity.
Qed.

Section SharedFont.

Lemma label_cache_key_witness :
  fontCacheKey ("F" ++ ".tbl") ("F" ++ ".dc6") "P" = "F.tbl::F.dc6::P" ∧
  cacheKeyOf 1 Demo.oneLabelLoaded = Some "F.tbl::F.dc6::P" ∧
  (d2cache.Retrieve "F.tbl::F.dc6::P" (bitmapFontCache Demo.booted) = None →
     ∃ t3,
       processLabel 1 Demo.oneLabelLoaded = Ok t3 ∧
       bitmapFontCache t3
       = fst (d2cache.Insert "F.tbl::F.dc6::P" 0 1 (bitmapFontCache Demo.booted)) ∧
       akara.BitmapFont (World t3) !! 1%N = Some (Some 0) ∧
       fonts t3 !! 0 = Some (d2bitmapfont.New 100 [] White) ∧
       (snd (d2cache.Insert "F.tbl::F.dc6::P" 0 1 (bitmapFontCache Demo.booted)) = None →
          d2cache.Retrieve "F.tbl::F.dc6::P" (bitmapFontCache t3) = Some 0)) ∧
  (∀ iface, d2cache.Retrieve "F.tbl::F.dc6::P" (bitmapFontCache Demo.booted) = Some iface →
     ∃ t3,
       processLabel 1 Demo.oneLabelLoaded = Ok t3 ∧
       bitmapFontCache t3 = bitmapFontCache Demo.booted ∧
       fonts t3 = fonts Demo.booted ∧
       akara.BitmapFont (World t3) !! 1%N = Some (Some iface)).
Proof.
  apply (label_cache_key Demo.booted "Test" "F" "P" [] 100).
  exact (reach_wf Demo.ext Demo.booted booted_reach).
Defined.

(** C3 (as stated) fails: with the budget of the cache used up, two labels
    of one (table, sprite, palette) triple each build a font object of their
    own, and end up with different objects. *)
Lemma same_triple_different_fonts :
  ¬ (∀ (t t1 t2 : UIWidgetFactory) (l1 l2 : EID) (f1 f2 : FontRef),
       l1 ≠ l2 →
       is_Some (tripleOf l1 t) →
       tripleOf l1 t = tripleOf l2 t →
       processLabel l1 t = Ok t1 →
       processLabel l2 t1 = Ok t2 →
       akara.BitmapFont (World t2) !! l1 = Some (Some f1) →
       akara.BitmapFont (World t2) !! l2 = Some (Some f2) →
       f1 = f2 ∧ (List.length (fonts t2) ≤ S (List.length (fonts t)))%nat).
Proof.
  intros H.
  destruct (H Demo.crowded
              (addBitmapFontForLabel 1 Demo.crowded)
              (addBitmapFontForLabel 4 (addBitmapFontForLabel 1 Demo.crowded))
              1%N 4%N 64 65) as [Hf _];
    [ done | vm_compute; eexists; reflexivity | vm_compute; reflexivity
    | apply processLabel_materialize; vm_compute; reflexivity
    | apply processLabel_materialize; vm_compute; reflexivity
    | vm_compute; reflexivity | vm_compute; reflexivity | ].
  discriminate.
Qed.

(** The components and the queue entry that a label's key is read from. *)
Lemma tripleOf_frame l t t' :
  labelLoadQueue t' = labelLoadQueue t →
  akara.File (World t') = akara.File (World t) →
  akara.Sprite (World t') = akara.Sprite (World t) →
  tripleOf l t' = tripleOf l t.
Proof. intros Hq Hf Hs. unfold tripleOf. by rewrite Hq, Hf, Hs. Qed.

Lemma prerequisitesLoaded_frame l t t' :
  labelLoadQueue t' = labelLoadQueue t →
  akara.FontTable (World t') = akara.FontTable (World t) →
  akara.File (World t') = akara.File (World t) →
  akara.Sprite (World t') = akara.Sprite (World t) →
  prerequisitesLoaded l t → prerequisitesLoaded l t'.
Proof. intros Hq Hft Hf Hs. unfold prerequisitesLoaded. by rewrite Hq, Hft, Hf, Hs. Qed.

Lemma tripleOf_intro l t entry tableFile sprite :
  labelLoadQueue t !! l = Some entry →
  akara.File (World t) !! labelLoadQueueEntry.table entry = Some tableFile →
  akara.Sprite (World t) !! labelLoadQueueEntry.sprite entry = Some sprite →
  tripleOf l t
  = Some (tableFile, d2components.SpritePath sprite, d2components.PalettePath sprite).
Proof.
  intros Hq Hf Hs. unfold tripleOf. rewrite Hq. simpl. rewrite Hf. simpl.
  by rewrite Hs.
Qed.

(** C3 (as amended).  Two labels of one (table, sprite, palette) triple:
    when the first misses the cache, builds the font and the cache accepts
    the insert, the drain step of the second attaches the very same object,
    and the two steps together build exactly one font. *)
Theorem shared_font_when_cached (l1 l2 : EID) (t : UIWidgetFactory)
    (entry1 : labelLoadQueueEntry.t) (tableFile : string) (sprite1 : d2components.Sprite)
    (data : list Byte.byte) (img : SpriteRef) :
  l1 ≠ l2 →
  akara.BitmapFont (World t) !! l1 = None →
  akara.BitmapFont (World t) !! l2 = None →
  labelLoadQueue t !! l1 = Some entry1 →
  akara.FontTable (World t) !! labelLoadQueueEntry.table entry1 = Some (Some data) →
  akara.File (World t) !! labelLoadQueueEntry.table entry1 = Some tableFile →
  akara.Sprite (World t) !! labelLoadQueueEntry.sprite entry1 = Some sprite1 →
  d2components.Sprite_ sprite1 = Some img →
  prerequisitesLoaded l2 t →
  tripleOf l2 t = tripleOf l1 t →
  let key := fontCacheKey tableFile (d2components.SpritePath sprite1)
               (d2components.PalettePath sprite1) in
  let bmf := length (fonts t) in
  d2cache.Retrieve key (bitmapFontCache t) = None →
  snd (d2cache.Insert key bmf 1 (bitmapFontCache t)) = None →
  ∃ t1 t2,
    processLabel l1 t = Ok t1 ∧
    processLabel l2 t1 = Ok t2 ∧
    akara.BitmapFont (World t2) !! l1 = Some (Some bmf) ∧
    akara.BitmapFont (World t2) !! l2 = Some (Some bmf) ∧
    length (fonts t2) = S (length (fonts t)).
Proof.
  intros Hne Hb1 Hb2 Hq Hft Hf Hs Hi Hp2 Htr key bmf Hr Ha.
  destruct (materialize_stores l1 t entry1 tableFile sprite1 data img key)
    as (t1 & Hop1 & Hc1 & Hbmf1 & _ & Hlen & Eq & _ & Ef & Eft & Es & Eb); try done.
  exists t1.
  assert (Hb2' : akara.BitmapFont (World t1) !! l2 = None) by (by rewrite Eb).
  assert (Hp2' : prerequisitesLoaded l2 t1) by (by eapply prerequisitesLoaded_frame).
  assert (Hk2 : cacheKeyOf l2 t1 = Some key).
  { apply cacheKeyOf_tripleOf. rewrite (tripleOf_frame l2 t t1) by done.
    rewrite Htr. by apply (tripleOf_intro l1 t entry1). }
  eexists. split; [done |].
  rewrite processLabel_materialize by done.
  rewrite (addBitmapFontForLabel_hit l2 t1 key bmf) by done.
  split; [done |]. simpl. unfold akara.AddWith.
  split; [by rewrite lookup_insert_ne |]. split; [apply lookup_insert_eq | done].
Qed.

Lemma shared_font_when_cached_witness :
  ∃ t1 t2,
    processLabel 1 Demo.twoLabelsLoaded = Ok t1 ∧
    processLabel 4 t1 = Ok t2 ∧
    akara.BitmapFont (World t2) !! 1%N = Some (Some 0) ∧
    akara.BitmapFont (World t2) !! 4%N = Some (Some 0) ∧
    length (fonts t2) = 1.
Proof.
  apply (shared_font_when_cached 1 4 Demo.twoLabelsLoaded
           (labelLoadQueueEntry.mk 2 3) "F.tbl"
           (d2components.mkSprite (Some 100%N) "F.dc6" "P") [] 100);
    try (vm_compute; reflexivity); try done.
  exists (labelLoadQueueEntry.mk 5 6), (Some []), "F.tbl",
    (d2components.mkSprite (Some 100%N) "F.dc6" "P").
  vm_compute. repeat split; reflexivity.
Defined.

End SharedFont.

(** ** The boot gate *)

Section Boot.

Variable ext : Externals.

Lemma boot_cases t :
  (boot t = t ∧ ¬ ∃ rs r, RenderSystem t = Some rs ∧ renderer rs = Some r) ∨
  (boot t = set state (λ _, SceneStateBooted) t ∧
   ∃ rs r, RenderSystem t = Some rs ∧ renderer rs = Some r).
Proof.
  unfold boot. destruct (RenderSystem t) as [rs|] eqn:Hrs.
  - destruct (renderer rs) as [r|] eqn:Hr.
    + right. split; [done |]. by exists rs, r.
    + left. split; [done |]. intros (rs' & r' & ? & ?). congruence.
  - left. split; [done |]. intros (rs' & r' & ? & ?). congruence.
Qed.

Lemma processButtonStates_state b t t' :
  processButtonStates ext b t = Ok t' → state t' = state t.
Proof.
  intros Hop. unfold processButtonStates, renderButtonStates in Hop.
  destruct (akara.Button (World t) !! b) as [button|]; [| discriminate].
  destruct (0 <? _)%N.
  - destruct (negb _); by simplify_eq.
  - simpl in Hop.
    destruct (d2button.HasImage _ && d2button.AllowFrameChange _);
      [destruct (negb _) |]; simpl in Hop; by simplify_eq.
Qed.

Lemma processButton_state b t t' : processButton ext b t = Ok t' → state t' = state t.
Proof.
  intros Hop. unfold processButton in Hop.
  destruct (buttonLoadQueue t !! b) as [entry|]; [| by simplify_eq].
  destruct (negb _); [by simplify_eq |].
  simpl in Hop.
  destruct (akara.Sprite (World t) !! _); simpl in Hop;
    destruct (found _); simpl in Hop;
    by apply processButtonStates_state in Hop.
Qed.

Lemma processCheckbox_state c t : state (processCheckbox ext c t) = state t.
Proof.
  unfold processCheckbox.
  destruct (checkboxLoadQueue t !! c) as [entry|]; [| done].
  destruct (isReady _ t); simpl; [| done].
  by destruct (akara.Sprite (World t) !! _).
Qed.

Lemma addBitmapFontForLabel_state l t : state (addBitmapFontForLabel l t) = state t.
Proof.
  unfold addBitmapFontForLabel, createBitmapFont.
  destruct (labelLoadQueue t !! l) as [entry|]; [| done].
  destruct (negb _); [done |].
  destruct (akara.File (World t) !! _); [| done].
  destruct (akara.Sprite (World t) !! _) as [sprite|]; [| done].
  destruct (d2cache.Retrieve _ _); [done |].
  destruct (akara.FontTable (World t) !! _) as [[data|]|];
    destruct (d2components.Sprite_ sprite); try done.
  simpl. by destruct (d2cache.Insert _ _ _ _) as [c [err|]].
Qed.

Lemma processLabel_state l t t' : processLabel l t = Ok t' → state t' = state t.
Proof.
  intros Hop. unfold processLabel in Hop.
  destruct (akara.BitmapFont (World t) !! l) as [bmf|].
  - destruct (bmf ≫= _); [| discriminate].
    apply bind_Ok in Hop as (r & _ & Hop). by simplify_eq.
  - simplify_eq. apply addBitmapFontForLabel_state.
Qed.

Lemma updateButton_state b t : state (updateButton b t) = state t.
Proof.
  unfold updateButton.
  destruct (akara.Button (World t) !! b) as [button|]; [| done].
  repeat (match goal with
          | |- context [match ?x !! ?k with _ => _ end] => destruct (x !! k)
          end; try done).
Qed.

Lemma updateCheckbox_state c t t' : updateCheckbox c t = Ok t' → state t' = state t.
Proof.
  intros Hop. unfold updateCheckbox in Hop.
  destruct (akara.Checkbox (World t) !! c); [| by simplify_eq].
  destruct (d2components.CheckboxSprite _); [| discriminate].
  destruct (akara.Texture (World t) !! c); by simplify_eq.
Qed.

Lemma updateLabel_state l t t' : updateLabel l t = Ok t' → state t' = state t.
Proof.
  intros Hop. unfold updateLabel in Hop.
  destruct (akara.Label (World t) !! l); [| by simplify_eq].
  destruct (akara.BitmapFont (World t) !! l); [| by simplify_eq].
  destruct (negb _); [by simplify_eq |].
  simpl in Hop. destruct (RenderSystem t) as [rs|]; [| discriminate].
  destruct (renderer rs); [| discriminate]. by simplify_eq.
Qed.

Lemma runWork_state u t t' : runWork ext u t = Ok t' → state t' = state t.
Proof.
  intros Hop. destruct u; simpl in Hop.
  - by eapply processButton_state.
  - simplify_eq. apply processCheckbox_state.
  - by eapply processLabel_state.
  - simplify_eq. apply updateButton_state.
  - by eapply updateCheckbox_state.
  - by eapply updateLabel_state.
Qed.

Lemma rangeLoop_state start unit es now t t' now' returned :
  rangeLoop ext start unit es now t = Ok (t', now', returned) → state t' = state t.
Proof.
  revert now t. induction es as [|e es IH]; intros now t Hop; simpl in Hop.
  - by simplify_eq.
  - destruct (_ <? _)%N; [by simplify_eq |].
    apply bind_Ok in Hop as (t1 & Hu & Hop).
    apply IH in Hop. apply runWork_state in Hu. congruence.
Qed.

Lemma runLoops_state start ls now t t' now' :
  runLoops ext start ls now t = Ok (t', now') → state t' = state t.
Proof.
  revert now t. induction ls as [|[unit source] ls IH]; intros now t Hop;
    simpl in Hop.
  - by simplify_eq.
  - apply bind_Ok in Hop as ([[t1 now1] returned] & Hl & Hop).
    apply rangeLoop_state in Hl.
    destruct returned; [by simplify_eq |]. apply IH in Hop. congruence.
Qed.

Lemma Label_state text font palettePath t :
  state (snd (Label text font palettePath t)) = state t.
Proof. reflexivity. Qed.

Lemma Button_state x y btnType text t :
  state (snd (Button ext x y btnType text t)) = state t.
Proof. unfold Button. simpl. by destruct (negb _ && negb _). Qed.

Lemma Checkbox_state x y checkedState enabled callback t :
  state (snd (Checkbox ext x y checkedState enabled callback t)) = state t.
Proof. reflexivity. Qed.

(** Only the boot check changes the state. *)
Lemma step_state t t' : step ext t t' → state t' = state t ∨ t' = boot t.
Proof.
  intros [t0 text font palettePath | t0 x y btnType text
         | t0 x y checkedState enabled callback | t0 | t0 u t1 Hop | t0 t1 Hco].
  - left. apply Label_state.
  - left. apply Button_state.
  - left. apply Checkbox_state.
  - by right.
  - left. by eapply runWork_state.
  - left. by destruct Hco.
Qed.

(** C9.  A new factory is Uninitialized.  boot makes the state Booted
    exactly when the render system exists and has a renderer, and changes
    nothing else.  While the state is not Booted, Update is boot and nothing
    more: no queue is touched and the clock is not consulted again.  No unit
    of work and no widget creation changes the state, whatever it is.  Hence
    over every step of a run (a creation, the boot check, a unit of work, a
    step of the collaborators): a step that takes the state from not Booted
    to Booted is the boot check, made with a render system that has a
    renderer; and a step from a Booted state ends in a Booted state, as does
    an Update. *)
Theorem boot_gate :
  (∀ w, state (NewUIWidgetFactory w) = SceneStateUninitialized) ∧
  (∀ t, state t ≠ SceneStateBooted →
     (state (boot t) = SceneStateBooted
      ↔ ∃ rs r, RenderSystem t = Some rs ∧ renderer rs = Some r)) ∧
  (∀ t, boot t = t ∨ boot t = set state (λ _, SceneStateBooted) t) ∧
  (∀ t now, state t ≠ SceneStateBooted → Update ext now t = Ok (boot t, now)) ∧
  (∀ t now t' now', state t = SceneStateBooted →
     Update ext now t = Ok (t', now') → state t' = SceneStateBooted) ∧
  (∀ t u t', runWork ext u t = Ok t' → state t' = state t) ∧
  (∀ t text font palettePath,
     state (snd (Label text font palettePath t)) = state t) ∧
  (∀ t x y btnType text,
     state (snd (Button ext x y btnType text t)) = state t) ∧
  (∀ t x y checkedState enabled callback,
     state (snd (Checkbox ext x y checkedState enabled callback t)) = state t) ∧
  (∀ t t', step ext t t' →
     state t ≠ SceneStateBooted → state t' = SceneStateBooted →
     t' = boot t ∧ ∃ rs r, RenderSystem t = Some rs ∧ renderer rs = Some r) ∧
  (∀ t t', step ext t t' →
     state t = SceneStateBooted → state t' = SceneStateBooted) ∧
  (∀ t, state t = SceneStateBooted → state (boot t) = SceneStateBooted).
Proof.
  assert (Hboot : ∀ t, state t ≠ SceneStateBooted →
            (state (boot t) = SceneStateBooted
             ↔ ∃ rs r, RenderSystem t = Some rs ∧ renderer rs = Some r)).
  { intros t Hn. destruct (boot_cases t) as [[-> Hno] | [-> Hyes]]; simpl.
    - split; [done | intros; contradiction].
    - done. }
  assert (Hkeep : ∀ t, state t = SceneStateBooted → state (boot t) = SceneStateBooted).
  { intros t Hb. destruct (boot_cases t) as [[-> _] | [-> _]]; done. }
  split; [done |]. split; [exact Hboot |]. split.
  { intros t. destruct (boot_cases t) as [[-> _] | [-> _]]; auto. }
  split.
  { intros t now Hn. unfold Update. by rewrite bool_decide_eq_true_2. }
  split.
  { intros t now t' now' Hb Hop. unfold Update in Hop.
    rewrite bool_decide_eq_false_2 in Hop by (intros Hn; by apply Hn).
    apply runLoops_state in Hop. congruence. }
  split; [intros t u t'; apply runWork_state |].
  split; [intros; apply Label_state |].
  split; [intros; apply Button_state |].
  split; [intros; apply Checkbox_state |].
  split.
  { intros t t' Hs Hn Hb. destruct (step_state t t' Hs) as [He | ->]; [congruence |].
    split; [done |]. by apply Hboot. }
  split; [| exact Hkeep].
  intros t t' Hs Hb. destruct (step_state t t' Hs) as [He | ->]; [congruence |].
  by apply Hkeep.
Qed.

End Boot.

(** ** The time budget of a tick *)

Section Budget.

Variable ext : Externals.

(** A loop entered over the ceiling returns at its first element; over an
    empty range it falls through without a check. *)
Lemma rangeLoop_exceeded start unit es now t :
  (maxTimePerUpdate ext < now - start)%N →
  rangeLoop ext start unit es now t = Ok (t, now, bool_decide (es ≠ [])).
Proof.
  intros Hx. destruct es as [|e es]; simpl; [done |].
  apply N.ltb_lt in Hx. by rewrite Hx.
Qed.

Lemma runLoops_exceeded start ls now t :
  (maxTimePerUpdate ext < now - start)%N → runLoops ext start ls now t = Ok (t, now).
Proof.
  intros Hx. induction ls as [|[unit source] ls IH]; simpl; [done |].
  rewrite rangeLoop_exceeded by done. simpl.
  by destruct (bool_decide _).
Qed.

(** The reading of the clock stays within the ceiling plus one unit. *)
Lemma rangeLoop_budget c start unit es now t t' now' returned :
  (∀ u s, (cost ext u s ≤ c)%N) →
  (start ≤ now)%N → (now - start ≤ maxTimePerUpdate ext + c)%N →
  rangeLoop ext start unit es now t = Ok (t', now', returned) →
  (now ≤ now')%N ∧ (now' - start ≤ maxTimePerUpdate ext + c)%N.
Proof.
  intros Hc. revert now t. induction es as [|e es IH]; intros now t Hs Hb Hop;
    simpl in Hop.
  - simplify_eq. split; [lia | done].
  - destruct (_ <? _)%N eqn:Hx; [simplify_eq; split; [lia | done] |].
    apply N.ltb_ge in Hx.
    apply bind_Ok in Hop as (t1 & Hu & Hop).
    specialize (Hc (unit e) t).
    apply IH in Hop; [lia | lia | lia].
Qed.

Lemma runLoops_budget c start ls now t t' now' :
  (∀ u s, (cost ext u s ≤ c)%N) →
  (start ≤ now)%N → (now - start ≤ maxTimePerUpdate ext + c)%N →
  runLoops ext start ls now t = Ok (t', now') →
  (now ≤ now')%N ∧ (now' - start ≤ maxTimePerUpdate ext + c)%N.
Proof.
  intros Hc. revert now t. induction ls as [|[unit source] ls IH];
    intros now t Hs Hb Hop; simpl in Hop.
  - simplify_eq. split; [lia | done].
  - apply bind_Ok in Hop as ([[t1 now1] returned] & Hl & Hop).
    eapply rangeLoop_budget in Hl; [| done ..]. destruct Hl as [Hle Hb1].
    destruct returned; [simplify_eq; done |].
    apply IH in Hop; [lia | lia | done].
Qed.

(** C6.  Update runs six loops in a fixed order.  In each of them the time
    since the start of the tick is compared with the ceiling before every
    element: within the ceiling, the unit of work for the element runs and
    the loop goes on with the clock advanced by the unit's cost; over the
    ceiling, Update returns at once — the element and everything after it,
    in this loop and in the later ones, is left for another tick.  Hence,
    when no unit costs more than [c], a tick that started at [now] ends no
    later than the ceiling plus [c] after [now].  (The clock advances with
    the units of work only.) *)
Theorem tick_time_budget :
  (∀ t now, state t = SceneStateBooted →
     Update ext now t = runLoops ext now (loops ext) now t) ∧
  (map fst (loops ext)
     = [ProcessButton; ProcessCheckbox; ProcessLabel;
        UpdateButton; UpdateCheckbox; UpdateLabel]) ∧
  (∀ start unit e es now t, (now - start ≤ maxTimePerUpdate ext)%N →
     rangeLoop ext start unit (e :: es) now t
     = (t' ⇐ runWork ext (unit e) t;;
        rangeLoop ext start unit es (now + cost ext (unit e) t) t')) ∧
  (∀ start unit e es now t, (maxTimePerUpdate ext < now - start)%N →
     rangeLoop ext start unit (e :: es) now t = Ok (t, now, true)) ∧
  (∀ start ls now t, (maxTimePerUpdate ext < now - start)%N →
     runLoops ext start ls now t = Ok (t, now)) ∧
  (∀ c now t t' now', (∀ u s, (cost ext u s ≤ c)%N) →
     Update ext now t = Ok (t', now') →
     (now ≤ now')%N ∧ (now' - now ≤ maxTimePerUpdate ext + c)%N).
Proof.
  split.
  { intros t now Hb. unfold Update.
    rewrite bool_decide_eq_false_2; [done | intros Hn; by apply Hn]. }
  split; [done |]. split.
  { intros start unit e es now t Hx. simpl.
    apply N.ltb_ge in Hx. by rewrite Hx. }
  split.
  { intros start unit e es now t Hx. by rewrite rangeLoop_exceeded. }
  split; [apply runLoops_exceeded |].
  intros c now t t' now' Hc Hop. unfold Update in Hop.
  destruct (bool_decide _); [simplify_eq; split; lia |].
  eapply runLoops_budget in Hop; [done | done | lia | lia].
Qed.

End Budget.

(** ** Buttons and checkboxes in the running system *)

Section Gate.

Variable ext : Externals.

Lemma addBitmapFontForLabel_ready l t e :
  buttonLoadQueue (addBitmapFontForLabel l t) = buttonLoadQueue t ∧
  (e ∈ akara.Ready (World (addBitmapFontForLabel l t)) →
     e ∈ akara.Ready (World t) ∨ (e = l ∧ l ∈ labels t)).
Proof.
  unfold addBitmapFontForLabel, createBitmapFont.
  destruct (labelLoadQueue t !! l) as [entry|] eqn:Hq; [| by auto].
  destruct (negb _); [by auto |].
  destruct (akara.File (World t) !! _); [| by auto].
  destruct (akara.Sprite (World t) !! _) as [sprite|]; [| by auto].
  destruct (d2cache.Retrieve _ _).
  { split; [done |]. simpl.
    intros [->%elem_of_singleton | He]%elem_of_union; [right | by left].
    split; [done |]. unfold labels. apply elem_of_dom_2 in Hq. set_solver. }
  destruct (akara.FontTable (World t) !! _) as [[data|]|];
    destruct (d2components.Sprite_ sprite); try by auto.
  simpl. destruct (d2cache.Insert _ _ _ _) as [c [err|]]; simpl; auto.
Qed.

Lemma processLabel_ready l t t' e :
  processLabel l t = Ok t' →
  buttonLoadQueue t' = buttonLoadQueue t ∧
  (e ∈ akara.Ready (World t') → e ∈ akara.Ready (World t) ∨ (e = l ∧ l ∈ labels t)).
Proof.
  intros Hop. unfold processLabel in Hop.
  destruct (akara.BitmapFont (World t) !! l) as [bmf|] eqn:Hb.
  - destruct (bmf ≫= _); [| discriminate].
    apply bind_Ok in Hop as (r & _ & Hop). simplify_eq. split; [done |]. simpl.
    intros [->%elem_of_singleton | He]%elem_of_union.
    + right. split; [done |]. unfold labels. apply elem_of_dom_2 in Hb. set_solver.
    + left. set_solver.
  - simplify_eq. apply addBitmapFontForLabel_ready.
Qed.

Lemma updateButton_ready b t :
  buttonLoadQueue (updateButton b t) = buttonLoadQueue t ∧
  akara.Ready (World (updateButton b t)) = akara.Ready (World t).
Proof.
  unfold updateButton.
  destruct (akara.Button (World t) !! b) as [button|]; [| done].
  repeat (match goal with
          | |- context [match ?x !! ?k with _ => _ end] => destruct (x !! k)
          end; try done).
Qed.

Lemma updateCheckbox_ready c t t' :
  updateCheckbox c t = Ok t' →
  buttonLoadQueue t' = buttonLoadQueue t ∧ akara.Ready (World t') = akara.Ready (World t).
Proof.
  intros Hop. unfold updateCheckbox in Hop.
  destruct (akara.Checkbox (World t) !! c); [| by simplify_eq].
  destruct (d2components.CheckboxSprite _); [| discriminate].
  destruct (akara.Texture (World t) !! c); by simplify_eq.
Qed.

Lemma updateLabel_ready l t t' :
  updateLabel l t = Ok t' →
  buttonLoadQueue t' = buttonLoadQueue t ∧ akara.Ready (World t') = akara.Ready (World t).
Proof.
  intros Hop. unfold updateLabel in Hop.
  destruct (akara.Label (World t) !! l); [| by simplify_eq].
  destruct (akara.BitmapFont (World t) !! l); [| by simplify_eq].
  destruct (negb _); [by simplify_eq |].
  simpl in Hop. destruct (RenderSystem t) as [rs|]; [| discriminate].
  destruct (renderer rs); [| discriminate]. by simplify_eq.
Qed.

Lemma processButtonStates_BitmapFont b t t' :
  processButtonStates ext b t = Ok t' →
  akara.BitmapFont (World t') = akara.BitmapFont (World t).
Proof.
  intros Hop. unfold processButtonStates, renderButtonStates in Hop.
  destruct (akara.Button (World t) !! b) as [button|]; [| discriminate].
  destruct (0 <? _)%N.
  - destruct (negb _); by simplify_eq.
  - simpl in Hop.
    destruct (d2button.HasImage _ && d2button.AllowFrameChange _);
      [destruct (negb _) |]; simpl in Hop; by simplify_eq.
Qed.

Lemma processButton_BitmapFont b t t' :
  processButton ext b t = Ok t' →
  akara.BitmapFont (World t') = akara.BitmapFont (World t).
Proof.
  intros Hop. unfold processButton in Hop.
  destruct (buttonLoadQueue t !! b) as [entry|]; [| by simplify_eq].
  destruct (negb _); [by simplify_eq |].
  simpl in Hop.
  destruct (akara.Sprite (World t) !! _); simpl in Hop;
    destruct (found _); simpl in Hop;
    by apply processButtonStates_BitmapFont in Hop.
Qed.

Lemma processCheckbox_BitmapFont c t :
  akara.BitmapFont (World (processCheckbox ext c t)) = akara.BitmapFont (World t).
Proof.
  unfold processCheckbox.
  destruct (checkboxLoadQueue t !! c) as [entry|]; [| done].
  destruct (isReady _ t); simpl; [| done].
  by destruct (akara.Sprite (World t) !! _).
Qed.

Lemma processLabel_BitmapFont l' t t' l :
  processLabel l' t = Ok t' →
  is_Some (akara.BitmapFont (World t') !! l) →
  is_Some (akara.BitmapFont (World t) !! l) ∨ l = l'.
Proof.
  intros Hop Hl. destruct (decide (l = l')) as [-> | Hne]; [by right | left].
  unfold processLabel in Hop.
  destruct (akara.BitmapFont (World t) !! l') as [bmf|] eqn:Hb.
  - destruct (bmf ≫= _); [| discriminate].
    apply bind_Ok in Hop as (r & _ & Hop). simplify_eq. simpl in Hl.
    destruct Hl as [x Hx]. apply lookup_delete_Some in Hx as [_ Hx]. by eexists.
  - simplify_eq. revert Hl. unfold addBitmapFontForLabel, createBitmapFont.
    destruct (labelLoadQueue t !! l') as [entry|]; [| done].
    destruct (negb _); [done |].
    destruct (akara.File (World t) !! _); [| done].
    destruct (akara.Sprite (World t) !! _) as [sprite|]; [| done].
    destruct (d2cache.Retrieve _ _).
    { simpl. unfold akara.AddWith. by rewrite lookup_insert_ne. }
    destruct (akara.FontTable (World t) !! _) as [[data|]|];
      destruct (d2components.Sprite_ sprite); try done.
    simpl. destruct (d2cache.Insert _ _ _ _) as [c [err|]]; simpl;
      unfold akara.AddWith; by rewrite lookup_insert_ne.
Qed.

Lemma updateButton_BitmapFont b t :
  akara.BitmapFont (World (updateButton b t)) = akara.BitmapFont (World t).
Proof.
  unfold updateButton.
  destruct (akara.Button (World t) !! b) as [button|]; [| done].
  repeat (match goal with
          | |- context [match ?x !! ?k with _ => _ end] => destruct (x !! k)
          end; try done).
Qed.

Lemma updateCheckbox_BitmapFont c t t' :
  updateCheckbox c t = Ok t' → akara.BitmapFont (World t') = akara.BitmapFont (World t).
Proof.
  intros Hop. unfold updateCheckbox in Hop.
  destruct (akara.Checkbox (World t) !! c); [| by simplify_eq].
  destruct (d2components.CheckboxSprite _); [| discriminate].
  destruct (akara.Texture (World t) !! c); by simplify_eq.
Qed.

Lemma updateLabel_BitmapFont l t t' :
  updateLabel l t = Ok t' → akara.BitmapFont (World t') = akara.BitmapFont (World t).
Proof.
  intros Hop. unfold updateLabel in Hop.
  destruct (akara.Label (World t) !! l); [| by simplify_eq].
  destruct (akara.BitmapFont (World t) !! l); [| by simplify_eq].
  destruct (negb _); [by simplify_eq |].
  simpl in Hop. destruct (RenderSystem t) as [rs|]; [| discriminate].
  destruct (renderer rs); [| discriminate]. by simplify_eq.
Qed.

(** Only the drain step of a label attaches its BitmapFont component. *)
Lemma runWork_BitmapFont u t t' l :
  runWork ext u t = Ok t' →
  is_Some (akara.BitmapFont (World t') !! l) →
  is_Some (akara.BitmapFont (World t) !! l) ∨ u = ProcessLabel l.
Proof.
  intros Hop Hl. destruct u as [e|e|e|e|e|e]; simpl in Hop.
  - left. by rewrite <- (processButton_BitmapFont e t t').
  - left. simplify_eq. by rewrite <- (processCheckbox_BitmapFont e t).
  - destruct (processLabel_BitmapFont e t t' l Hop Hl) as [? | ->]; auto.
  - left. simplify_eq. by rewrite <- (updateButton_BitmapFont e t).
  - left. by rewrite <- (updateCheckbox_BitmapFont e t t').
  - left. by rewrite <- (updateLabel_BitmapFont e t t').
Qed.

(** Only the drain step of a label marks it Ready. *)
Lemma runWork_label_Ready u t t' l :
  wf t → runWork ext u t = Ok t' → l ∈ labels t →
  l ∈ akara.Ready (World t') →
  l ∈ akara.Ready (World t) ∨ u = ProcessLabel l.
Proof.
  intros Hwf Hop Hl Hin. destruct u as [e|e|e|e|e|e]; simpl in Hop.
  - left. apply processButton_inv in Hop
      as [[HR _] | (entry & button & Hq & _ & _ & _ & _ & HR & _)];
      rewrite HR in Hin; [done |].
    apply elem_of_union in Hin as [->%elem_of_singleton | ?]; [| done].
    destruct Hwf as [_ _ H3 _ _]. apply elem_of_dom_2 in Hq.
    unfold buttons in H3. set_solver.
  - left. simplify_eq.
    destruct (processCheckbox_inv ext e t) as [Heq | (entry & Hq & _ & HR & _)].
    { by rewrite Heq in Hin. }
    rewrite HR in Hin.
    apply elem_of_union in Hin as [->%elem_of_singleton | ?]; [| done].
    destruct Hwf as [_ _ _ H4 _]. apply elem_of_dom_2 in Hq.
    unfold checkboxes in H4. set_solver.
  - destruct (processLabel_ready e t t' l Hop) as [_ HR].
    destruct (HR Hin) as [? | [-> _]]; auto.
  - left. simplify_eq. destruct (updateButton_ready e t) as [_ HR]. by rewrite <- HR.
  - left. apply updateCheckbox_ready in Hop as [_ HR]. by rewrite <- HR.
  - left. apply updateLabel_ready in Hop as [_ HR]. by rewrite <- HR.
Qed.

(** C1 (as amended).  In a state the factory can be in, whichever unit of
    work runs, for a label that waits in the queue or carries a font: if the
    unit gives the label the Ready marker, it is the drain step of that
    label, and the label already carried a BitmapFont component or the
    glyph-table entity of its queue entry carries FontTable and File and the
    sprite entity carries Sprite; and if the unit attaches the BitmapFont
    component, it is the drain step of that label with the same three
    components in place.  The Ready markers of the glyph-table and sprite
    entities are not consulted. *)
Theorem label_ready_gate (t t' : UIWidgetFactory) (u : work) (l : EID) :
  reach ext t →
  runWork ext u t = Ok t' →
  l ∈ labels t →
  (l ∉ akara.Ready (World t) → l ∈ akara.Ready (World t') →
     u = ProcessLabel l ∧
     (is_Some (akara.BitmapFont (World t) !! l) ∨ prerequisitesLoaded l t)) ∧
  (akara.BitmapFont (World t) !! l = None →
     is_Some (akara.BitmapFont (World t') !! l) →
     u = ProcessLabel l ∧ prerequisitesLoaded l t).
Proof.
  intros Hreach Hop Hl. apply reach_wf in Hreach as Hwf. split.
  - intros Hn Hy.
    destruct (runWork_label_Ready u t t' l Hwf Hop Hl Hy) as [? | ->]; [done |].
    split; [done |]. simpl in Hop.
    destruct (processLabel_gate l t t' Hop) as [HR _].
    destruct (HR Hy) as [? | [? | ?]]; auto. done.
  - intros Hn Hy.
    destruct (runWork_BitmapFont u t t' l Hop Hy) as [[x Hx] | ->]; [congruence |].
    split; [done |]. simpl in Hop.
    destruct (processLabel_gate l t t' Hop) as [_ HB].
    destruct (HB Hy) as [[x Hx] | ?]; [congruence | done].
Qed.

(** Among the units of work, only the drain step of a button marks it Ready
    or takes it from the queue, and it does so with the five state sprites
    Ready. *)
Lemma runWork_button_gate (t t' : UIWidgetFactory) (u : work) (b : EID) :
  wf t →
  runWork ext u t = Ok t' →
  b ∈ buttons t →
  ((b ∉ akara.Ready (World t)) ∧ b ∈ akara.Ready (World t')) ∨
  (is_Some (buttonLoadQueue t !! b) ∧ buttonLoadQueue t' !! b = None) →
  u = ProcessButton b ∧
  ∃ button,
    akara.Button (World t) !! b = Some button ∧
    statesReady (d2components.States button) t ∧
    b ∈ akara.Ready (World t') ∧
    buttonLoadQueue t' !! b = None.
Proof.
  intros Hwf Hop Hb Hch.
  assert (Hsame : buttonLoadQueue t' = buttonLoadQueue t →
                  (b ∈ akara.Ready (World t') → b ∈ akara.Ready (World t)) → False).
  { intros HQ HR. destruct Hch as [[Hn Hy] | [[x Hx] Hnone]]; [auto |].
    rewrite HQ in Hnone. congruence. }
  destruct u as [e|e|e|e|e|e]; simpl in Hop.
  - apply processButton_inv in Hop
      as [[HR HQ] | (entry & button & Hq & _ & _ & Hbt & Hst & HR & HQ)].
    { exfalso. apply Hsame; [done | by rewrite HR]. }
    destruct (decide (e = b)) as [-> | Hne].
    + split; [done |]. exists button. split; [done |]. split; [done |].
      rewrite HR, HQ. split; [set_solver | apply lookup_delete_eq].
    + exfalso. destruct Hch as [[Hn Hy] | [[x Hx] Hnone]].
      * rewrite HR in Hy. set_solver.
      * rewrite HQ, lookup_delete_ne in Hnone by done. congruence.
  - exfalso. assert (Ht' : t' = processCheckbox ext e t) by congruence.
    rewrite Ht' in Hsame.
    destruct (processCheckbox_inv ext e t) as [Heq | (entry & Hq & _ & HR & _ & _ & HQ)].
    { rewrite Heq in Hsame. by apply Hsame. }
    apply Hsame; [done |]. rewrite HR.
    intros [->%elem_of_singleton | ?]%elem_of_union; [| done].
    destruct Hwf as [_ H2 _ _ _]. apply elem_of_dom_2 in Hq.
    unfold checkboxes in H2. set_solver.
  - exfalso. apply (processLabel_ready e t t' b) in Hop as [HQ HR].
    apply Hsame; [done |]. intros Hin. destruct (HR Hin) as [? | [-> Hl]]; [done |].
    destruct Hwf as [_ _ H3 _ _]. set_solver.
  - exfalso. simplify_eq. destruct (updateButton_ready e t) as [HQ HR].
    apply Hsame; [done | by rewrite HR].
  - exfalso. apply updateCheckbox_ready in Hop as [HQ HR].
    apply Hsame; [done | by rewrite HR].
  - exfalso. apply updateLabel_ready in Hop as [HQ HR].
    apply Hsame; [done | by rewrite HR].
Qed.

(** C10.  processCheckbox attaches a Texture component to the checkbox in
    the step in which it marks it Ready.  Hence, in every state the factory
    can be in, every entity of the (Checkbox, Ready) subscription has a
    Texture component, and updateCheckbox does not fail at the assignment
    through the texture pointer. *)
Theorem checkbox_texture :
  (∀ c t,
     c ∈ akara.Ready (World (processCheckbox ext c t)) →
     c ∈ akara.Ready (World t) ∨
     is_Some (akara.Texture (World (processCheckbox ext c t)) !! c)) ∧
  (∀ t e,
     reach ext t →
     e ∈ akara.subscribed (akara.Checkbox (World t)) (World t) →
     is_Some (akara.Texture (World t) !! e) ∧
     updateCheckbox e t ≠ Panic NilTexture).
Proof.
  split.
  { intros c t Hin.
    destruct (processCheckbox_inv ext c t) as [Heq | (entry & _ & _ & _ & Htx & _)].
    - left. by rewrite Heq in Hin.
    - by right. }
  intros t e Hreach He. apply reach_wf in Hreach as [H1 _ _ _ _].
  unfold akara.subscribed in He. apply elem_of_elements in He.
  apply elem_of_intersection in He as [Hc Hr].
  assert (Htx : is_Some (akara.Texture (World t) !! e)).
  { apply elem_of_dom. by apply H1. }
  split; [done |]. unfold updateCheckbox.
  destruct (akara.Checkbox (World t) !! e); [| done].
  destruct (d2components.CheckboxSprite _); [| done].
  destruct Htx as [x ->]. done.
Qed.

End Gate.

(** ** The statements at work in the demo run *)

Lemma tick_reach t : reach Demo.ext t → reach Demo.ext (Demo.tick t).
Proof.
  intros Hr. unfold Demo.tick.
  destruct (Update Demo.ext 0 t) as [[t' now']|] eqn:Hu; [| done].
  by eapply reach_Update.
Qed.

Lemma markReady_reach e t :
  reach Demo.ext t →
  bool_decide ((e ∉ widgets t) ∧ (e < akara.nextEntityID (World t))%N) = true →
  reach Demo.ext (Loader.markReady e t).
Proof.
  intros Hr [Hw Hn]%bool_decide_eq_true.
  eapply reach_collaborators; [done | by apply markReady_co].
Qed.

Lemma oneButtonStatesReady_reach : reach Demo.ext Demo.oneButtonStatesReady.
Proof.
  assert (H0 : reach Demo.ext Demo.oneButtonLoaded).
  { apply markReady_reach; [| vm_compute; reflexivity].
    do 2 (eapply reach_collaborators; [| apply loadSprite_co]).
    eapply reach_collaborators; [| apply loadFontTable_co].
    apply reach_Button, booted_reach. }
  do 4 (apply markReady_reach; [| vm_compute; reflexivity]).
  do 3 apply tick_reach. exact H0.
Qed.

Lemma oneCheckboxReady_reach : reach Demo.ext Demo.oneCheckboxReady.
Proof.
  apply tick_reach. apply markReady_reach; [| vm_compute; reflexivity].
  eapply reach_collaborators; [| apply loadSprite_co].
  apply reach_Checkbox, booted_reach.
Qed.

Lemma checkbox_texture_witness :
  is_Some (akara.Texture (World Demo.oneCheckboxReady) !! 1%N) ∧
  updateCheckbox 1 Demo.oneCheckboxReady ≠ Panic NilTexture.
Proof.
  apply (proj2 (checkbox_texture Demo.ext) Demo.oneCheckboxReady 1%N).
  - exact oneCheckboxReady_reach.
  - compute_done.
Defined.

Lemma oneLabelFont_reach : reach Demo.ext Demo.oneLabelFont.
Proof.
  apply tick_reach.
  eapply reach_collaborators; [| apply loadSprite_co].
  eapply reach_collaborators; [| apply loadFontTable_co].
  apply reach_Label, booted_reach.
Qed.

Lemma label_ready_gate_witness :
  (1%N ∉ akara.Ready (World Demo.oneLabelFont) →
   1%N ∈ akara.Ready (World Demo.oneLabelReady) →
     ProcessLabel 1 = ProcessLabel 1 ∧
     (is_Some (akara.BitmapFont (World Demo.oneLabelFont) !! 1%N)
      ∨ prerequisitesLoaded 1 Demo.oneLabelFont)) ∧
  (akara.BitmapFont (World Demo.oneLabelFont) !! 1%N = None →
   is_Some (akara.BitmapFont (World Demo.oneLabelReady) !! 1%N) →
     ProcessLabel 1 = ProcessLabel 1 ∧ prerequisitesLoaded 1 Demo.oneLabelFont).
Proof.
  apply (label_ready_gate Demo.ext Demo.oneLabelFont Demo.oneLabelReady
           (ProcessLabel 1) 1%N).
  - exact oneLabelFont_reach.
  - vm_compute. reflexivity.
  - compute_done.
Defined.

(** ** The logger *)

Lemma eqb_empty_false p : p ≠ "" → String.eqb p "" = false.
Proof. by destruct p. Qed.

Section LoggerLines.

Import Logger.

Lemma levelFmt_is_Some lv msg :
  (0 ≤ lv ≤ 5)%Z → is_Some (levelFmt lv msg).
Proof.
  intros H. assert (lv = 0 ∨ lv = 1 ∨ lv = 2 ∨ lv = 3 ∨ lv = 4 ∨ lv = 5)%Z as Hc by lia.
  destruct Hc as [->|[->|[->|[->|[->| ->]]]]]; vm_compute; eauto.
Qed.

Lemma levelFmt_None lv msg :
  (lv < 0 ∨ 5 < lv)%Z → levelFmt lv msg = None.
Proof.
  intros H. unfold levelFmt, LogLevelDebug, LogLevelInfo, LogLevelWarning, LogLevelError,
    LogLevelFatal, LogLevelNone.
  repeat match goal with
         | |- context [(lv =? ?k)%Z] => destruct (Z.eqb_spec lv k); [lia |]
         end.
  done.
Qed.

(** X1. print writes a message exactly when its level is one of None, Fatal,
    Error, Warning, Info, Debug and does not exceed the logger's level; it
    then appends one line to what was written before.  Otherwise the logger
    is unchanged.  The prefix, the level and the colour setting are never
    changed by print. *)
Theorem print_level_filter (lv : Z) (msg : string) (l : Logger) :
  prefix (print lv msg l) = prefix l ∧
  level (print lv msg l) = level l ∧
  colorEnabled (print lv msg l) = colorEnabled l ∧
  ((lv ≤ level l ∧ 0 ≤ lv ≤ 5)%Z →
     ∃ line, Writer (print lv msg l) = (Writer l ++ [line])%list) ∧
  ((level l < lv ∨ lv < 0 ∨ 5 < lv)%Z → print lv msg l = l).
Proof.
  unfold print. destruct (Z.ltb_spec (level l) lv) as [Hlt|Hge].
  { do 3 (split; [done |]). split; [lia | done]. }
  destruct (levelFmt lv msg) as [body|] eqn:Hf; simpl; do 3 (split; [done |]).
  - split; [eauto |]. intros [?|H]; [lia |]. by rewrite levelFmt_None in Hf.
  - split; [| done].
    intros [_ H]. apply (levelFmt_is_Some lv msg) in H. rewrite Hf in H. by destruct H.
Qed.



(** X3. After SetPrefix with a non-empty prefix (without formatting verbs),
    a Debug line starts with the prefix in square brackets, followed at once,
    with no space in between, by the level tag; with colours enabled the
    prefix is preceded by the magenta escape and the tag by the cyan one. *)
Theorem prefix_is_bracketed (p msg : string) (l : Logger) :
  p ≠ "" → lacks "%" p = true → (LogLevelDebug ≤ level l)%Z →
  Writer (run (fst (Debug msg)) (SetPrefix p l))
  = (Writer l ++
      [((if colorEnabled l then esc ++ "[35m" else "") ++ "[" ++ p ++ "]"
        ++ (if colorEnabled l then esc ++ "[36m" else "")
        ++ "[DEBUG]" ++ colorEscapeReset ++ " " ++ msg ++ crlf)%string])%list.
Proof.
  intros Hp _ Hl. unfold LogLevelDebug in Hl.
  unfold run, print; simpl. rewrite (eqb_empty_false p Hp).
  unfold LogLevelDebug. destruct (Z.ltb_spec (level l) 5); [lia |]. simpl.
  f_equal. f_equal. unfold fmtPrefix, LogFmtDebug.
  destruct (colorEnabled l); simpl.
  - unfold fmtColorEscape. rewrite !string_app_assoc. reflexivity.
  - rewrite !string_app_assoc. reflexivity.
Qed.

Lemma prefix_is_bracketed_witness :
  Writer (run (fst (Debug "ABC")) (SetPrefix "XYZ" Demo.verbose))
  = ["[XYZ][DEBUG]" ++ colorEscapeReset ++ " ABC" ++ crlf].
Proof.
  apply (prefix_is_bracketed "XYZ" "ABC" Demo.verbose); [discriminate | reflexivity |].
  vm_compute. discriminate.
Defined.

(** X4. SetLevel never leaves the logger at LogLevelUnspecified: that value
    stands for the default level (Info), every other value is stored as
    given.  After SetLevel(LogLevelUnspecified) a Debug message is dropped
    and an Info message is written. *)
Theorem SetLevel_unspecified (lv : Z) (l : Logger) :
  level (SetLevel lv l) ≠ LogLevelUnspecified ∧
  (lv ≠ LogLevelUnspecified → level (SetLevel lv l) = lv) ∧
  SetLevel LogLevelUnspecified l = SetLevel LogLevelDefault l ∧
  (∀ msg, run (fst (Debug msg)) (SetLevel LogLevelUnspecified l)
          = SetLevel LogLevelUnspecified l) ∧
  (∀ msg, ∃ line, Writer (run (fst (Info msg)) (SetLevel LogLevelUnspecified l))
                  = (Writer l ++ [line])%list).
Proof.
  split; [| split; [| split; [| split]]].
  - unfold SetLevel; simpl. destruct (Z.eqb_spec lv LogLevelUnspecified); [done | done].
  - intros H. unfold SetLevel; simpl. by destruct (Z.eqb_spec lv LogLevelUnspecified).
  - reflexivity.
  - reflexivity.
  - intros msg. eexists. reflexivity.
Qed.

End LoggerLines.

(** ** The cache key *)

Lemma string_app_inj_l (a b c : string) : a ++ b = a ++ c → b = c.
Proof.
  induction a as [|x a IH]; [done |].
  change (String x (a ++ b) = String x (a ++ c) → b = c). intros H. apply IH. congruence.
Qed.

Lemma string_app_length (a b : string) :
  String.length (a ++ b) = (String.length a + String.length b)%nat.
Proof.
  induction a as [|x a IH]; [done |].
  change (S (String.length (a ++ b)) = S (String.length a + String.length b)). by rewrite IH.
Qed.

(** X7. The cache key does not determine the three paths: the separator may
    occur inside a path, so two different triples have one key. *)
Theorem fontCacheKey_collision (a b c d : string) :
  fontCacheKey (a ++ "::" ++ b) c d = fontCacheKey a (b ++ "::" ++ c) d ∧
  a ++ "::" ++ b ≠ a.
Proof.
  split.
  - unfold fontCacheKey. by rewrite !string_app_assoc.
  - intros H. apply (f_equal String.length) in H.
    rewrite !string_app_length in H. simpl in H. lia.
Qed.

Lemma lacks_split c (a a' b b' : string) :
  lacks c a = true → lacks c a' = true →
  a ++ String c b = a' ++ String c b' → a = a' ∧ b = b'.
Proof.
  revert a'. induction a as [|x a IH]; intros [|x' a'] Ha Ha' H.
  - split; [done |]. change (String c b = String c b') in H. congruence.
  - change (String c b = String x' (a' ++ String c b')) in H.
    simpl in Ha'. apply andb_true_iff in Ha' as [Hx _].
    apply negb_true_iff, Ascii.eqb_neq in Hx. congruence.
  - change (String x (a ++ String c b) = String c b') in H.
    simpl in Ha. apply andb_true_iff in Ha as [Hx _].
    apply negb_true_iff, Ascii.eqb_neq in Hx. congruence.
  - change (String x (a ++ String c b) = String x' (a' ++ String c b')) in H.
    simpl in Ha, Ha'. apply andb_true_iff in Ha as [_ Ha]. apply andb_true_iff in Ha' as [_ Ha'].
    injection H as -> H. destruct (IH a' Ha Ha' H) as [-> ->]. done.
Qed.

(** X8. Glyph-table and sprite paths without a colon are recovered from the
    key: two triples of such paths with the same key are equal. *)
Theorem fontCacheKey_injective (t s p t' s' p' : string) :
  lacks ":" t = true → lacks ":" s = true →
  lacks ":" t' = true → lacks ":" s' = true →
  fontCacheKey t s p = fontCacheKey t' s' p' →
  t = t' ∧ s = s' ∧ p = p'.
Proof.
  intros Ht Hs Ht' Hs' H. unfold fontCacheKey in H.
  change (t ++ String ":" (String ":" (s ++ String ":" (String ":" p)))
          = t' ++ String ":" (String ":" (s' ++ String ":" (String ":" p')))) in H.
  apply lacks_split in H as [-> H]; [| done | done].
  injection H as H. apply lacks_split in H as [-> H]; [| done | done].
  injection H as ->. done.
Qed.

Lemma fontCacheKey_injective_witness :
  "F.tbl" = "F.tbl" ∧ "F.dc6" = "F.dc6" ∧ "P" = "P".
Proof.
  apply (fontCacheKey_injective "F.tbl" "F.dc6" "P" "F.tbl" "F.dc6" "P"); reflexivity.
Defined.

(** ** Creating widgets *)

Section Creation.

Variable ext : Externals.

(** X9. Label returns the next entity of the world and allocates three: the
    label, its glyph-table entity with the file path font.tbl, and its
    sprite, requested at (0, 0) with the image font.dc6 and the given
    palette.  The label is queued with these two entities, holds the text
    and is dirty, and has neither a BitmapFont component nor the Ready
    marker; no Ready marker changes. *)
Theorem Label_queues_label (text font palettePath : string) (t : UIWidgetFactory) :
  wf t →
  let n := akara.nextEntityID (World t) in
  let t' := snd (Label text font palettePath t) in
  fst (Label text font palettePath t) = n ∧
  akara.nextEntityID (World t') = (n + 3)%N ∧
  labelLoadQueue t' = <[n := labelLoadQueueEntry.mk (n + 1) (n + 2)]> (labelLoadQueue t) ∧
  akara.File (World t') !! (n + 1)%N = Some (font ++ ".tbl") ∧
  spriteRequests t' !! (n + 2)%N = Some (mkRequest 0 0 (font ++ ".dc6") palettePath None) ∧
  (∃ label, akara.Label (World t') !! n = Some label ∧
            d2components.text label = text ∧ d2components.dirty label = true) ∧
  akara.BitmapFont (World t') !! n = None ∧
  akara.Ready (World t') = akara.Ready (World t) ∧
  (n ∉ akara.Ready (World t')).
Proof.
  intros Hwf n t'.
  destruct (wf_fresh t n Hwf) as [Hw Hr]; [subst n; lia |].
  assert (Hb : akara.BitmapFont (World t) !! n = None).
  { apply not_elem_of_dom. unfold widgets, labels in Hw. set_solver. }
  subst t'. unfold Label, SpriteFactory.Sprite, NewEntity, akara.NewEntity. simpl.
  fold n. rewrite <- !N.add_1_r, <- !N.add_assoc. simpl.
  split; [done |]. split; [done |]. split; [done |].
  split; [unfold akara.AddWith; by rewrite lookup_insert_eq |].
  split; [by rewrite lookup_insert_eq |].
  split; [unfold akara.AddWith; rewrite lookup_insert_eq; eauto |].
  done.
Qed.

(** X10. A button whose layout has no font path or no palette path gets a
    placeholder label: a fresh entity that is marked Ready at once, with no
    Label component and no entry in the label queue (the text is not
    stored).  The button is queued with the placeholder and its sprite,
    holds the layout and the position, and is not Ready. *)
Theorem Button_without_font (x y : Z) (btnType : N) (text : string) (t : UIWidgetFactory) :
  wf t →
  let layout := GetLayout ext btnType in
  d2button.FontPath layout = "" ∨ d2button.PalettePath layout = "" →
  let n := akara.nextEntityID (World t) in
  let t' := snd (Button ext x y btnType text t) in
  fst (Button ext x y btnType text t) = n ∧
  akara.nextEntityID (World t') = (n + 3)%N ∧
  buttonLoadQueue t' = <[n := buttonLoadQueueEntry.mk (n + 1) (n + 2)]> (buttonLoadQueue t) ∧
  labelLoadQueue t' = labelLoadQueue t ∧
  akara.Label (World t') = akara.Label (World t) ∧
  akara.Ready (World t') = {[(n + 1)%N]} ∪ akara.Ready (World t) ∧
  spriteRequests t' !! (n + 2)%N
  = Some (mkRequest 0 0 (d2button.SpritePath layout) (d2button.PalettePath layout)
            (Some (d2button.XSegments layout, d2button.YSegments layout,
                   d2button.BaseFrame layout))) ∧
  (∃ button, akara.Button (World t') !! n = Some button ∧
             d2components.Layout button = layout) ∧
  akara.Transform (World t') !! n = Some (x, y) ∧
  (n ∉ akara.Ready (World t')).
Proof.
  intros Hwf layout Hl n t'.
  destruct (wf_fresh t n Hwf) as [Hw Hr]; [subst n; lia |].
  assert (Hc : negb (String.eqb (d2button.FontPath layout) "")
               && negb (String.eqb (d2button.PalettePath layout) "") = false).
  { destruct Hl as [-> | ->]; [done |]. apply andb_false_r. }
  subst t'. unfold Button. fold layout. rewrite Hc.
  unfold SpriteFactory.SegmentedSprite, NewEntity, akara.NewEntity. simpl.
  fold n. rewrite <- !N.add_1_r, <- !N.add_assoc. simpl.
  do 6 (split; [done |]).
  split; [by rewrite lookup_insert_eq |].
  split; [unfold akara.AddWith; rewrite lookup_insert_eq; eauto |].
  split; [unfold akara.AddWith; by rewrite lookup_insert_eq |].
  rewrite elem_of_union, elem_of_singleton. intros [H|H]; [lia | done].
Qed.

(** X11. A button whose layout has a font and a palette gets a real label,
    created by Label with the layout's font path and the palette
    PaletteUnits (not the layout's palette), so five entities are allocated:
    button, label, glyph table, label sprite and button sprite.  The button
    sprite uses the layout's image, palette, segments and base frame.
    Nothing is marked Ready. *)
Theorem Button_with_font (x y : Z) (btnType : N) (text : string) (t : UIWidgetFactory) :
  wf t →
  let layout := GetLayout ext btnType in
  d2button.FontPath layout ≠ "" → d2button.PalettePath layout ≠ "" →
  let n := akara.nextEntityID (World t) in
  let t' := snd (Button ext x y btnType text t) in
  fst (Button ext x y btnType text t) = n ∧
  akara.nextEntityID (World t') = (n + 5)%N ∧
  buttonLoadQueue t' = <[n := buttonLoadQueueEntry.mk (n + 1) (n + 4)]> (buttonLoadQueue t) ∧
  labelLoadQueue t'
  = <[(n + 1)%N := labelLoadQueueEntry.mk (n + 2) (n + 3)]> (labelLoadQueue t) ∧
  akara.File (World t') !! (n + 2)%N = Some (d2button.FontPath layout ++ ".tbl") ∧
  spriteRequests t' !! (n + 3)%N
  = Some (mkRequest 0 0 (d2button.FontPath layout ++ ".dc6") (PaletteUnits ext) None) ∧
  spriteRequests t' !! (n + 4)%N
  = Some (mkRequest 0 0 (d2button.SpritePath layout) (d2button.PalettePath layout)
            (Some (d2button.XSegments layout, d2button.YSegments layout,
                   d2button.BaseFrame layout))) ∧
  (∃ label, akara.Label (World t') !! (n + 1)%N = Some label ∧
            d2components.text label = text) ∧
  (∃ button, akara.Button (World t') !! n = Some button ∧
             d2components.Layout button = layout) ∧
  akara.Ready (World t') = akara.Ready (World t).
Proof.
  intros Hwf layout Hf Hp n t'.
  assert (Hc : negb (String.eqb (d2button.FontPath layout) "")
               && negb (String.eqb (d2button.PalettePath layout) "") = true).
  { by rewrite !eqb_empty_false. }
  subst t'. unfold Button. fold layout. rewrite Hc.
  unfold Label, SpriteFactory.Sprite, SpriteFactory.SegmentedSprite, NewEntity,
    akara.NewEntity. simpl.
  fold n. rewrite <- !N.add_1_r, <- !N.add_assoc. simpl.
  do 4 (split; [done |]).
  split; [unfold akara.AddWith; by rewrite lookup_insert_eq |].
  split; [rewrite lookup_insert_ne by lia; by rewrite lookup_insert_eq |].
  split; [by rewrite lookup_insert_eq |].
  split; [unfold akara.AddWith; rewrite lookup_insert_eq; eauto |].
  split; [| done].
  unfold akara.AddWith; rewrite lookup_insert_eq; eauto.
Qed.

Lemma float64_of_int_exact (n : Z) :
  (Z.abs n ≤ 9007199254740992)%Z → float64_of_int n = n.
Proof.
  intros H. unfold float64_of_int.
  by destruct (Z.leb_spec (Z.abs n) 9007199254740992); [| lia].
Qed.

(** Above 2^53 the conversion rounds to the nearest float64, ties to even;
    the largest int becomes 2^63. *)
Lemma float64_of_int_rounds :
  float64_of_int 9007199254740993 = 9007199254740992%Z ∧
  float64_of_int 9007199254740995 = 9007199254740996%Z ∧
  float64_of_int (-9007199254740995) = (-9007199254740996)%Z ∧
  float64_of_int 9223372036854775807 = 9223372036854775808%Z.
Proof. repeat split. Qed.

(** X12. Checkbox returns the next entity and allocates two: the checkbox and
    its sprite, requested at (x, y) with the image, palette, segments and
    base frame of the checkbox layout.  The component holds the checked and
    enabled flags and the callback, and its clickable rectangle is at (x, y)
    with the layout's fixed width and height converted to float64: the
    rounded values, which are the layout's own when these do not exceed 2^53
    in absolute value.  The checkbox is queued and not Ready. *)
Theorem Checkbox_queues_checkbox (x y : Z) (checkedState enabled : bool)
    (callback : option N) (t : UIWidgetFactory) :
  wf t →
  let n := akara.nextEntityID (World t) in
  let l := d2components.CheckboxLayout (newCheckbox ext) in
  let t' := snd (Checkbox ext x y checkedState enabled callback t) in
  fst (Checkbox ext x y checkedState enabled callback t) = n ∧
  akara.nextEntityID (World t') = (n + 2)%N ∧
  checkboxLoadQueue t' = <[n := checkboxLoadQueueEntry.mk (n + 1)]> (checkboxLoadQueue t) ∧
  spriteRequests t' !! (n + 1)%N
  = Some (mkRequest x y (d2checkbox.SpritePath l) (d2checkbox.PalettePath l)
            (Some (d2checkbox.XSegments l, d2checkbox.YSegments l, d2checkbox.BaseFrame l))) ∧
  (∃ checkbox, akara.Checkbox (World t') !! n = Some checkbox ∧
     d2components.pressed checkbox = checkedState ∧
     d2components.enabled checkbox = enabled ∧
     d2components.onActivated checkbox = callback ∧
     d2checkbox.ClickableRect (d2components.CheckboxLayout checkbox)
     = rectangle.New x y (float64_of_int (d2checkbox.FixedWidth l))
         (float64_of_int (d2checkbox.FixedHeight l)) ∧
     ((Z.abs (d2checkbox.FixedWidth l) ≤ 9007199254740992)%Z →
      (Z.abs (d2checkbox.FixedHeight l) ≤ 9007199254740992)%Z →
      d2checkbox.ClickableRect (d2components.CheckboxLayout checkbox)
      = rectangle.New x y (d2checkbox.FixedWidth l) (d2checkbox.FixedHeight l))) ∧
  akara.Transform (World t') !! n = Some (x, y) ∧
  akara.Ready (World t') = akara.Ready (World t) ∧
  (n ∉ akara.Ready (World t')).
Proof.
  intros Hwf n l t'.
  destruct (wf_fresh t n Hwf) as [Hw Hr]; [subst n; lia |].
  assert (Hb : akara.Checkbox (World t) !! n = None).
  { apply not_elem_of_dom. unfold widgets, checkboxes in Hw. set_solver. }
  subst t'. unfold Checkbox, SpriteFactory.SegmentedSprite, NewEntity, akara.NewEntity.
  simpl. fold n. rewrite Hb. simpl. fold l.
  rewrite <- !N.add_1_r, <- !N.add_assoc. simpl.
  do 3 (split; [done |]).
  split; [by rewrite lookup_insert_eq |].
  split.
  { rewrite lookup_insert_eq. eexists. split; [reflexivity |]. simpl.
    do 4 (split; [done |]). intros Hw' Hh'.
    by rewrite !float64_of_int_exact. }
  split; [unfold akara.AddWith; by rewrite lookup_insert_eq |].
  done.
Qed.

End Creation.

(** ** The drain step of a button *)

Section ProcessButton.

Variable ext : Externals.

Lemma processButtonStates_Ok b t :
  is_Some (akara.Button (World t) !! b) → ∃ t', processButtonStates ext b t = Ok t'.
Proof.
  intros [button Hb]. unfold processButtonStates, renderButtonStates. rewrite Hb.
  destruct (0 <? _)%N.
  - destruct (negb _); eauto.
  - destruct (d2button.HasImage _ && d2button.AllowFrameChange _); simpl;
      [destruct (negb _) |]; simpl; eauto.
Qed.

(** X13. processButtonStates and renderButtonStates use the button without
    testing that it was found, and fail on an entity without a Button
    component; processButton adds the component first, so it returns for
    every entity and every state. *)
Theorem processButton_returns :
  (∀ b t, akara.Button (World t) !! b = None →
     processButtonStates ext b t = Panic NilButton ∧
     renderButtonStates b t = Panic NilButton) ∧
  (∀ b t, ∃ t', processButton ext b t = Ok t').
Proof.
  split.
  { intros b t Hb. unfold processButtonStates, renderButtonStates. by rewrite Hb. }
  intros b t. unfold processButton.
  destruct (buttonLoadQueue t !! b) as [entry|]; [| eauto].
  destruct (negb _); [eauto |].
  apply processButtonStates_Ok.
  destruct (akara.Sprite _ !! _); destruct (found _); simpl;
    rewrite ?lookup_alter_eq; try apply fmap_is_Some; apply lookup_Add_is_Some.
Qed.

(** X14. A queued button whose label or sprite is not Ready is left for the
    next tick: the drain step changes nothing. *)
Theorem processButton_waits (b : N) (t : UIWidgetFactory) (entry : buttonLoadQueueEntry.t) :
  buttonLoadQueue t !! b = Some entry →
  (buttonLoadQueueEntry.label entry ∉ akara.Ready (World t)) ∨
  (buttonLoadQueueEntry.sprite entry ∉ akara.Ready (World t)) →
  processButton ext b t = Ok t.
Proof.
  intros He Hr. unfold processButton. rewrite He.
  assert (isReady (buttonLoadQueueEntry.label entry) t
          && isReady (buttonLoadQueueEntry.sprite entry) t = false) as ->; [| done].
  apply andb_false_iff. unfold isReady.
  destruct Hr as [H|H]; [left | right]; by apply bool_decide_eq_false.
Qed.

Lemma processButton_attached b t entry :
  buttonLoadQueue t !! b = Some entry →
  buttonLoadQueueEntry.label entry ∈ akara.Ready (World t) →
  buttonLoadQueueEntry.sprite entry ∈ akara.Ready (World t) →
  processButton ext b t = processButtonStates ext b (attached b entry t).
Proof.
  intros He Hl Hs. unfold processButton. rewrite He.
  apply isReady_true in Hl, Hs. rewrite Hl, Hs. reflexivity.
Qed.

Lemma attached_frame b entry t :
  akara.Ready (World (attached b entry t)) = akara.Ready (World t) ∧
  buttonLoadQueue (attached b entry t) = buttonLoadQueue t ∧
  akara.nextEntityID (World (attached b entry t)) = akara.nextEntityID (World t) ∧
  spriteRequests (attached b entry t) = spriteRequests t.
Proof.
  unfold attached. destruct (akara.Sprite _ !! _); destruct (found _); done.
Qed.

Lemma attached_Button b entry t button :
  akara.Button (World t) !! b = Some button →
  ∃ button',
    akara.Button (World (attached b entry t)) !! b = Some button' ∧
    d2components.States button' = d2components.States button ∧
    d2components.Layout button' = d2components.Layout button ∧
    (∀ sprite, akara.Sprite (World t) !! buttonLoadQueueEntry.sprite entry = Some sprite →
       d2components.ButtonSprite button' = d2components.Sprite_ sprite).
Proof.
  intros Hb. unfold attached. simpl.
  destruct (akara.Sprite (World t) !! _) as [sprite|] eqn:Hs; destruct (found _); simpl;
    rewrite ?lookup_alter_eq, lookup_Add_eq, Hb; simpl;
    eexists; (split; [reflexivity |]); (split; [done |]); (split; [done |]);
    intros sp Hsp; by simplify_eq.
Qed.


Lemma attached_node b entry t sprite :
  akara.Sprite (World t) !! buttonLoadQueueEntry.sprite entry = Some sprite →
  akara.SceneGraphNode (World (attached b entry t)) !! buttonLoadQueueEntry.sprite entry
  = Some (Some b).
Proof.
  intros Hs. unfold attached. simpl. rewrite Hs. unfold SetParent, akara.AddWith.
  destruct (found _); simpl.
  - destruct (decide (buttonLoadQueueEntry.label entry = buttonLoadQueueEntry.sprite entry))
      as [->|Hne].
    + by rewrite lookup_insert_eq.
    + rewrite lookup_insert_ne by done. by rewrite lookup_insert_eq.
  - by rewrite lookup_insert_eq.
Qed.

(** X15. The drain step that finds the label, the sprite and the five state
    sprites Ready finishes the button: it is marked Ready and leaves the
    queue, no entity is allocated, and the button holds its sprite, which
    hangs below it in the scene graph. *)
Theorem processButton_finalizes (b : N) (t : UIWidgetFactory)
    (entry : buttonLoadQueueEntry.t) (button : d2components.Button) :
  buttonLoadQueue t !! b = Some entry →
  buttonLoadQueueEntry.label entry ∈ akara.Ready (World t) →
  buttonLoadQueueEntry.sprite entry ∈ akara.Ready (World t) →
  akara.Button (World t) !! b = Some button →
  (0 < States.Normal (d2components.States button))%N →
  statesReady (d2components.States button) t →
  ∃ t' button',
    processButton ext b t = Ok t' ∧
    akara.Ready (World t') = {[b]} ∪ akara.Ready (World t) ∧
    buttonLoadQueue t' = delete b (buttonLoadQueue t) ∧
    akara.nextEntityID (World t') = akara.nextEntityID (World t) ∧
    akara.Button (World t') !! b = Some button' ∧
    d2components.States button' = d2components.States button ∧
    (∀ sprite, akara.Sprite (World t) !! buttonLoadQueueEntry.sprite entry = Some sprite →
       d2components.ButtonSprite button' = d2components.Sprite_ sprite ∧
       akara.SceneGraphNode (World t') !! buttonLoadQueueEntry.sprite entry
       = Some (Some b)).
Proof.
  intros He Hl Hs Hb Hn (H1 & H2 & H3 & H4 & H5).
  rewrite (processButton_attached b t entry He Hl Hs).
  destruct (attached_frame b entry t) as (Hr & Hq & Hx & _).
  destruct (attached_Button b entry t button Hb) as (button' & Hb' & Hst & _ & Hsp).
  pose proof (λ sprite, attached_node b entry t sprite) as Hnode.
  set (t1 := attached b entry t) in *.
  unfold processButtonStates, renderButtonStates. rewrite Hb', Hst.
  apply N.ltb_lt in Hn. rewrite Hn.
  assert (∀ e, e ∈ akara.Ready (World t) → isReady e t1 = true) as Hrd.
  { intros e Hin. apply isReady_true. by rewrite Hr. }
  rewrite !Hrd by done. simpl.
  eexists _, button'. split; [reflexivity |]. simpl.
  rewrite Hr, Hq, Hx. do 5 (split; [done |]).
  intros sprite Hsprite. split; [by apply Hsp | by eapply Hnode].
Qed.

Lemma processButtonStates_construct b t button :
  akara.Button (World t) !! b = Some button →
  States.Normal (d2components.States button) = 0%N →
  ∃ t1 st,
    processButtonStates ext b t = Ok t1 ∧
    akara.nextEntityID (World t1)
    = (akara.nextEntityID (World t) + stateSprites (d2components.Layout button))%N ∧
    akara.Ready (World t1) = akara.Ready (World t) ∧
    buttonLoadQueue t1 = buttonLoadQueue t ∧
    akara.Button (World t1) !! b = Some (withStates st button) ∧
    States.Normal st = akara.nextEntityID (World t).
Proof.
  intros Hb Hn. unfold processButtonStates, stateSprites. rewrite Hb, Hn. simpl.
  unfold SpriteFactory.SegmentedSprite, NewEntity, akara.NewEntity.
  destruct (d2button.HasImage _ && d2button.AllowFrameChange _); simpl;
    [destruct (d2button.DisabledFrame _ =? isNotSegmented)%Z |]; simpl;
    (eexists _, _; split; [reflexivity |]; simpl; rewrite lookup_alter_eq, Hb; simpl;
     split; [lia |]; done).
Qed.

Lemma processButtonStates_processed b t button t' :
  akara.Button (World t) !! b = Some button →
  (0 < States.Normal (d2components.States button))%N →
  processButtonStates ext b t = Ok t' →
  akara.nextEntityID (World t') = akara.nextEntityID (World t) ∧
  spriteRequests t' = spriteRequests t.
Proof.
  intros Hb Hn%N.ltb_lt Hop. unfold processButtonStates, renderButtonStates in Hop.
  rewrite Hb, Hn in Hop. destruct (negb _); by simplify_eq.
Qed.

(** X16. The state sprites are requested once.  The first drain step with the
    label and the sprite Ready requests one, four or five sprites, according
    to the layout, and records them in the button, which stays queued and is
    not marked; the next drain step requests nothing. *)
Theorem state_sprites_requested_once (b : N) (t : UIWidgetFactory)
    (entry : buttonLoadQueueEntry.t) (button : d2components.Button) :
  buttonLoadQueue t !! b = Some entry →
  buttonLoadQueueEntry.label entry ∈ akara.Ready (World t) →
  buttonLoadQueueEntry.sprite entry ∈ akara.Ready (World t) →
  akara.Button (World t) !! b = Some button →
  States.Normal (d2components.States button) = 0%N →
  (0 < akara.nextEntityID (World t))%N →
  ∃ t1 button1,
    processButton ext b t = Ok t1 ∧
    akara.nextEntityID (World t1)
    = (akara.nextEntityID (World t) + stateSprites (d2components.Layout button))%N ∧
    akara.Ready (World t1) = akara.Ready (World t) ∧
    buttonLoadQueue t1 = buttonLoadQueue t ∧
    akara.Button (World t1) !! b = Some button1 ∧
    States.Normal (d2components.States button1) = akara.nextEntityID (World t) ∧
    (∀ t2, processButton ext b t1 = Ok t2 →
       akara.nextEntityID (World t2) = akara.nextEntityID (World t1) ∧
       spriteRequests t2 = spriteRequests t1).
Proof.
  intros He Hl Hs Hb Hn Hpos.
  rewrite (processButton_attached b t entry He Hl Hs).
  destruct (attached_frame b entry t) as (Hr & Hq & Hx & _).
  destruct (attached_Button b entry t button Hb) as (button' & Hb' & Hst & Hlay & _).
  set (t0 := attached b entry t) in *. clearbody t0.
  destruct (processButtonStates_construct b t0 button' Hb') as
    (t1 & st & Hop & H1 & H2 & H3 & H4 & H5); [congruence |].
  exists t1, (withStates st button'). split; [done |].
  split; [congruence |]. split; [congruence |]. split; [congruence |].
  split; [done |]. split; [simpl; congruence |].
  intros t2 Hop2.
  rewrite (processButton_attached b t1 entry) in Hop2; [| congruence ..].
  destruct (attached_frame b entry t1) as (_ & _ & Hx1 & Hq1).
  destruct (attached_Button b entry t1 _ H4) as (button2 & Hb2 & Hst2 & _).
  set (t1' := attached b entry t1) in *. clearbody t1'.
  destruct (processButtonStates_processed b t1' button2 t2 Hb2) as [Ha Hb3]; [| done |].
  - rewrite Hst2. simpl. lia.
  - split; congruence.
Qed.

End ProcessButton.

(** ** The drain step of a checkbox *)

Section ProcessCheckbox.

Variable ext : Externals.

(** X17. The drain step of a queued checkbox whose sprite is Ready finishes
    it: the checkbox is clickable with the left mouse button inside its
    clickable rectangle, has a texture slot, is marked Ready and leaves the
    queue; its sprite, when the sprite entity has one, is stored in the
    checkbox and hung below it in the scene graph. *)
Theorem processCheckbox_finalizes (c : N) (t : UIWidgetFactory)
    (entry : checkboxLoadQueueEntry.t) (checkbox : d2components.Checkbox) :
  checkboxLoadQueue t !! c = Some entry →
  checkboxLoadQueueEntry.sprite entry ∈ akara.Ready (World t) →
  akara.Checkbox (World t) !! c = Some checkbox →
  akara.Interactive (World t) !! c = None →
  let t' := processCheckbox ext c t in
  akara.Ready (World t') = {[c]} ∪ akara.Ready (World t) ∧
  checkboxLoadQueue t' = delete c (checkboxLoadQueue t) ∧
  akara.Interactive (World t') !! c
  = Some (d2components.mkInteractive (Some d2components.MouseButtonLeft)
            (d2checkbox.ClickableRect (d2components.CheckboxLayout checkbox))
            (Some (d2components.ActivateCheckbox c))) ∧
  is_Some (akara.Texture (World t') !! c) ∧
  akara.nextEntityID (World t') = akara.nextEntityID (World t) ∧
  (∀ sprite, akara.Sprite (World t) !! checkboxLoadQueueEntry.sprite entry = Some sprite →
     akara.Checkbox (World t') !! c
     = Some (withCheckboxSprite (d2components.Sprite_ sprite) checkbox) ∧
     akara.SceneGraphNode (World t') !! checkboxLoadQueueEntry.sprite entry
     = Some (Some c)) ∧
  (akara.Sprite (World t) !! checkboxLoadQueueEntry.sprite entry = None →
     akara.Checkbox (World t') !! c = Some checkbox).
Proof.
  intros He Hs%isReady_true Hc _ t'. subst t'. unfold processCheckbox. rewrite He, Hs. simpl.
  destruct (akara.Sprite (World t) !! _) as [sprite|] eqn:Hsp; simpl;
    rewrite ?lookup_alter_eq, !lookup_Add_eq, Hc; simpl.
  - do 2 (split; [done |]).
    split; [unfold akara.AddWith; by rewrite lookup_insert_eq |].
    split; [eauto |]. split; [done |].
    split; [| done]. intros ? [= <-].
    split; [done |]. unfold akara.AddWith. by rewrite lookup_insert_eq.
  - do 2 (split; [done |]).
    split; [unfold akara.AddWith; by rewrite lookup_insert_eq |].
    split; [eauto |]. split; [done |].
    split; [done |]. done.
Qed.

(** X18. A checkbox that is not queued, or whose sprite is not Ready, is left
    as it is; and a second drain step of the same checkbox changes nothing,
    whatever the first one did. *)
Theorem processCheckbox_idempotent :
  (∀ c t, checkboxLoadQueue t !! c = None → processCheckbox ext c t = t) ∧
  (∀ c t entry, checkboxLoadQueue t !! c = Some entry →
     (checkboxLoadQueueEntry.sprite entry ∉ akara.Ready (World t)) →
     processCheckbox ext c t = t) ∧
  (∀ c t, processCheckbox ext c (processCheckbox ext c t) = processCheckbox ext c t).
Proof.
  assert (H1 : ∀ c t, checkboxLoadQueue t !! c = None → processCheckbox ext c t = t).
  { intros c t H. unfold processCheckbox. by rewrite H. }
  split; [done |]. split.
  - intros c t entry He Hr. unfold processCheckbox. rewrite He.
    apply (bool_decide_eq_false_2 _) in Hr. unfold isReady. by rewrite Hr.
  - intros c t.
    destruct (processCheckbox_inv ext c t) as [Heq | (entry & _ & _ & _ & _ & Hq & _)].
    + by rewrite !Heq.
    + apply H1. rewrite Hq. apply lookup_delete_eq.
Qed.

End ProcessCheckbox.

(** ** Updating finished widgets *)

Section Updates.

(** X19. updateButton copies the textures of the five state sprites into the
    button once all five exist, and shows the current one; two states that
    are the same sprite get the same surface.  Until then it changes
    nothing. *)
Theorem updateButton_surfaces (b : N) (t : UIWidgetFactory) (button : d2components.Button) :
  akara.Button (World t) !! b = Some button →
  let st := d2components.States button in
  let tx := akara.Texture (World t) in
  let t' := updateButton b t in
  (∀ normal pressed toggled pressedToggled disabled,
     tx !! States.Normal st = Some normal → tx !! States.Pressed st = Some pressed →
     tx !! States.Toggled st = Some toggled →
     tx !! States.PressedToggled st = Some pressedToggled →
     tx !! States.Disabled st = Some disabled →
     let button' := withSurfaces
                      (Surfaces.mk normal pressed toggled pressedToggled disabled) button in
     akara.Button (World t') !! b = Some button' ∧
     akara.Texture (World t') !! b = Some (GetCurrentTexture button') ∧
     (States.Disabled st = States.Normal st →
        Surfaces.Disabled (d2components.Surfaces button')
        = Surfaces.Normal (d2components.Surfaces button'))) ∧
  (tx !! States.Normal st = None ∨ tx !! States.Pressed st = None ∨
   tx !! States.Toggled st = None ∨ tx !! States.PressedToggled st = None ∨
   tx !! States.Disabled st = None → t' = t).
Proof.
  intros Hb st tx t'. subst t'. unfold updateButton. rewrite Hb. fold st. fold tx. split.
  - intros normal pressed toggled pressedToggled disabled H1 H2 H3 H4 H5.
    rewrite H1, H2, H3, H4, H5. simpl.
    split; [by rewrite lookup_insert_eq |]. split; [by rewrite lookup_insert_eq |].
    intros He. rewrite He in H5. congruence.
  - intros H. destruct (tx !! States.Normal st); [| done].
    destruct (tx !! States.Pressed st); [| done].
    destruct (tx !! States.Toggled st); [| done].
    destruct (tx !! States.PressedToggled st); [| done].
    destruct (tx !! States.Disabled st); [| done].
    naive_solver.
Qed.

(** X20. updateLabel gives a label the font of its BitmapFont component and
    keeps its text; without a Label or a BitmapFont component it changes
    nothing. *)
Theorem updateLabel_font (l : N) (t : UIWidgetFactory) :
  (akara.Label (World t) !! l = None ∨ akara.BitmapFont (World t) !! l = None →
     updateLabel l t = Ok t) ∧
  (∀ label bmf rs r,
     akara.Label (World t) !! l = Some label →
     akara.BitmapFont (World t) !! l = Some bmf →
     RenderSystem t = Some rs → renderer rs = Some r →
     ∃ t' label',
       updateLabel l t = Ok t' ∧
       akara.Label (World t') !! l = Some label' ∧
       d2components.Font label' = bmf ∧
       d2components.text label' = d2components.text label ∧
       akara.BitmapFont (World t') = akara.BitmapFont (World t)).
Proof.
  split.
  - unfold updateLabel. intros [-> | H]; [done |].
    destruct (akara.Label (World t) !! l); [| done]. by rewrite H.
  - intros label bmf rs r Hl Hb Hrs Hr. unfold updateLabel. rewrite Hl, Hb.
    set (label1 := if bool_decide (d2components.Font label ≠ bmf)
                   then SetFont bmf label else label).
    assert (Hf : d2components.Font label1 = bmf).
    { subst label1. by case_bool_decide. }
    assert (Ht : d2components.text label1 = d2components.text label).
    { subst label1. by case_bool_decide. }
    clearbody label1.
    set (label2 := match akara.Color (World t) !! l with
                   | Some col => SetBackgroundColor col label1
                   | None => label1
                   end).
    assert (Hf2 : d2components.Font label2 = bmf ∧
                  d2components.text label2 = d2components.text label).
    { subst label2. by destruct (akara.Color (World t) !! l). }
    clearbody label2. destruct Hf2 as [Hf2 Ht2].
    destruct (d2components.dirty label2); simpl.
    + rewrite Hrs, Hr. eexists _, _. split; [reflexivity |]. simpl.
      rewrite lookup_insert_eq. split; [reflexivity |]. done.
    + eexists _, _. split; [reflexivity |]. simpl.
      rewrite lookup_insert_eq. split; [reflexivity |]. done.
Qed.

End Updates.

(** ** The drain step of a label *)

Section ProcessLabel.

(** X21. The drain step of a label that carries its font finishes it: the
    font's sprite is bound to the renderer, the label object gets the font,
    the glyph-table entity is removed with its components, and the label is
    marked Ready and leaves the queue.  The cache and the fonts are
    untouched. *)
Theorem processLabel_finalizes (l : N) (t : UIWidgetFactory)
    (entry : labelLoadQueueEntry.t) (bmf : nat) (font : d2bitmapfont.BitmapFont)
    (rs : RenderSystemT) (label : d2components.Label) :
  labelLoadQueue t !! l = Some entry →
  akara.BitmapFont (World t) !! l = Some (Some bmf) →
  fonts t !! bmf = Some font →
  RenderSystem t = Some rs →
  akara.Label (World t) !! l = Some label →
  labelLoadQueueEntry.table entry ≠ l →
  ∃ t',
    processLabel l t = Ok t' ∧
    akara.Ready (World t') = {[l]} ∪ (akara.Ready (World t) ∖ {[labelLoadQueueEntry.table entry]}) ∧
    labelLoadQueue t' = delete l (labelLoadQueue t) ∧
    boundRenderer t' !! d2bitmapfont.Sprite font = Some (renderer rs) ∧
    akara.Label (World t') !! l = Some (SetFont (Some bmf) label) ∧
    akara.BitmapFont (World t') !! l = Some (Some bmf) ∧
    akara.File (World t') !! labelLoadQueueEntry.table entry = None ∧
    akara.FontTable (World t') !! labelLoadQueueEntry.table entry = None ∧
    bitmapFontCache t' = bitmapFontCache t ∧
    fonts t' = fonts t.
Proof.
  intros He Hb Hf Hrs Hl Hne.
  rewrite (processLabel_finalize l t bmf font (renderer rs) Hb Hf);
    [| unfold t_renderer; by rewrite Hrs].
  eexists. split; [reflexivity |]. rewrite He. simpl.
  split; [done |]. split; [done |].
  split; [by rewrite lookup_insert_eq |].
  split.
  { rewrite lookup_delete_ne by done. unfold akara.AddWith.
    by rewrite lookup_insert_eq, Hl. }
  split; [by rewrite lookup_delete_ne |].
  split; [apply lookup_delete_eq |]. split; [apply lookup_delete_eq |]. done.
Qed.

(** X22. A label whose font has to be built needs two drain steps: the one
    that builds the font attaches it and leaves the label queued and the
    Ready markers as they are; the next one finishes the label. *)
Theorem label_needs_two_steps (l : N) (t : UIWidgetFactory)
    (entry : labelLoadQueueEntry.t) (tableFile : string) (sprite : d2components.Sprite)
    (data : list Byte.byte) (img : N) (rs : RenderSystemT) :
  akara.BitmapFont (World t) !! l = None →
  labelLoadQueue t !! l = Some entry →
  akara.FontTable (World t) !! labelLoadQueueEntry.table entry = Some (Some data) →
  akara.File (World t) !! labelLoadQueueEntry.table entry = Some tableFile →
  akara.Sprite (World t) !! labelLoadQueueEntry.sprite entry = Some sprite →
  d2components.Sprite_ sprite = Some img →
  d2cache.Retrieve
    (fontCacheKey tableFile (d2components.SpritePath sprite) (d2components.PalettePath sprite))
    (bitmapFontCache t) = None →
  RenderSystem t = Some rs →
  ∃ t1 t2,
    processLabel l t = Ok t1 ∧
    akara.Ready (World t1) = akara.Ready (World t) ∧
    labelLoadQueue t1 = labelLoadQueue t ∧
    akara.BitmapFont (World t1) !! l = Some (Some (length (fonts t))) ∧
    processLabel l t1 = Ok t2 ∧
    l ∈ akara.Ready (World t2) ∧
    labelLoadQueue t2 !! l = None ∧
    boundRenderer t2 !! img = Some (renderer rs).
Proof.
  intros Hb He Hft Hfile Hsp Himg Hmiss Hrs.
  rewrite (processLabel_materialize l t Hb).
  rewrite (addBitmapFontForLabel_miss l t entry tableFile sprite data img _
             He Hft Hfile Hsp Himg eq_refl Hmiss).
  set (r := d2cache.Insert _ _ _ _). clearbody r.
  assert (Hfont : (fonts t ++ [d2bitmapfont.New img data White])%list !! length (fonts t)
                  = Some (d2bitmapfont.New img data White)).
  { by rewrite lookup_app_r, Nat.sub_diag by lia. }
  destruct (snd r); simpl;
    (eexists _, _; split; [reflexivity |]; simpl;
     split; [done |]; split; [done |];
     split; [unfold akara.AddWith; by rewrite lookup_insert_eq |];
     erewrite processLabel_finalize;
       [| simpl; unfold akara.AddWith; by rewrite lookup_insert_eq
        | simpl; exact Hfont
        | unfold t_renderer; simpl; by rewrite Hrs ];
     split; [reflexivity |]; simpl;
     split; [set_solver |]; split; [apply lookup_delete_eq |]; by rewrite lookup_insert_eq).
Qed.

(** X23. While the glyph table or the sprite image is not decoded, the drain
    step of a label that misses the cache changes nothing; when the cache
    has the key, the same label is finished with the cached font. *)
Theorem undecoded_label (l : N) (t : UIWidgetFactory)
    (entry : labelLoadQueueEntry.t) (tableFile : string) (sprite : d2components.Sprite)
    (table : option (list Byte.byte)) :
  akara.BitmapFont (World t) !! l = None →
  labelLoadQueue t !! l = Some entry →
  akara.FontTable (World t) !! labelLoadQueueEntry.table entry = Some table →
  akara.File (World t) !! labelLoadQueueEntry.table entry = Some tableFile →
  akara.Sprite (World t) !! labelLoadQueueEntry.sprite entry = Some sprite →
  table = None ∨ d2components.Sprite_ sprite = None →
  let key := fontCacheKey tableFile (d2components.SpritePath sprite)
               (d2components.PalettePath sprite) in
  (d2cache.Retrieve key (bitmapFontCache t) = None → processLabel l t = Ok t) ∧
  (∀ iface, d2cache.Retrieve key (bitmapFontCache t) = Some iface →
     ∃ t', processLabel l t = Ok t' ∧
           l ∈ akara.Ready (World t') ∧
           labelLoadQueue t' !! l = None ∧
           akara.BitmapFont (World t') !! l = Some (Some iface)).
Proof.
  intros Hb He Hft Hfile Hsp Hnil key.
  rewrite (processLabel_materialize l t Hb). split.
  - intros Hmiss. f_equal. unfold addBitmapFontForLabel, createBitmapFont.
    rewrite He, Hft, Hsp, Hfile. simpl. fold key. rewrite Hmiss.
    destruct Hnil as [-> | ->]; [by destruct (d2components.Sprite_ sprite) | done].
  - intros iface Hhit.
    rewrite (addBitmapFontForLabel_hit l t key iface); [| | | done].
    + eexists. split; [reflexivity |]. simpl.
      split; [set_solver |]. split; [apply lookup_delete_eq |].
      unfold akara.AddWith. by rewrite lookup_insert_eq.
    + by exists entry, table, tableFile, sprite.
    + exact (cacheKeyOf_intro l t entry tableFile sprite He Hfile Hsp).
Qed.

End ProcessLabel.

(** ** The state sprites and the capacity warning *)

Section Frames.

Variable ext : Externals.

(** X24. The frames of the state sprites: the normal sprite shows the
    layout's base frame; for a layout whose image changes frame the pressed,
    toggled and pressed-toggled sprites show the base frame plus the offset
    of the state, and the disabled sprite, when the layout has a disabled
    frame, shows that frame.  All of them use the image, palette and
    segments of the layout. *)
Theorem state_sprite_frames (b : N) (t : UIWidgetFactory) (button : d2components.Button) :
  akara.Button (World t) !! b = Some button →
  States.Normal (d2components.States button) = 0%N →
  let layout := d2components.Layout button in
  let request frame :=
    Some (mkRequest 0 0 (d2button.SpritePath layout) (d2button.PalettePath layout)
            (Some (d2button.XSegments layout, d2button.YSegments layout, frame))) in
  ∃ t' st,
    processButtonStates ext b t = Ok t' ∧
    akara.Button (World t') !! b = Some (withStates st button) ∧
    spriteRequests t' !! States.Normal st = request (d2button.BaseFrame layout) ∧
    (d2button.HasImage layout = true → d2button.AllowFrameChange layout = true →
       spriteRequests t' !! States.Pressed st
       = request (int (d2button.BaseFrame layout + ButtonStatePressed ext)) ∧
       spriteRequests t' !! States.Toggled st
       = request (int (d2button.BaseFrame layout + ButtonStateToggled ext)) ∧
       spriteRequests t' !! States.PressedToggled st
       = request (int (d2button.BaseFrame layout + ButtonStatePressedToggled ext)) ∧
       (d2button.DisabledFrame layout ≠ isNotSegmented →
          spriteRequests t' !! States.Disabled st
          = request (d2button.DisabledFrame layout))).
Proof.
  intros Hb Hn layout request. unfold processButtonStates. rewrite Hb, Hn. simpl.
  fold layout. unfold SpriteFactory.SegmentedSprite, NewEntity, akara.NewEntity.
  set (n := akara.nextEntityID (World t)).
  destruct (d2button.HasImage layout) eqn:Hi;
    destruct (d2button.AllowFrameChange layout) eqn:Ha; simpl;
    [destruct (d2button.DisabledFrame layout =? isNotSegmented)%Z eqn:Hd; simpl | ..];
    (eexists _, _; split; [reflexivity |]; simpl; rewrite lookup_alter_eq, Hb; simpl;
     split; [reflexivity |]; simpl; fold n).
  - split; [rewrite !lookup_insert_ne by lia; by rewrite lookup_insert_eq |].
    intros _ _.
    split; [rewrite !lookup_insert_ne by lia; by rewrite lookup_insert_eq |].
    split; [rewrite !lookup_insert_ne by lia; by rewrite lookup_insert_eq |].
    split; [by rewrite lookup_insert_eq |].
    intros H. by apply Z.eqb_eq in Hd.
  - split; [rewrite !lookup_insert_ne by lia; by rewrite lookup_insert_eq |].
    intros _ _.
    split; [rewrite !lookup_insert_ne by lia; by rewrite lookup_insert_eq |].
    split; [rewrite !lookup_insert_ne by lia; by rewrite lookup_insert_eq |].
    split; [rewrite !lookup_insert_ne by lia; by rewrite lookup_insert_eq |].
    intros _. by rewrite lookup_insert_eq.
  - split; [by rewrite lookup_insert_eq | done].
  - split; [by rewrite lookup_insert_eq | done].
  - split; [by rewrite lookup_insert_eq | done].
Qed.

End Frames.

Section WarningLog.

(** X25. The warning about a rejected cache insert is handed to the logger:
    run by a logger of level Warning or above it writes one line, the yellow
    [WARNING] line when colours are on and no prefix is set; a logger below
    Warning drops it. *)
Theorem capacity_warning_is_logged (l : N) (t : UIWidgetFactory)
    (entry : labelLoadQueueEntry.t) (tableFile : string) (sprite : d2components.Sprite)
    (data : list Byte.byte) (img : N) (err : d2cache.error) (lg : Logger.Logger) :
  akara.BitmapFont (World t) !! l = None →
  labelLoadQueue t !! l = Some entry →
  akara.FontTable (World t) !! labelLoadQueueEntry.table entry = Some (Some data) →
  akara.File (World t) !! labelLoadQueueEntry.table entry = Some tableFile →
  akara.Sprite (World t) !! labelLoadQueueEntry.sprite entry = Some sprite →
  d2components.Sprite_ sprite = Some img →
  let key := fontCacheKey tableFile (d2components.SpritePath sprite)
               (d2components.PalettePath sprite) in
  d2cache.Retrieve key (bitmapFontCache t) = None →
  snd (d2cache.Insert key (length (fonts t)) 1 (bitmapFontCache t)) = Some err →
  ∃ t' g,
    processLabel l t = Ok t' ∧
    goroutines t' = (goroutines t ++ [g])%list ∧
    ((Logger.level lg < Logger.LogLevelWarning)%Z → Logger.run g lg = lg) ∧
    ((Logger.LogLevelWarning ≤ Logger.level lg)%Z →
       Logger.prefix lg = "" → Logger.colorEnabled lg = true →
       Logger.Writer (Logger.run g lg)
       = (Logger.Writer lg
          ++ [(Logger.esc ++ "[33m[WARNING]" ++ Logger.colorEscapeReset ++ " "
               ++ d2cache.Error err ++ Logger.crlf)%string])%list).
Proof.
  intros Hb He Hft Hfile Hsp Himg key Hmiss Hrej.
  rewrite (processLabel_materialize l t Hb).
  rewrite (addBitmapFontForLabel_miss l t entry tableFile sprite data img key
             He Hft Hfile Hsp Himg eq_refl Hmiss).
  rewrite Hrej. eexists _, _. split; [reflexivity |]. simpl.
  split; [reflexivity |]. unfold Logger.run, Logger.print. simpl. split.
  - intros H. by destruct (Z.ltb_spec (Logger.level lg) Logger.LogLevelWarning); [| lia].
  - intros H Hp Hc. destruct (Z.ltb_spec (Logger.level lg) Logger.LogLevelWarning); [lia |].
    rewrite Hp, Hc. reflexivity.
Qed.

Lemma capacity_warning_is_logged_witness :
  ∃ t' g,
    processLabel 1 Demo.crowded = Ok t' ∧
    goroutines t' = (goroutines Demo.crowded ++ [g])%list ∧
    ((Logger.level Logger.NewLogger < Logger.LogLevelWarning)%Z →
       Logger.run g Logger.NewLogger = Logger.NewLogger) ∧
    ((Logger.LogLevelWarning ≤ Logger.level Logger.NewLogger)%Z →
       Logger.prefix Logger.NewLogger = "" → Logger.colorEnabled Logger.NewLogger = true →
       Logger.Writer (Logger.run g Logger.NewLogger)
       = (Logger.Writer Logger.NewLogger
          ++ [(Logger.esc ++ "[33m[WARNING]" ++ Logger.colorEscapeReset ++ " "
               ++ d2cache.Error d2cache.CapacityError ++ Logger.crlf)%string])%list).
Proof.
  apply (capacity_warning_is_logged 1 Demo.crowded (labelLoadQueueEntry.mk 2 3)
           "F.tbl" (d2components.mkSprite (Some 100%N) "F.dc6" "P") [] 100
           d2cache.CapacityError Logger.NewLogger); vm_compute; reflexivity.
Defined.

End WarningLog.

(** ** Queues and Ready markers over a run *)

Lemma keeps_refl t : keeps t t.
Proof. constructor; auto. Qed.

Lemma keeps_trans t t1 t2 : keeps t t1 → keeps t1 t2 → keeps t t2.
Proof.
  intros [A1 A2 A3 A4 A5 A6 A7 A8] [B1 B2 B3 B4 B5 B6 B7 B8].
  assert (Hw : widgets t1 = widgets t) by (unfold widgets; congruence).
  constructor; try congruence; auto.
  - lia.
  - set_solver.
  - intros e He. destruct (B7 e He) as [H1|H1]; [| by right].
    destruct (A7 e H1) as [H|H]; [by left | right; set_solver].
  - intros e He Hr. apply B8; [by rewrite Hw | by apply A8].
Qed.

Lemma keeps_pending t t' : pending t → keeps t t' → pending t'.
Proof.
  intros [P1 P2 P3 P4] [A1 A2 A3 A4 A5 A6 A7 A8].
  assert (Hw : widgets t' = widgets t) by (unfold widgets; congruence).
  constructor.
  - lia.
  - by rewrite Hw.
  - intros l entry He. rewrite Hw. destruct (P3 l entry (A5 l entry He)). split; [done | lia].
  - intros e He Hr. destruct (A7 e Hr) as [H|H]; [| done]. apply (P4 e); [set_solver | done].
Qed.

(** The fields of [keeps] for a state computed from [t]; [x] is the entity
    the step may have marked Ready and taken from its queue. *)
Ltac solve_keeps_at x :=
  constructor; unfold_kinds; unfold queued; simpl; doms;
  [ lia
  | apply set_eq; intros ?y; destruct (decide (y = x)) as [->|]; set_solver
  | apply set_eq; intros ?y; destruct (decide (y = x)) as [->|]; set_solver
  | apply set_eq; intros ?y; destruct (decide (y = x)) as [->|]; set_solver
  | intros ? ?; rewrite ?lookup_delete_Some; naive_solver
  | set_solver
  | intros ?y ?Hy; destruct (decide (y = x)) as [->|]; [right | left]; set_solver
  | set_solver ].
Ltac solve_keeps :=
  constructor; unfold_kinds; unfold queued; simpl; doms;
  [ lia | set_solver | set_solver | set_solver | done | done | by left | done ].

Section Pending.

Variable ext : Externals.

Lemma updateButton_keeps b t : keeps t (updateButton b t).
Proof.
  unfold updateButton.
  destruct (akara.Button (World t) !! b) as [button|] eqn:Hb; [| apply keeps_refl].
  apply elem_of_dom_2 in Hb.
  repeat (match goal with
          | |- context [match ?x !! ?k with _ => _ end] => destruct (x !! k)
          end; try apply keeps_refl).
  solve_keeps.
Qed.

Lemma updateCheckbox_keeps c t t' : updateCheckbox c t = Ok t' → keeps t t'.
Proof.
  intros Hop. unfold updateCheckbox in Hop.
  destruct (akara.Checkbox (World t) !! c); [| simplify_eq; apply keeps_refl].
  destruct (d2components.CheckboxSprite _); [| discriminate].
  destruct (akara.Texture (World t) !! c); simplify_eq. solve_keeps.
Qed.

Lemma updateLabel_keeps l t t' : updateLabel l t = Ok t' → keeps t t'.
Proof.
  intros Hop. unfold updateLabel in Hop.
  destruct (akara.Label (World t) !! l); [| simplify_eq; apply keeps_refl].
  destruct (akara.BitmapFont (World t) !! l); [| simplify_eq; apply keeps_refl].
  destruct (negb _); [simplify_eq; solve_keeps |].
  simpl in Hop. destruct (RenderSystem t) as [rs|]; [| discriminate].
  destruct (renderer rs); [| discriminate]. simplify_eq. solve_keeps.
Qed.


Lemma processCheckbox_keeps c t : wf t → keeps t (processCheckbox ext c t).
Proof.
  intros [_ H2 H3 H4 _]. unfold processCheckbox.
  destruct (checkboxLoadQueue t !! c) as [entry|] eqn:Hq; [| apply keeps_refl].
  destruct (isReady _ t) eqn:Hr; simpl; [| apply keeps_refl].
  apply elem_of_dom_2 in Hq. unfold_kinds.
  destruct (akara.Sprite (World t) !! _); simpl; solve_keeps_at c.
Qed.

Lemma renderButtonStates_keeps b t t' :
  wf t → b ∈ dom (akara.Button (World t)) → renderButtonStates b t = Ok t' → keeps t t'.
Proof.
  intros [_ H2 H3 H4 _] Hb Hop. unfold renderButtonStates in Hop.
  destruct (akara.Button (World t) !! b) as [button|]; [| discriminate].
  destruct (negb _); simplify_eq; [apply keeps_refl |].
  unfold_kinds. solve_keeps_at b.
Qed.

Lemma processButtonStates_keeps b t t' :
  wf t → processButtonStates ext b t = Ok t' → keeps t t'.
Proof.
  intros Hwf Hop. unfold processButtonStates in Hop.
  destruct (akara.Button (World t) !! b) as [button|] eqn:Hb; [| discriminate].
  apply elem_of_dom_2 in Hb.
  destruct (0 <? _)%N; [by eapply renderButtonStates_keeps |].
  simpl in Hop. clear Hwf.
  destruct (d2button.HasImage _ && d2button.AllowFrameChange _);
    [destruct (negb _) |]; simpl in Hop; simplify_eq; solve_keeps.
Qed.

Lemma processButton_keeps b t t' :
  wf t → processButton ext b t = Ok t' → keeps t t'.
Proof.
  intros Hwf Hop. unfold processButton in Hop.
  destruct (buttonLoadQueue t !! b) as [entry|] eqn:Hq; [| simplify_eq; apply keeps_refl].
  destruct (negb _) eqn:Hr; [simplify_eq; apply keeps_refl |].
  apply elem_of_dom_2 in Hq.
  assert (Hc : b ∈ buttons t) by (unfold buttons; set_solver).
  simpl in Hop.
  destruct (akara.Sprite (World t) !! _); simpl in Hop;
    destruct (found _); simpl in Hop;
    (eapply keeps_trans;
       [| eapply processButtonStates_keeps; [| exact Hop]];
       [clear Hwf Hop; solve_keeps | preserved]).
Qed.

Lemma addBitmapFontForLabel_keeps l t : wf t → keeps t (addBitmapFontForLabel l t).
Proof.
  intros [_ H2 H3 H4 _]. unfold addBitmapFontForLabel.
  destruct (labelLoadQueue t !! l) as [entry|] eqn:Hq; [| apply keeps_refl].
  destruct (negb _); [apply keeps_refl |].
  destruct (akara.File (World t) !! _); [| apply keeps_refl].
  destruct (akara.Sprite (World t) !! _) as [sprite|] eqn:Hs; [| apply keeps_refl].
  apply elem_of_dom_2 in Hq. unfold_kinds.
  destruct (d2cache.Retrieve _ _); [solve_keeps_at l |].
  unfold createBitmapFont. rewrite Hs.
  destruct (akara.FontTable (World t) !! _) as [[data|]|];
    destruct (d2components.Sprite_ sprite); try apply keeps_refl.
  simpl. destruct (d2cache.Insert _ _ _ _) as [c [err|]]; simpl; solve_keeps.
Qed.

Lemma processLabel_keeps l t t' :
  wf t → pending t → processLabel l t = Ok t' → keeps t t'.
Proof.
  intros Hwf Hp Hop. unfold processLabel in Hop.
  destruct (akara.BitmapFont (World t) !! l) as [bmf|] eqn:Hb.
  2: { simplify_eq. by apply addBitmapFontForLabel_keeps. }
  destruct (bmf ≫= _); [| discriminate].
  apply bind_Ok in Hop as (r & _ & Hop). simplify_eq.
  apply elem_of_dom_2 in Hb.
  set (tb := labelLoadQueueEntry.table _).
  assert (Htb : tb ∉ widgets t).
  { subst tb. simpl. destruct Hp as [_ P2 P3 _].
    destruct (labelLoadQueue t !! l) as [entry|] eqn:Hq; simpl; [| done].
    by destruct (P3 l entry Hq). }
  clearbody tb. clear Hp. destruct Hwf as [_ H2 H3 H4 _]. unfold_kinds.
  solve_keeps_at l.
Qed.

Lemma runWork_keeps u t t' :
  wf t → pending t → runWork ext u t = Ok t' → keeps t t'.
Proof.
  intros Hwf Hp Hop. destruct u; simpl in Hop.
  - by eapply processButton_keeps.
  - simplify_eq. by apply processCheckbox_keeps.
  - by eapply processLabel_keeps.
  - simplify_eq. by apply updateButton_keeps.
  - by eapply updateCheckbox_keeps.
  - by eapply updateLabel_keeps.
Qed.

Lemma rangeLoop_keeps start unit es now t t' now' returned :
  wf t → pending t →
  rangeLoop ext start unit es now t = Ok (t', now', returned) → keeps t t'.
Proof.
  revert now t. induction es as [|e es IH]; intros now t Hwf Hp Hop; simpl in Hop.
  - simplify_eq. apply keeps_refl.
  - destruct (_ <? _)%N; [simplify_eq; apply keeps_refl |].
    apply bind_Ok in Hop as (t1 & Hu & Hop).
    pose proof (runWork_keeps _ _ _ Hwf Hp Hu) as Hk.
    eapply keeps_trans; [exact Hk |].
    eapply IH; [| | exact Hop]; [by eapply runWork_wf | by eapply keeps_pending].
Qed.

Lemma runLoops_keeps start ls now t t' now' :
  wf t → pending t → runLoops ext start ls now t = Ok (t', now') → keeps t t'.
Proof.
  revert now t. induction ls as [|[unit source] ls IH]; intros now t Hwf Hp Hop;
    simpl in Hop.
  - simplify_eq. apply keeps_refl.
  - apply bind_Ok in Hop as ([[t1 now1] returned] & Hl & Hop).
    pose proof (rangeLoop_keeps _ _ _ _ _ _ _ _ Hwf Hp Hl) as Hk.
    destruct returned; [by simplify_eq |].
    eapply keeps_trans; [exact Hk |].
    eapply IH; [| | exact Hop]; [by eapply rangeLoop_wf | by eapply keeps_pending].
Qed.

Lemma boot_keeps t : keeps t (boot t).
Proof.
  unfold boot. destruct (RenderSystem t) as [rs|]; [| apply keeps_refl].
  destruct (renderer rs); [| apply keeps_refl]. constructor; simpl; auto.
Qed.

Lemma Update_keeps now t t' now' :
  wf t → pending t → Update ext now t = Ok (t', now') → keeps t t'.
Proof.
  intros Hwf Hp Hop. unfold Update in Hop.
  destruct (bool_decide _); [simplify_eq; apply boot_keeps |].
  by eapply runLoops_keeps.
Qed.


Lemma pending_new : pending (NewUIWidgetFactory akara.empty).
Proof.
  constructor; unfold_kinds; unfold queued; simpl.
  - lia.
  - set_solver.
  - intros l entry H. by rewrite lookup_empty in H.
  - set_solver.
Qed.

Lemma Label_pending text font palettePath t :
  wf t → pending t → pending (snd (Label text font palettePath t)).
Proof.
  intros Hwf [P1 P2 P3 P4].
  destruct (wf_fresh t (akara.nextEntityID (World t)) Hwf) as [Hf Hr]; [lia |].
  destruct (wf_fresh t (N.succ (akara.nextEntityID (World t))) Hwf) as [Hf' _]; [lia |].
  set (n := akara.nextEntityID (World t)) in *.
  assert (Hw : widgets (snd (Label text font palettePath t)) = {[n]} ∪ widgets t).
  { unfold_kinds. simpl. doms. fold n. set_solver. }
  constructor; rewrite ?Hw.
  - simpl. lia.
  - rewrite elem_of_union, elem_of_singleton. intros [H|H]; [lia | done].
  - intros l entry He. simpl in He. fold n in He.
    destruct (decide (l = n)) as [->|Hne].
    + rewrite lookup_insert_eq in He. simplify_eq. simpl. fold n. split; [| lia].
      rewrite elem_of_union, elem_of_singleton. intros [H|H]; [lia | done].
    + rewrite lookup_insert_ne in He by done. destruct (P3 l entry He) as [Ha Hb].
      fold n in Hb. split; [| simpl; fold n; lia].
      rewrite elem_of_union, elem_of_singleton. intros [H|H]; [lia | done].
  - intros e He. simpl.
    assert (e = n ∨ e ∈ queued t) as [->|Hq].
    { unfold queued in *. simpl in He. fold n in He. revert He. doms. set_solver. }
    + done.
    + by apply P4.
Qed.

Lemma Checkbox_pending x y checkedState enabled callback t :
  wf t → pending t → pending (snd (Checkbox ext x y checkedState enabled callback t)).
Proof.
  intros Hwf [P1 P2 P3 P4].
  destruct (wf_fresh t (akara.nextEntityID (World t)) Hwf) as [Hf Hr]; [lia |].
  set (n := akara.nextEntityID (World t)) in *.
  assert (Hw : widgets (snd (Checkbox ext x y checkedState enabled callback t))
               = {[n]} ∪ widgets t).
  { unfold_kinds. simpl. doms. fold n. set_solver. }
  constructor; rewrite ?Hw.
  - simpl. lia.
  - rewrite elem_of_union, elem_of_singleton. intros [H|H]; [lia | done].
  - intros l entry He. simpl in He. destruct (P3 l entry He) as [Ha Hb].
    fold n in Hb. split; [| simpl; fold n; lia].
    rewrite elem_of_union, elem_of_singleton. intros [H|H]; [lia | done].
  - intros e He. simpl.
    assert (e = n ∨ e ∈ queued t) as [->|Hq].
    { unfold queued in *. simpl in He. fold n in He. revert He. doms. set_solver. }
    + done.
    + by apply P4.
Qed.

Lemma Button_pending x y btnType text t :
  wf t → pending t → pending (snd (Button ext x y btnType text t)).
Proof.
  intros Hwf [P1 P2 P3 P4].
  destruct (wf_fresh t (akara.nextEntityID (World t)) Hwf) as [Hf Hr]; [lia |].
  destruct (wf_fresh t (N.succ (akara.nextEntityID (World t))) Hwf) as [Hf1 Hr1]; [lia |].
  destruct (wf_fresh t (N.succ (N.succ (akara.nextEntityID (World t)))) Hwf) as [Hf2 _];
    [lia |].
  set (n := akara.nextEntityID (World t)) in *.
  unfold Button. simpl. fold n.
  destruct (negb _ && negb _); simpl; fold n.
  - set (t' := set buttonLoadQueue _ _).
    assert (Hw : widgets t' = {[n; N.succ n]} ∪ widgets t).
    { subst t'. unfold_kinds. simpl. doms. set_solver. }
    constructor; rewrite ?Hw.
    + simpl. lia.
    + rewrite elem_of_union, elem_of_union, !elem_of_singleton. intros [[H|H]|H]; [lia.. | done].
    + intros l entry He. simpl in He.
      destruct (decide (l = N.succ n)) as [->|Hne].
      * rewrite lookup_insert_eq in He. simplify_eq. simpl. split; [| lia].
        rewrite elem_of_union, elem_of_union, !elem_of_singleton.
        intros [[H|H]|H]; [lia.. | done].
      * rewrite lookup_insert_ne in He by done. destruct (P3 l entry He) as [Ha Hb].
        fold n in Hb. split; [| simpl; lia].
        rewrite elem_of_union, elem_of_union, !elem_of_singleton.
        intros [[H|H]|H]; [lia.. | done].
    + intros e He. simpl.
      assert (e = n ∨ e = N.succ n ∨ e ∈ queued t) as [->|[->|Hq]].
      { unfold queued in *. simpl in He. revert He. doms. set_solver. }
      * done.
      * done.
      * by apply P4.
  - set (t' := set buttonLoadQueue _ _).
    assert (Hw : widgets t' = {[n]} ∪ widgets t).
    { subst t'. unfold_kinds. simpl. doms. set_solver. }
    constructor; rewrite ?Hw.
    + simpl. lia.
    + rewrite elem_of_union, elem_of_singleton. intros [H|H]; [lia | done].
    + intros l entry He. simpl in He. destruct (P3 l entry He) as [Ha Hb].
      fold n in Hb. split; [| simpl; lia].
      rewrite elem_of_union, elem_of_singleton. intros [H|H]; [lia | done].
    + intros e He. simpl.
      assert (e = n ∨ e ∈ queued t) as [->|Hq].
      { unfold queued in *. simpl in He. revert He. doms. set_solver. }
      * rewrite elem_of_union, elem_of_singleton. intros [H|H]; [lia | done].
      * rewrite elem_of_union, elem_of_singleton. intros [->|H]; [| by apply (P4 e)].
        apply Hf1. unfold widgets, buttons, checkboxes, labels, queued in *. set_solver.
Qed.

Lemma collaborators_pending t t' : pending t → collaborators t t' → pending t'.
Proof.
  intros [P1 P2 P3 P4] [Q1 Q2 Q3 Q4 Q5 Q6 Q7 Q8 Q9 Q10].
  assert (Hw : widgets t' = widgets t) by (unfold widgets, buttons, checkboxes, labels; congruence).
  assert (Hq : queued t' = queued t) by (unfold queued; congruence).
  constructor; rewrite ?Hw, ?Hq.
  - lia.
  - done.
  - intros l entry He. rewrite Q3 in He. destruct (P3 l entry He). split; [done | lia].
  - intros e He Hr. destruct (Q9 e Hr) as [H | [H _]]; [by apply (P4 e) |].
    apply H. unfold widgets, buttons, checkboxes, labels, queued in *. set_solver.
Qed.

Lemma reach_pending t : reach ext t → pending t.
Proof.
  induction 1 as [| t ? ? ? Hr IH | t ? ? ? ? Hr IH | t ? ? ? ? ? Hr IH
                 | t ? ? ? Hr IH Hu | t t' Hr IH Hc].
  - apply pending_new.
  - apply Label_pending; [by eapply reach_wf | done].
  - apply Button_pending; [by eapply reach_wf | done].
  - apply Checkbox_pending; [by eapply reach_wf | done].
  - eapply keeps_pending; [exact IH |].
    eapply Update_keeps; [by eapply reach_wf | done | exact Hu].
  - by eapply collaborators_pending.
Qed.

(** X26. A widget that waits in a load queue does not carry Ready, in every
    state the factory reaches. *)
Theorem queued_not_ready (t : UIWidgetFactory) (e : N) :
  reach ext t → e ∈ queued t → e ∉ akara.Ready (World t).
Proof. intros Hr. apply pending_not_ready. by apply reach_pending. Qed.

(** X27. A tick neither creates nor destroys a widget and adds nothing to the
    queues, and a widget that is Ready when the tick starts is Ready when it
    ends. *)
Theorem tick_keeps_widgets (now now' : N) (t t' : UIWidgetFactory) :
  reach ext t → Update ext now t = Ok (t', now') →
  buttons t' = buttons t ∧ checkboxes t' = checkboxes t ∧ labels t' = labels t ∧
  queued t' ⊆ queued t ∧
  (∀ e, e ∈ widgets t → e ∈ akara.Ready (World t) → e ∈ akara.Ready (World t')).
Proof.
  intros Hr Hu.
  destruct (Update_keeps now t t' now' (reach_wf ext t Hr) (reach_pending t Hr) Hu)
    as [_ H1 H2 H3 _ H4 _ H5].
  done.
Qed.

End Pending.

(** ** The button test scene *)

Section TestScene.

Import ButtonTestScene.

Variable ButtonTypeBuy : N.

Lemma filter_moves r es :
  filter isAddButton (flat_map (updateButtonPosition r) es) = [].
Proof.
  induction es as [|e es IH]; [done |]. simpl. rewrite filter_app, IH.
  unfold updateButtonPosition. by destruct (hasTransform r e).
Qed.

Lemma Update_Booted r :
  fst (Update ButtonTypeBuy r SceneStateBooted) = SceneStateBooted ∧
  filter isAddButton (snd (Update ButtonTypeBuy r SceneStateBooted)) = [].
Proof.
  unfold Update. destruct (Paused r); [done |]. simpl. split; [done |].
  by rewrite filter_app, filter_moves.
Qed.

Lemma run_Booted rs :
  fst (run ButtonTypeBuy rs SceneStateBooted) = SceneStateBooted ∧
  filter isAddButton (snd (run ButtonTypeBuy rs SceneStateBooted)) = [].
Proof.
  induction rs as [|r rs IH]; [done |]. simpl.
  destruct (Update_Booted r) as [H1 H2].
  destruct (Update ButtonTypeBuy r SceneStateBooted) as [s1 c1]. simpl in *. subst s1.
  destruct (run ButtonTypeBuy rs SceneStateBooted) as [s2 c2]. simpl in *.
  split; [tauto |]. rewrite filter_app, H2. tauto.
Qed.

Lemma Update_Uninitialized r :
  (Paused r = false ∧ Booted r = true ∧
   fst (Update ButtonTypeBuy r SceneStateUninitialized) = SceneStateBooted ∧
   filter isAddButton (snd (Update ButtonTypeBuy r SceneStateUninitialized))
   = [AddButton 100 100 ButtonTypeBuy "Test"]) ∨
  ((Paused r = true ∨ Booted r = false) ∧
   fst (Update ButtonTypeBuy r SceneStateUninitialized) = SceneStateUninitialized ∧
   filter isAddButton (snd (Update ButtonTypeBuy r SceneStateUninitialized)) = []).
Proof.
  unfold Update, boot. destruct (Paused r); [right; auto |].
  destruct (Booted r); simpl.
  - left. do 3 (split; [done |]).
    rewrite filter_cons_False by (by intros []).
    rewrite filter_cons_True by done.
    by rewrite filter_app, filter_moves.
  - right. auto.
Qed.

(** X28. The scene creates its test button once.  Over any run of Update
    calls the scene is Booted at the end exactly when, during some call, it
    was not paused and its BaseScene was booted; if so it has asked for
    exactly one button, at (100, 100), of type ButtonTypeBuy and with the
    text Test, and otherwise for none. *)
Theorem test_button_created_once (rs : list reads) :
  let state := fst (run ButtonTypeBuy rs SceneStateUninitialized) in
  let created := filter isAddButton (snd (run ButtonTypeBuy rs SceneStateUninitialized)) in
  (state = SceneStateBooted ↔ Exists (λ r, Paused r = false ∧ Booted r = true) rs) ∧
  (state = SceneStateBooted → created = [AddButton 100 100 ButtonTypeBuy "Test"]) ∧
  (state ≠ SceneStateBooted → created = []).
Proof.
  induction rs as [|r rs IH]; simpl.
  { split; [| done]. split; [done |]. by intros ?%Exists_nil. }
  destruct (Update_Uninitialized r) as [(Hp & Hb & H1 & H2) | (Hpb & H1 & H2)];
    destruct (Update ButtonTypeBuy r SceneStateUninitialized) as [s1 c1]; simpl in *; subst s1.
  - destruct (run_Booted rs) as [H3 H4].
    destruct (run ButtonTypeBuy rs SceneStateBooted) as [s2 c2]. simpl in *. subst s2.
    rewrite filter_app, H2, H4. split; [| done].
    split; [intros _; by apply Exists_cons_hd | done].
  - destruct (run ButtonTypeBuy rs SceneStateUninitialized) as [s2 c2]. simpl in *.
    rewrite filter_app, H2. simpl. destruct IH as (IH1 & IH2 & IH3).
    split; [| done]. rewrite IH1, Exists_cons. split; [tauto |].
    intros [[Hp Hb] | H]; [| done]. destruct Hpb; congruence.
Qed.


Lemma moves_by_one r es e d :
  AddScalar e d ∈ flat_map (updateButtonPosition r) es → d = 1%Z ∧ e ∈ es.
Proof.
  induction es as [|x es IH]; simpl; [by intros ?%elem_of_nil |].
  rewrite elem_of_app. unfold updateButtonPosition at 1.
  intros [H | H].
  - destruct (hasTransform r x); [| by apply elem_of_nil in H].
    apply list_elem_of_singleton in H. simplify_eq. split; [done | left].
  - destruct (IH H). split; [done | by right].
Qed.

Lemma Update_by_one r state e d :
  AddScalar e d ∈ snd (Update ButtonTypeBuy r state) → d = 1%Z.
Proof.
  unfold Update, boot. destruct (Paused r); simpl; [by intros ?%elem_of_nil |].
  destruct state; simpl; [destruct (Booted r); simpl |].
  - rewrite !elem_of_cons, elem_of_app.
    intros [? | [? | [H | H]]]; [done | done | by apply moves_by_one in H as [? _] |].
    by apply list_elem_of_singleton in H.
  - by intros ?%list_elem_of_singleton.
  - rewrite elem_of_app. intros [H | H]; [by apply moves_by_one in H as [? _] |].
    by apply list_elem_of_singleton in H.
Qed.

Lemma run_by_one rs state e d :
  AddScalar e d ∈ snd (run ButtonTypeBuy rs state) → d = 1%Z.
Proof.
  revert state. induction rs as [|r rs IH]; intros state; simpl.
  { by intros ?%elem_of_nil. }
  pose proof (Update_by_one r state e d) as H1.
  destruct (Update ButtonTypeBuy r state) as [s1 c1]. specialize (IH s1).
  destruct (run ButtonTypeBuy rs s1) as [s2 c2]. simpl in *.
  rewrite elem_of_app. intros [H | H]; auto.
Qed.

(** X29. The scene moves a button only after it has created the test button,
    and always by 1: every AddScalar call of a run comes after the call that
    creates the button. *)
Theorem buttons_move_after_creation (rs : list reads) (pre post : list call)
    (e : N) (d : Z) :
  snd (run ButtonTypeBuy rs SceneStateUninitialized) = (pre ++ AddScalar e d :: post)%list →
  d = 1%Z ∧ AddButton 100 100 ButtonTypeBuy "Test" ∈ pre.
Proof.
  intros Hrun. split.
  { apply (run_by_one rs SceneStateUninitialized e). rewrite Hrun.
    apply elem_of_app. right. left. }
  revert pre Hrun. induction rs as [|r rs IH]; intros pre Hrun; simpl in Hrun.
  { by destruct pre. }
  unfold Update, boot in Hrun. destruct (Paused r); simpl in Hrun.
  { destruct (run ButtonTypeBuy rs SceneStateUninitialized) as [s2 c2]. by apply IH. }
  destruct (Booted r); simpl in Hrun.
  - destruct (run ButtonTypeBuy rs SceneStateBooted) as [s2 c2]. simpl in Hrun.
    destruct pre as [|c pre]; [discriminate |]. injection Hrun as <- Hrun.
    destruct pre as [|c pre]; [discriminate |]. injection Hrun as <- Hrun.
    right. left.
  - destruct (run ButtonTypeBuy rs SceneStateUninitialized) as [s2 c2]. simpl in *.
    destruct pre as [|c pre]; [discriminate |]. injection Hrun as <- Hrun.
    right. by apply IH.
Qed.

End TestScene.

(** ** The statements above at work in the demo run *)

Lemma booted_wf : wf Demo.booted.
Proof. exact (reach_wf Demo.ext _ booted_reach). Qed.

Lemma Label_queues_label_witness :
  fst (Label "Test" "F" "P" Demo.booted) = 1%N ∧
  akara.nextEntityID (World Demo.oneLabel) = (1 + 3)%N ∧
  labelLoadQueue Demo.oneLabel
  = <[1%N := labelLoadQueueEntry.mk (1 + 1) (1 + 2)]> (labelLoadQueue Demo.booted) ∧
  akara.File (World Demo.oneLabel) !! (1 + 1)%N = Some ("F" ++ ".tbl") ∧
  spriteRequests Demo.oneLabel !! (1 + 2)%N = Some (mkRequest 0 0 ("F" ++ ".dc6") "P" None) ∧
  (∃ label, akara.Label (World Demo.oneLabel) !! 1%N = Some label ∧
            d2components.text label = "Test" ∧ d2components.dirty label = true) ∧
  akara.BitmapFont (World Demo.oneLabel) !! 1%N = None ∧
  akara.Ready (World Demo.oneLabel) = akara.Ready (World Demo.booted) ∧
  (1%N ∉ akara.Ready (World Demo.oneLabel)).
Proof. exact (Label_queues_label "Test" "F" "P" Demo.booted booted_wf). Defined.

Lemma Button_without_font_witness :
  fst (Button Demo.extPlain 100 100 0 "Test" (NewUIWidgetFactory akara.empty)) = 1%N ∧
  akara.nextEntityID
    (World (snd (Button Demo.extPlain 100 100 0 "Test" (NewUIWidgetFactory akara.empty))))
  = (1 + 3)%N ∧
  buttonLoadQueue (snd (Button Demo.extPlain 100 100 0 "Test" (NewUIWidgetFactory akara.empty)))
  = <[1%N := buttonLoadQueueEntry.mk (1 + 1) (1 + 2)]> ∅ ∧
  labelLoadQueue (snd (Button Demo.extPlain 100 100 0 "Test" (NewUIWidgetFactory akara.empty)))
  = ∅ ∧
  akara.Label
    (World (snd (Button Demo.extPlain 100 100 0 "Test" (NewUIWidgetFactory akara.empty))))
  = ∅ ∧
  akara.Ready
    (World (snd (Button Demo.extPlain 100 100 0 "Test" (NewUIWidgetFactory akara.empty))))
  = {[(1 + 1)%N]} ∪ ∅ ∧
  spriteRequests (snd (Button Demo.extPlain 100 100 0 "Test" (NewUIWidgetFactory akara.empty)))
  !! (1 + 2)%N
  = Some (mkRequest 0 0 "plain" "" (Some (1, 1, 0)%Z)) ∧
  (∃ button,
     akara.Button
       (World (snd (Button Demo.extPlain 100 100 0 "Test" (NewUIWidgetFactory akara.empty))))
     !! 1%N = Some button ∧
     d2components.Layout button = Demo.plain) ∧
  akara.Transform
    (World (snd (Button Demo.extPlain 100 100 0 "Test" (NewUIWidgetFactory akara.empty))))
  !! 1%N = Some (100, 100)%Z ∧
  (1%N ∉ akara.Ready
           (World (snd (Button Demo.extPlain 100 100 0 "Test"
                          (NewUIWidgetFactory akara.empty))))).
Proof.
  exact (Button_without_font Demo.extPlain 100 100 0 "Test" (NewUIWidgetFactory akara.empty)
           wf_new (or_introl eq_refl)).
Defined.

Lemma Button_with_font_witness :
  fst (Button Demo.ext 100 100 0 "Test" Demo.booted) = 1%N ∧
  akara.nextEntityID (World Demo.oneButton) = (1 + 5)%N ∧
  buttonLoadQueue Demo.oneButton
  = <[1%N := buttonLoadQueueEntry.mk (1 + 1) (1 + 4)]> (buttonLoadQueue Demo.booted) ∧
  labelLoadQueue Demo.oneButton
  = <[(1 + 1)%N := labelLoadQueueEntry.mk (1 + 2) (1 + 3)]> (labelLoadQueue Demo.booted) ∧
  akara.File (World Demo.oneButton) !! (1 + 2)%N = Some ("font16" ++ ".tbl") ∧
  spriteRequests Demo.oneButton !! (1 + 3)%N
  = Some (mkRequest 0 0 ("font16" ++ ".dc6") "units" None) ∧
  spriteRequests Demo.oneButton !! (1 + 4)%N
  = Some (mkRequest 0 0 "buysell" "units" (Some (2, 1, 0)%Z)) ∧
  (∃ label, akara.Label (World Demo.oneButton) !! (1 + 1)%N = Some label ∧
            d2components.text label = "Test") ∧
  (∃ button, akara.Button (World Demo.oneButton) !! 1%N = Some button ∧
             d2components.Layout button = Demo.layout) ∧
  akara.Ready (World Demo.oneButton) = akara.Ready (World Demo.booted).
Proof.
  apply (Button_with_font Demo.ext 100 100 0 "Test" Demo.booted booted_wf); discriminate.
Defined.

Lemma Checkbox_queues_checkbox_witness :
  fst (Checkbox Demo.ext 10 10 true true None Demo.booted) = 1%N ∧
  akara.nextEntityID (World Demo.oneCheckbox) = (1 + 2)%N ∧
  checkboxLoadQueue Demo.oneCheckbox
  = <[1%N := checkboxLoadQueueEntry.mk (1 + 1)]> (checkboxLoadQueue Demo.booted) ∧
  spriteRequests Demo.oneCheckbox !! (1 + 1)%N
  = Some (mkRequest 10 10 "checkbox" "fechar" (Some (1, 1, 0)%Z)) ∧
  (∃ checkbox, akara.Checkbox (World Demo.oneCheckbox) !! 1%N = Some checkbox ∧
     d2components.pressed checkbox = true ∧
     d2components.enabled checkbox = true ∧
     d2components.onActivated checkbox = None ∧
     d2checkbox.ClickableRect (d2components.CheckboxLayout checkbox)
     = rectangle.New 10 10 (float64_of_int 16) (float64_of_int 15) ∧
     ((Z.abs 16 ≤ 9007199254740992)%Z → (Z.abs 15 ≤ 9007199254740992)%Z →
      d2checkbox.ClickableRect (d2components.CheckboxLayout checkbox)
      = rectangle.New 10 10 16 15)) ∧
  akara.Transform (World Demo.oneCheckbox) !! 1%N = Some (10, 10)%Z ∧
  akara.Ready (World Demo.oneCheckbox) = akara.Ready (World Demo.booted) ∧
  (1%N ∉ akara.Ready (World Demo.oneCheckbox)).
Proof. exact (Checkbox_queues_checkbox Demo.ext 10 10 true true None Demo.booted booted_wf). Defined.

Lemma processButton_waits_witness :
  processButton Demo.ext 1 Demo.oneButton = Ok Demo.oneButton.
Proof.
  apply (processButton_waits Demo.ext 1 Demo.oneButton (buttonLoadQueueEntry.mk 2 5));
    [vm_compute; reflexivity | left; compute_done].
Defined.

Lemma processButton_finalizes_witness :
  ∃ t' button',
    processButton Demo.ext 1 Demo.oneButtonStatesReady = Ok t' ∧
    akara.Ready (World t') = {[1%N]} ∪ akara.Ready (World Demo.oneButtonStatesReady) ∧
    buttonLoadQueue t' = delete 1%N (buttonLoadQueue Demo.oneButtonStatesReady) ∧
    akara.nextEntityID (World t') = akara.nextEntityID (World Demo.oneButtonStatesReady) ∧
    akara.Button (World t') !! 1%N = Some button' ∧
    d2components.States button' = d2components.States Demo.buttonAfter ∧
    (∀ sprite, akara.Sprite (World Demo.oneButtonStatesReady) !! 5%N = Some sprite →
       d2components.ButtonSprite button' = d2components.Sprite_ sprite ∧
       akara.SceneGraphNode (World t') !! 5%N = Some (Some 1%N)).
Proof.
  apply (processButton_finalizes Demo.ext 1 Demo.oneButtonStatesReady
           (buttonLoadQueueEntry.mk 2 5) Demo.buttonAfter).
  - vm_compute. reflexivity.
  - compute_done.
  - compute_done.
  - vm_compute. reflexivity.
  - vm_compute. reflexivity.
  - repeat split; compute_done.
Defined.

Lemma state_sprites_requested_once_witness :
  ∃ t1 button1,
    processButton Demo.ext 1 Demo.oneButtonLabelReady = Ok t1 ∧
    akara.nextEntityID (World t1)
    = (akara.nextEntityID (World Demo.oneButtonLabelReady) + stateSprites Demo.layout)%N ∧
    akara.Ready (World t1) = akara.Ready (World Demo.oneButtonLabelReady) ∧
    buttonLoadQueue t1 = buttonLoadQueue Demo.oneButtonLabelReady ∧
    akara.Button (World t1) !! 1%N = Some button1 ∧
    States.Normal (d2components.States button1)
    = akara.nextEntityID (World Demo.oneButtonLabelReady) ∧
    (∀ t2, processButton Demo.ext 1 t1 = Ok t2 →
       akara.nextEntityID (World t2) = akara.nextEntityID (World t1) ∧
       spriteRequests t2 = spriteRequests t1).
Proof.
  apply (state_sprites_requested_once Demo.ext 1 Demo.oneButtonLabelReady
           (buttonLoadQueueEntry.mk 2 5) Demo.buttonBefore).
  - vm_compute. reflexivity.
  - compute_done.
  - compute_done.
  - vm_compute. reflexivity.
  - reflexivity.
  - vm_compute. reflexivity.
Defined.

Lemma state_sprite_frames_witness :
  ∃ t' st,
    processButtonStates Demo.ext 1 Demo.oneButtonLabelReady = Ok t' ∧
    akara.Button (World t') !! 1%N = Some (withStates st Demo.buttonBefore) ∧
    spriteRequests t' !! States.Normal st
    = Some (mkRequest 0 0 "buysell" "units" (Some (2, 1, 0)%Z)) ∧
    (d2button.HasImage Demo.layout = true → d2button.AllowFrameChange Demo.layout = true →
       spriteRequests t' !! States.Pressed st
       = Some (mkRequest 0 0 "buysell" "units" (Some (2, 1, int (0 + 1))%Z)) ∧
       spriteRequests t' !! States.Toggled st
       = Some (mkRequest 0 0 "buysell" "units" (Some (2, 1, int (0 + 2))%Z)) ∧
       spriteRequests t' !! States.PressedToggled st
       = Some (mkRequest 0 0 "buysell" "units" (Some (2, 1, int (0 + 3))%Z)) ∧
       (d2button.DisabledFrame Demo.layout ≠ isNotSegmented →
          spriteRequests t' !! States.Disabled st
          = Some (mkRequest 0 0 "buysell" "units" (Some (2, 1, -1)%Z)))).
Proof.
  apply (state_sprite_frames Demo.ext 1 Demo.oneButtonLabelReady Demo.buttonBefore);
    vm_compute; reflexivity.
Defined.

Lemma processCheckbox_finalizes_witness :
  akara.Ready (World (processCheckbox Demo.ext 1 Demo.oneCheckboxLoaded))
  = {[1%N]} ∪ akara.Ready (World Demo.oneCheckboxLoaded) ∧
  checkboxLoadQueue (processCheckbox Demo.ext 1 Demo.oneCheckboxLoaded)
  = delete 1%N (checkboxLoadQueue Demo.oneCheckboxLoaded) ∧
  akara.Interactive (World (processCheckbox Demo.ext 1 Demo.oneCheckboxLoaded)) !! 1%N
  = Some (d2components.mkInteractive (Some d2components.MouseButtonLeft)
            (d2checkbox.ClickableRect (d2components.CheckboxLayout Demo.checkboxBefore))
            (Some (d2components.ActivateCheckbox 1))) ∧
  is_Some (akara.Texture (World (processCheckbox Demo.ext 1 Demo.oneCheckboxLoaded)) !! 1%N) ∧
  akara.nextEntityID (World (processCheckbox Demo.ext 1 Demo.oneCheckboxLoaded))
  = akara.nextEntityID (World Demo.oneCheckboxLoaded) ∧
  (∀ sprite, akara.Sprite (World Demo.oneCheckboxLoaded) !! 2%N = Some sprite →
     akara.Checkbox (World (processCheckbox Demo.ext 1 Demo.oneCheckboxLoaded)) !! 1%N
     = Some (withCheckboxSprite (d2components.Sprite_ sprite) Demo.checkboxBefore) ∧
     akara.SceneGraphNode (World (processCheckbox Demo.ext 1 Demo.oneCheckboxLoaded)) !! 2%N
     = Some (Some 1%N)) ∧
  (akara.Sprite (World Demo.oneCheckboxLoaded) !! 2%N = None →
     akara.Checkbox (World (processCheckbox Demo.ext 1 Demo.oneCheckboxLoaded)) !! 1%N
     = Some Demo.checkboxBefore).
Proof.
  apply (processCheckbox_finalizes Demo.ext 1 Demo.oneCheckboxLoaded
           (checkboxLoadQueueEntry.mk 2) Demo.checkboxBefore).
  - vm_compute. reflexivity.
  - compute_done.
  - vm_compute. reflexivity.
  - vm_compute. reflexivity.
Defined.

Lemma updateButton_surfaces_witness :
  (∀ normal pressed toggled pressedToggled disabled,
     akara.Texture (World Demo.oneButtonTextured) !! 6%N = Some normal →
     akara.Texture (World Demo.oneButtonTextured) !! 7%N = Some pressed →
     akara.Texture (World Demo.oneButtonTextured) !! 8%N = Some toggled →
     akara.Texture (World Demo.oneButtonTextured) !! 9%N = Some pressedToggled →
     akara.Texture (World Demo.oneButtonTextured) !! 6%N = Some disabled →
     akara.Button (World (updateButton 1 Demo.oneButtonTextured)) !! 1%N
     = Some (withSurfaces (Surfaces.mk normal pressed toggled pressedToggled disabled)
               Demo.buttonReady) ∧
     akara.Texture (World (updateButton 1 Demo.oneButtonTextured)) !! 1%N
     = Some (GetCurrentTexture
               (withSurfaces (Surfaces.mk normal pressed toggled pressedToggled disabled)
                  Demo.buttonReady)) ∧
     (6%N = 6%N → disabled = normal)) ∧
  (akara.Texture (World Demo.oneButtonTextured) !! 6%N = None ∨
   akara.Texture (World Demo.oneButtonTextured) !! 7%N = None ∨
   akara.Texture (World Demo.oneButtonTextured) !! 8%N = None ∨
   akara.Texture (World Demo.oneButtonTextured) !! 9%N = None ∨
   akara.Texture (World Demo.oneButtonTextured) !! 6%N = None →
   updateButton 1 Demo.oneButtonTextured = Demo.oneButtonTextured).
Proof.
  apply (updateButton_surfaces 1 Demo.oneButtonTextured Demo.buttonReady).
  vm_compute. reflexivity.
Defined.

Lemma processLabel_finalizes_witness :
  ∃ t',
    processLabel 1 Demo.oneLabelFont = Ok t' ∧
    akara.Ready (World t') = {[1%N]} ∪ (akara.Ready (World Demo.oneLabelFont) ∖ {[2%N]}) ∧
    labelLoadQueue t' = delete 1%N (labelLoadQueue Demo.oneLabelFont) ∧
    boundRenderer t' !! 100%N = Some (Some 7%N) ∧
    akara.Label (World t') !! 1%N
    = Some (SetFont (Some 0) (d2components.mkLabel "Test" None None true)) ∧
    akara.BitmapFont (World t') !! 1%N = Some (Some 0) ∧
    akara.File (World t') !! 2%N = None ∧
    akara.FontTable (World t') !! 2%N = None ∧
    bitmapFontCache t' = bitmapFontCache Demo.oneLabelFont ∧
    fonts t' = fonts Demo.oneLabelFont.
Proof.
  apply (processLabel_finalizes 1 Demo.oneLabelFont (labelLoadQueueEntry.mk 2 3) 0
           (d2bitmapfont.New 100 [] White) (mkRenderSystem (Some 7%N))
           (d2components.mkLabel "Test" None None true));
    try (vm_compute; reflexivity).
  discriminate.
Defined.

Lemma label_needs_two_steps_witness :
  ∃ t1 t2,
    processLabel 1 Demo.oneLabelLoaded = Ok t1 ∧
    akara.Ready (World t1) = akara.Ready (World Demo.oneLabelLoaded) ∧
    labelLoadQueue t1 = labelLoadQueue Demo.oneLabelLoaded ∧
    akara.BitmapFont (World t1) !! 1%N = Some (Some (length (fonts Demo.oneLabelLoaded))) ∧
    processLabel 1 t1 = Ok t2 ∧
    1%N ∈ akara.Ready (World t2) ∧
    labelLoadQueue t2 !! 1%N = None ∧
    boundRenderer t2 !! 100%N = Some (Some 7%N).
Proof.
  apply (label_needs_two_steps 1 Demo.oneLabelLoaded (labelLoadQueueEntry.mk 2 3)
           "F.tbl" (d2components.mkSprite (Some 100%N) "F.dc6" "P") [] 100
           (mkRenderSystem (Some 7%N))); vm_compute; reflexivity.
Defined.

Lemma undecoded_label_witness :
  (d2cache.Retrieve (fontCacheKey "F.tbl" "F.dc6" "P") (bitmapFontCache Demo.oneLabelUndecoded)
   = None → processLabel 1 Demo.oneLabelUndecoded = Ok Demo.oneLabelUndecoded) ∧
  (∀ iface,
     d2cache.Retrieve (fontCacheKey "F.tbl" "F.dc6" "P") (bitmapFontCache Demo.oneLabelUndecoded)
     = Some iface →
     ∃ t', processLabel 1 Demo.oneLabelUndecoded = Ok t' ∧
           1%N ∈ akara.Ready (World t') ∧
           labelLoadQueue t' !! 1%N = None ∧
           akara.BitmapFont (World t') !! 1%N = Some (Some iface)).
Proof.
  apply (undecoded_label 1 Demo.oneLabelUndecoded (labelLoadQueueEntry.mk 2 3)
           "F.tbl" (d2components.mkSprite (Some 100%N) "F.dc6" "P") None);
    try (vm_compute; reflexivity).
  by left.
Defined.

Lemma oneLabel_reach : reach Demo.ext Demo.oneLabel.
Proof. apply reach_Label, booted_reach. Qed.

Lemma queued_not_ready_witness :
  reach Demo.ext Demo.oneLabel ∧
  1%N ∈ queued Demo.oneLabel ∧
  (1%N ∉ akara.Ready (World Demo.oneLabel)).
Proof.
  assert (Hq : 1%N ∈ queued Demo.oneLabel) by compute_done.
  split; [exact oneLabel_reach |]. split; [exact Hq |].
  exact (queued_not_ready Demo.ext Demo.oneLabel 1 oneLabel_reach Hq).
Defined.

Lemma oneCheckboxLoaded_reach : reach Demo.ext Demo.oneCheckboxLoaded.
Proof.
  apply markReady_reach; [| vm_compute; reflexivity].
  eapply reach_collaborators; [| apply loadSprite_co].
  apply reach_Checkbox, booted_reach.
Qed.

Lemma tick_keeps_widgets_witness :
  buttons Demo.oneCheckboxReady = buttons Demo.oneCheckboxLoaded ∧
  checkboxes Demo.oneCheckboxReady = checkboxes Demo.oneCheckboxLoaded ∧
  labels Demo.oneCheckboxReady = labels Demo.oneCheckboxLoaded ∧
  queued Demo.oneCheckboxReady ⊆ queued Demo.oneCheckboxLoaded ∧
  (∀ e, e ∈ widgets Demo.oneCheckboxLoaded →
        e ∈ akara.Ready (World Demo.oneCheckboxLoaded) →
        e ∈ akara.Ready (World Demo.oneCheckboxReady)).
Proof.
  apply (tick_keeps_widgets Demo.ext 0 2000000 Demo.oneCheckboxLoaded Demo.oneCheckboxReady).
  - exact oneCheckboxLoaded_reach.
  - vm_compute. reflexivity.
Defined.

Lemma buttons_move_after_creation_witness :
  1%Z = 1%Z ∧
  ButtonTestScene.AddButton 100 100 0 "Test"
  ∈ [ButtonTestScene.AddSystemMouseCursor; ButtonTestScene.AddButton 100 100 0 "Test";
     ButtonTestScene.BaseSceneUpdate].
Proof.
  apply (buttons_move_after_creation 0 Demo.sceneRun
           [ButtonTestScene.AddSystemMouseCursor; ButtonTestScene.AddButton 100 100 0 "Test";
            ButtonTestScene.BaseSceneUpdate]
           [ButtonTestScene.BaseSceneUpdate] 1 1).
  reflexivity.
Defined.

(** ** Every step of a run *)

Section Steps.

Variable ext : Externals.

Lemma step_inv t t' : wf t → pending t → step ext t t' → wf t' ∧ pending t'.
Proof.
  intros Hwf Hp Hs. revert Hwf Hp.
  destruct Hs as [t0 text font palettePath | t0 x y btnType text
                 | t0 x y checkedState enabled callback | t0 | t0 u t1 Hop | t0 t1 Hco];
    intros Hwf Hp.
  - split; [by apply Label_wf | by apply Label_pending].
  - split; [by apply Button_wf | by apply Button_pending].
  - split; [by apply Checkbox_wf | by apply Checkbox_pending].
  - split; [by apply boot_wf |]. eapply keeps_pending; [done | apply boot_keeps].
  - split; [by eapply runWork_wf |].
    eapply keeps_pending; [done | by eapply runWork_keeps].
  - split; [by eapply collaborators_wf | by eapply collaborators_pending].
Qed.

Lemma reachable_inv t : reachable ext t → wf t ∧ pending t.
Proof.
  induction 1 as [| t t' Hr [Hwf Hp] Hs].
  - split; [apply wf_new | apply pending_new].
  - by eapply step_inv.
Qed.

Lemma rangeLoop_reachable start unit es now t t' now' returned :
  reachable ext t →
  rangeLoop ext start unit es now t = Ok (t', now', returned) → reachable ext t'.
Proof.
  revert now t. induction es as [|e es IH]; intros now t Hr Hop; simpl in Hop.
  - by simplify_eq.
  - destruct (_ <? _)%N; [by simplify_eq |].
    apply bind_Ok in Hop as (t1 & Hu & Hop).
    eapply IH; [| exact Hop]. eapply reachable_step; [done | by eapply step_unit].
Qed.

Lemma runLoops_reachable start ls now t t' now' :
  reachable ext t → runLoops ext start ls now t = Ok (t', now') → reachable ext t'.
Proof.
  revert now t. induction ls as [|[unit source] ls IH]; intros now t Hr Hop;
    simpl in Hop.
  - by simplify_eq.
  - apply bind_Ok in Hop as ([[t1 now1] returned] & Hl & Hop).
    apply rangeLoop_reachable in Hl; [| done].
    destruct returned; [by simplify_eq |]. by eapply IH.
Qed.

(** The states between two calls of the factory are among the states
    reached step by step. *)
Lemma reach_reachable t : reach ext t → reachable ext t.
Proof.
  induction 1 as [| t ? ? ? Hr IH | t ? ? ? ? Hr IH | t ? ? ? ? ? Hr IH
                 | t ? ? ? Hr IH Hu | t t' Hr IH Hc].
  - apply reachable_new.
  - eapply reachable_step; [done | apply step_Label].
  - eapply reachable_step; [done | apply step_Button].
  - eapply reachable_step; [done | apply step_Checkbox].
  - unfold Update in Hu. destruct (bool_decide _).
    + simplify_eq. eapply reachable_step; [done | apply step_boot].
    + by eapply runLoops_reachable.
  - eapply reachable_step; [done | by apply step_collaborators].
Qed.

(** C2.  In every state of a run, whichever step comes next — a widget
    creation, the boot check, any unit of work of an Update, or a step of
    the collaborators: if the step gives the Ready marker to a button entity
    that did not have it, or removes the button's load-queue entry, then the
    step is the drain step of that very button, and before the step all five
    state-sprite entities of the button — Normal, Pressed, Toggled,
    PressedToggled and Disabled — carried the Ready marker; the step does
    both, marking the button and removing its entry. *)
Theorem button_ready_gate (t t' : UIWidgetFactory) (b : EID) :
  reachable ext t →
  step ext t t' →
  b ∈ buttons t ∨ b ∈ buttons t' →
  ((b ∉ akara.Ready (World t)) ∧ b ∈ akara.Ready (World t')) ∨
  (is_Some (buttonLoadQueue t !! b) ∧ buttonLoadQueue t' !! b = None) →
  runWork ext (ProcessButton b) t = Ok t' ∧
  ∃ button,
    akara.Button (World t) !! b = Some button ∧
    statesReady (d2components.States button) t ∧
    b ∈ akara.Ready (World t') ∧
    buttonLoadQueue t' !! b = None.
Proof.
  intros Hr Hs Hb Hch. destruct (reachable_inv t Hr) as [Hwf Hp].
  assert (Hsame : (∀ e, is_Some (buttonLoadQueue t !! e) →
                        is_Some (buttonLoadQueue t' !! e)) →
                  (b ∈ akara.Ready (World t') → b ∈ akara.Ready (World t)) → False).
  { intros HQ HR. destruct Hch as [[Hn Hy] | [Hx Hnone]]; [auto |].
    apply HQ in Hx. rewrite Hnone in Hx. by destruct Hx. }
  clear Hr. revert Hwf Hp Hb Hch Hsame.
  destruct Hs as [t0 text font palettePath | t0 x y btnType text
                 | t0 x y checkedState enabled callback | t0 | t0 u t1 Hop | t0 t1 Hco];
    intros Hwf Hp Hb Hch Hsame.
  - exfalso. by apply Hsame.
  - exfalso.
    destruct (wf_fresh t0 (akara.nextEntityID (World t0)) Hwf) as [Hf _]; [lia |].
    destruct (wf_fresh t0 (N.succ (akara.nextEntityID (World t0))) Hwf) as [Hf1 _]; [lia |].
    assert (Hfb : N.succ (akara.nextEntityID (World t0)) ∉ buttons t0).
    { unfold widgets in Hf1. set_solver. }
    assert (Hbs : buttons (snd (Button ext x y btnType text t0))
                  = {[akara.nextEntityID (World t0)]} ∪ buttons t0).
    { unfold Button, buttons. simpl. destruct (negb _ && negb _); simpl; doms; set_solver. }
    apply Hsame.
    + intros e [v He]. unfold Button. simpl. destruct (negb _ && negb _); simpl;
        (destruct (decide (e = akara.nextEntityID (World t0))) as [-> |];
         [rewrite lookup_insert_eq; eauto | rewrite lookup_insert_ne by done; eauto]).
    + intros Hin.
      assert (Hcases : b ∈ akara.Ready (World t0)
                       ∨ b = N.succ (akara.nextEntityID (World t0))).
      { revert Hin. unfold Button. simpl. destruct (negb _ && negb _); simpl; set_solver. }
      destruct Hcases as [? | ->]; [done |]. exfalso.
      rewrite Hbs in Hb. destruct Hb as [Hb | Hb]; [done |].
      apply elem_of_union in Hb as [Hb%elem_of_singleton | Hb]; [lia | done].
  - exfalso. by apply Hsame.
  - exfalso. destruct (boot_cases t0) as [[Heq _] | [Heq _]];
      rewrite Heq in Hsame; by apply Hsame.
  - assert (Hb0 : b ∈ buttons t0).
    { destruct Hb as [? | Hb]; [done |].
      by rewrite <- (keeps_buttons _ _ (runWork_keeps ext u t0 t1 Hwf Hp Hop)). }
    destruct (runWork_button_gate ext t0 t1 u b Hwf Hop Hb0 Hch) as [-> Hrest].
    split; [exact Hop | exact Hrest].
  - exfalso. destruct Hco as [Q1 _ _ _ _ Q6 _ _ Q9 _].
    assert (Hb0 : b ∈ buttons t0).
    { destruct Hb as [? | Hb]; [done |]. unfold buttons in *. by rewrite Q6, Q1 in Hb. }
    apply Hsame; [by rewrite Q1 |].
    intros Hin. destruct (Q9 b Hin) as [? | [Hn _]]; [done |].
    exfalso. apply Hn. unfold widgets. set_solver.
Qed.

End Steps.

Lemma button_ready_gate_witness :
  runWork Demo.ext (ProcessButton 1) Demo.oneButtonStatesReady = Ok Demo.oneButtonReady ∧
  ∃ button,
    akara.Button (World Demo.oneButtonStatesReady) !! 1%N = Some button ∧
    statesReady (d2components.States button) Demo.oneButtonStatesReady ∧
    1%N ∈ akara.Ready (World Demo.oneButtonReady) ∧
    buttonLoadQueue Demo.oneButtonReady !! 1%N = None.
Proof.
  apply (button_ready_gate Demo.ext Demo.oneButtonStatesReady Demo.oneButtonReady 1%N).
  - exact (reach_reachable Demo.ext _ oneButtonStatesReady_reach).
  - apply (step_unit Demo.ext _ (ProcessButton 1)). vm_compute. reflexivity.
  - left. compute_done.
  - left. split; compute_done.
Defined.
